(** * dogg: token price monitor and multiple-alert engine

    A shallow embedding of [token_server.py] and [db_operations.py]:
    the market-cap parser, the DexScreener client, the SQLite ledger
    ([TokenDB]), the delayed tweet scheduler, the ingestion endpoint
    [receive_token] and one pass of the polling loop
    [monitor_token_price], then the methods of [TokenDB] the loop does not
    call and the endpoint [view_monitored_tokens], followed by the
    properties proved of them.

    Conventions of the model.
    - Python floats are idealised: a finite float is an exact rational
      ([PFin]), with [PInf] and [PNaN] for the special values; rounding,
      overflow, underflow and the sign of zero are not modelled, and a JSON
      integer is identified with the float of the same value.
    - Strings are sequences of characters of code point below 256
      ([string]).
    - Code that can raise returns a [res]; code that also has effects runs
      in the monad [M], which keeps the effects made before an exception,
      as Python does.
    - Everything the process obtains from outside (HTTP answers, clock
      readings, storage failures, the aggregator quote, text rendering) is
      read from an oracle record [World]; the counters of the calls made so
      far are part of the state. *)

From Stdlib Require Import ZArith QArith Qreduction Qround List String Ascii Bool
  Lia Lqa.
From Stdlib Require Qcanon.
Import ListNotations.
Open Scope Z_scope.

(** ** Exceptions and results *)

Inductive exn : Type :=
| ValueError | IndexError | KeyError | TypeError | AttributeError
| ZeroDivisionError
| OperationalError      (* sqlite3: no such table / column, locked database *)
| IntegrityError        (* sqlite3: UNIQUE / NOT NULL constraint failed *)
| InterfaceError        (* sqlite3: parameter of unsupported type *)
| RequestException      (* requests: timeout, connection error, ... *)
| SchedulerError        (* apscheduler: add_job failed *)
| RuntimeError.

Inductive res (A : Type) : Type :=
| Ok (a : A)
| Raise (e : exn).
Arguments Ok {A} a.
Arguments Raise {A} e.

Definition rbind {A B} (r : res A) (k : A -> res B) : res B :=
  match r with
  | Ok a => k a
  | Raise e => Raise e
  end.

Declare Scope res_scope.
Delimit Scope res_scope with res.
Notation "'let?' x ':=' r 'in' k" := (rbind r (fun x => k))
  (at level 10, x name, r at level 100, k at level 200) : res_scope.

Definition of_option {A} (e : exn) (o : option A) : res A :=
  match o with
  | Some a => Ok a
  | None => Raise e
  end.

(** ** Floats *)

Inductive pyfloat : Type :=
| PFin (q : Q)
| PInf (negative : bool)
| PNaN.

Definition Qsign_neg (q : Q) : bool := Qnum q <? 0.
Definition Qis_zero (q : Q) : bool := Qnum q =? 0.

(** [a * b] *)
Definition fmul (a b : pyfloat) : pyfloat :=
  match a, b with
  | PNaN, _ | _, PNaN => PNaN
  | PFin x, PFin y => PFin (Qred (x * y))
  | PInf s, PFin y | PFin y, PInf s =>
      if Qis_zero y then PNaN else PInf (xorb s (Qsign_neg y))
  | PInf s, PInf t => PInf (xorb s t)
  end.

(** [a / b]; Python raises on a zero divisor instead of returning an
    infinity. *)
Definition fdiv (a b : pyfloat) : res pyfloat :=
  match a, b with
  | _, PFin y =>
      if Qis_zero y then Raise ZeroDivisionError
      else match a with
           | PFin x => Ok (PFin (Qred (x / y)))
           | PInf s => Ok (PInf (xorb s (Qsign_neg y)))
           | PNaN => Ok PNaN
           end
  | PNaN, _ | _, PNaN => Ok PNaN
  | PFin _, PInf _ => Ok (PFin 0)
  | PInf _, PInf _ => Ok PNaN
  end.

(** [a > 0] *)
Definition fpos (a : pyfloat) : bool :=
  match a with
  | PFin x => 0 <? Qnum x
  | PInf s => negb s
  | PNaN => false
  end.

(** [a >= n] for an integer [n] *)
Definition fge_int (a : pyfloat) (n : Z) : bool :=
  match a with
  | PFin x => Qle_bool (inject_Z n) x
  | PInf s => negb s
  | PNaN => false
  end.

(** ** Strings *)

Definition chars (s : string) : list ascii := list_ascii_of_string s.

(** [s[:-1]] *)
Fixpoint but_last (s : string) : string :=
  match s with
  | EmptyString => EmptyString
  | String c EmptyString => EmptyString
  | String c s' => String c (but_last s')
  end.

(** [s[-1]]; IndexError on the empty string. *)
Fixpoint last_char (s : string) : res ascii :=
  match s with
  | EmptyString => Raise IndexError
  | String c EmptyString => Ok c
  | String _ s' => last_char s'
  end.

Definition upper_char (c : ascii) : ascii :=
  let n := nat_of_ascii c in
  if ((97 <=? n) && (n <=? 122))%nat then ascii_of_nat (n - 32) else c.

Definition lower_char (c : ascii) : ascii :=
  let n := nat_of_ascii c in
  if ((65 <=? n) && (n <=? 90))%nat then ascii_of_nat (n + 32) else c.

Fixpoint ascii_eqb_list (a b : list ascii) : bool :=
  match a, b with
  | [], [] => true
  | x :: a', y :: b' => Ascii.eqb x y && ascii_eqb_list a' b'
  | _, _ => false
  end.

(** *** [float(str)]

    The grammar of the builtin: surrounding white space is dropped; then an
    optional sign, and either [inf], [infinity] or [nan] in any letter case
    or a decimal number: digits with an optional point and an optional
    exponent, where single underscores may separate digits. *)

(** The characters [float] drops at both ends of a [str]: the six the C
    locale calls white space (tab to carriage return, and the space), and
    the two white-space characters above 127, NEL (133) and NBSP (160),
    which the builtin turns into spaces before it parses.  The separators
    28 to 31, white space for [str.strip], are not dropped; any other
    character above 127 ends the conversion with ValueError, as it does
    here, no rule of the grammar accepting it. *)
Definition is_space (c : ascii) : bool :=
  let n := nat_of_ascii c in
  (((9 <=? n) && (n <=? 13)) || (n =? 32) || (n =? 133) || (n =? 160))%nat.

Definition is_digit (c : ascii) : bool :=
  let n := nat_of_ascii c in ((48 <=? n) && (n <=? 57))%nat.

Definition digit_value (c : ascii) : Z := Z.of_nat (nat_of_ascii c) - 48.

Fixpoint drop_spaces (s : list ascii) : list ascii :=
  match s with
  | c :: s' => if is_space c then drop_spaces s' else s
  | [] => []
  end.

Definition strip (s : list ascii) : list ascii :=
  rev (drop_spaces (rev (drop_spaces s))).

(** The longest prefix [digit (["_"] digit)*], as digit values, and the
    rest of the input. *)
Fixpoint digitpart (s : list ascii) : list Z * list ascii :=
  match s with
  | [] => ([], [])
  | c :: s' =>
      if is_digit c then
        match s' with
        | u :: ((d :: _) as s'') =>
            if Ascii.eqb u "_" && is_digit d
            then let (ds, r) := digitpart s'' in (digit_value c :: ds, r)
            else let (ds, r) := digitpart s' in (digit_value c :: ds, r)
        | _ => let (ds, r) := digitpart s' in (digit_value c :: ds, r)
        end
      else ([], s)
  end.

Definition Z_of_digits (ds : list Z) : Z :=
  fold_left (fun acc d => 10 * acc + d) ds 0.

Definition split_sign (s : list ascii) : bool * list ascii :=
  match s with
  | c :: r =>
      if Ascii.eqb c "-" then (true, r)
      else if Ascii.eqb c "+" then (false, r)
      else (false, s)
  | [] => (false, [])
  end.

(** [mantissa * 10 ^ exponent] *)
Definition scale10 (mantissa exponent : Z) : Q :=
  if 0 <=? exponent
  then inject_Z (mantissa * 10 ^ exponent)
  else Qred (Qmake mantissa (Z.to_pos (10 ^ (- exponent)))).

Definition exponent_part (s : list ascii) : option Z :=
  match s with
  | [] => Some 0
  | c :: r =>
      if Ascii.eqb (lower_char c) "e" then
        let (neg, r') := split_sign r in
        match digitpart r' with
        | ((_ :: _) as ds, []) =>
            Some (if neg then - Z_of_digits ds else Z_of_digits ds)
        | _ => None
        end
      else None
  end.

Definition floatnumber (s : list ascii) : option Q :=
  let (ip, r1) := digitpart s in
  let (fp, r2) :=
    match r1 with
    | c :: r => if Ascii.eqb c "." then digitpart r else ([], r1)
    | [] => ([], r1)
    end in
  match ip ++ fp with
  | [] => None
  | ds =>
      match exponent_part r2 with
      | Some e => Some (scale10 (Z_of_digits ds) (e - Z.of_nat (List.length fp)))
      | None => None
      end
  end.

Definition py_float_chars (s : list ascii) : option pyfloat :=
  let (neg, body) := split_sign (strip s) in
  let low := map lower_char body in
  if ascii_eqb_list low (chars "inf") || ascii_eqb_list low (chars "infinity")
  then Some (PInf neg)
  else if ascii_eqb_list low (chars "nan") then Some PNaN
  else match floatnumber body with
       | Some q => Some (PFin (if neg then Qred (- q) else q))
       | None => None
       end.

(** [float(s)] for a string [s]; ValueError when [s] is not a number. *)
Definition py_float (s : string) : res pyfloat :=
  of_option ValueError (py_float_chars (chars s)).

(** ** [parse_market_cap] *)

(** [multipliers.get(unit, 1)] with
    [multipliers = {'K': 1e3, 'M': 1e6, 'B': 1e9}]. *)
Definition multipliers_get (unit : ascii) : pyfloat :=
  if Ascii.eqb unit "K" then PFin 1000
  else if Ascii.eqb unit "M" then PFin 1000000
  else if Ascii.eqb unit "B" then PFin 1000000000
  else PFin 1.

Definition parse_market_cap_body (mcap_str : string) : res pyfloat :=
  (let? number := py_float (but_last mcap_str) in
   let? unit := last_char mcap_str in
   Ok (fmul number (multipliers_get (upper_char unit))))%res.

(** The bare [except] turns every exception into [0.0]. *)
Definition parse_market_cap (mcap_str : string) : pyfloat :=
  match parse_market_cap_body mcap_str with
  | Ok v => v
  | Raise _ => PFin 0
  end.

(** ** Python values

    [pyval] is the type of what [response.json()] returns and of the
    values passed around untyped (a row read as a dict, a parameter of an
    SQL statement).  A dict decoded from JSON has string keys; it is kept
    as an association list whose first binding of a key is the live one. *)

#[local] Set Warnings "-register-all".

Inductive pyval : Type :=
| PyNone
| PyBool (b : bool)
| PyNum (x : pyfloat)
| PyStr (s : string)
| PyList (l : list pyval)
| PyDict (d : list (string * pyval)).

Definition dict := list (string * pyval).

Fixpoint dict_get (d : dict) (k : string) : option pyval :=
  match d with
  | [] => None
  | (k', v) :: d' => if String.eqb k' k then Some v else dict_get d' k
  end.

(** [bool(v)], as tested by [if not v] *)
Definition truthy (v : pyval) : bool :=
  match v with
  | PyNone => false
  | PyBool b => b
  | PyNum (PFin q) => negb (Qis_zero q)
  | PyNum _ => true
  | PyStr s => negb (String.eqb s "")
  | PyList l => match l with [] => false | _ => true end
  | PyDict d => match d with [] => false | _ => true end
  end.

(** [v[key]] for a string key *)
Definition subscript (v : pyval) (key : string) : res pyval :=
  match v with
  | PyDict d => of_option KeyError (dict_get d key)
  | _ => Raise TypeError
  end.

(** [v[0]] *)
Definition subscript0 (v : pyval) : res pyval :=
  match v with
  | PyList l => of_option IndexError (hd_error l)
  | PyStr s =>
      match s with
      | String c _ => Ok (PyStr (String c ""))
      | EmptyString => Raise IndexError
      end
  | PyDict _ => Raise KeyError
  | _ => Raise TypeError
  end.

(** [v.get(key, default)] *)
Definition py_get (v : pyval) (key : string) (default : pyval) : res pyval :=
  match v with
  | PyDict d =>
      Ok match dict_get d key with Some x => x | None => default end
  | _ => Raise AttributeError
  end.

Definition is_str (v : pyval) (s : string) : bool :=
  match v with
  | PyStr t => String.eqb t s
  | _ => false
  end.

(** [key in v] for a string key *)
Definition py_in (key : string) (v : pyval) : res bool :=
  match v with
  | PyDict d => Ok match dict_get d key with Some _ => true | None => false end
  | PyList l => Ok (existsb (fun x => is_str x key) l)
  | PyStr s => Ok match index 0 key s with Some _ => true | None => false end
  | _ => Raise TypeError
  end.

(** The items a [for] loop over [v] visits. *)
Definition py_iter (v : pyval) : res (list pyval) :=
  match v with
  | PyList l => Ok l
  | PyDict d => Ok (map (fun kv => PyStr (fst kv)) d)
  | PyStr s => Ok (map (fun c => PyStr (String c "")) (chars s))
  | _ => Raise TypeError
  end.

(** A value used as a number: a bool counts as 1 or 0. *)
Definition py_number (v : pyval) : res pyfloat :=
  match v with
  | PyNum x => Ok x
  | PyBool b => Ok (PFin (if b then 1 else 0))
  | _ => Raise TypeError
  end.

(** [a / b] *)
Definition py_truediv (a b : pyval) : res pyfloat :=
  (let? x := py_number a in
   let? y := py_number b in
   fdiv x y)%res.

(** [float(v)] *)
Definition py_float_of (v : pyval) : res pyfloat :=
  match v with
  | PyStr s => py_float s
  | _ => py_number v
  end.

(** ** The DexScreener snapshot parser *)

Record parsed_dex : Type := {
  price_usd : pyfloat;
  created_time : string;
  socials : dict
}.

(** The [for social in ...] loop: the first entry whose type is twitter
    sets [social_links['twitter']] and stops the loop. *)
Fixpoint find_twitter (items : list pyval) : res dict :=
  match items with
  | [] => Ok []
  | social :: rest =>
      (let? ty := py_get social "type" PyNone in
       if is_str ty "twitter"
       then let? url := py_get social "url" (PyStr "") in
            Ok [("twitter"%string, url)]
       else find_twitter rest)%res
  end.

Section ParseDex.

(** [datetime.fromtimestamp(t).strftime('%Y-%m-%d %H:%M:%S')]: the local
    calendar is not modelled. *)
Variable fromtimestamp : pyfloat -> res string.

(** The argument is the decoded value: [json.loads (json.dumps v)] is
    [v] again. *)
Definition parse_dexscreener_data_body (data : pyval)
  : res (option parsed_dex) :=
  (let? pairs := py_get data "pairs" PyNone in
   if negb (truthy pairs) then Ok None else
   let? pairs := subscript data "pairs" in
   let? first_pair := subscript0 pairs in
   let? price := py_get first_pair "priceUsd" (PyStr "0") in
   let? pair_created_at := py_get first_pair "pairCreatedAt" (PyNum (PFin 0)) in
   let? has_info := py_in "info" first_pair in
   let? has_socials :=
     (if has_info
      then let? info := subscript first_pair "info" in py_in "socials" info
      else Ok false) in
   let? social_links :=
     (if has_socials
      then let? info := subscript first_pair "info" in
           let? l := subscript info "socials" in
           let? items := py_iter l in
           find_twitter items
      else Ok []) in
   let? seconds := py_truediv pair_created_at (PyNum (PFin 1000)) in
   let? created := fromtimestamp seconds in
   let? p := py_float_of price in
   Ok (Some {| price_usd := p; created_time := created;
               socials := social_links |}))%res.

(** [except Exception] returns None. *)
Definition parse_dexscreener_data (data : pyval) : option parsed_dex :=
  match parse_dexscreener_data_body data with
  | Ok r => r
  | Raise _ => None
  end.

End ParseDex.

(** ** A small SQLite

    Just what [TokenDB] uses: tables with named columns, defaults, NOT NULL
    and a primary key; INSERT of named columns; row tests.  Column
    affinities are not modelled and, as in a stock SQLite, foreign keys are
    not enforced. *)

Inductive sqlval : Type :=
| VNull
| VNum (x : pyfloat)
| VText (s : string)
| VTime (seconds : Z).        (* written by DEFAULT CURRENT_TIMESTAMP *)

Inductive coldefault : Type :=
| DefaultNull
| DefaultValue (v : sqlval)
| DefaultCurrentTimestamp
| DefaultRowid.               (* INTEGER PRIMARY KEY AUTOINCREMENT *)

Record column : Type := {
  col_name : string;
  col_notnull : bool;
  col_default : coldefault
}.

Definition row := list sqlval.

Record table : Type := {
  tbl_columns : list column;
  tbl_key : list string;
  tbl_rows : list row
}.

Definition database := list (string * table).

Definition pyfloat_eqb (a b : pyfloat) : bool :=
  match a, b with
  | PFin x, PFin y => Qeq_bool x y
  | PInf s, PInf t => Bool.eqb s t
  | _, _ => false
  end.

(** SQL [a = b]: never true of a NULL. *)
Definition sql_eqb (a b : sqlval) : bool :=
  match a, b with
  | VNum x, VNum y => pyfloat_eqb x y
  | VText s, VText t => String.eqb s t
  | VTime s, VTime t => s =? t
  | _, _ => false
  end.

Definition is_null (v : sqlval) : bool :=
  match v with VNull => true | _ => false end.

Fixpoint assoc {A} (k : string) (l : list (string * A)) : option A :=
  match l with
  | [] => None
  | (k', a) :: l' => if String.eqb k' k then Some a else assoc k l'
  end.

Definition find_table (db : database) (name : string) : res table :=
  of_option OperationalError (assoc name db).

Fixpoint set_table (db : database) (name : string) (t : table) : database :=
  match db with
  | [] => [(name, t)]
  | (n, t') :: db' =>
      if String.eqb n name then (n, t) :: db'
      else (n, t') :: set_table db' name t
  end.

Definition column_names (t : table) : list string :=
  map col_name (tbl_columns t).

Definition has_column (t : table) (c : string) : bool :=
  existsb (String.eqb c) (column_names t).

(** The value of column [c] in row [r] of [t]. *)
Definition field (t : table) (r : row) (c : string) : res sqlval :=
  of_option OperationalError (assoc c (combine (column_names t) r)).

Definition default_value (now : Z) (t : table) (c : column) : sqlval :=
  match col_default c with
  | DefaultNull => VNull
  | DefaultValue v => v
  | DefaultCurrentTimestamp => VTime now
  | DefaultRowid => VNum (PFin (inject_Z (Z.of_nat (List.length (tbl_rows t)) + 1)))
  end.

Definition new_row (now : Z) (t : table) (given : list (string * sqlval)) : row :=
  map (fun c => match assoc (col_name c) given with
                | Some v => v
                | None => default_value now t c
                end) (tbl_columns t).

Definition key_of (t : table) (r : row) : list sqlval :=
  map (fun c => match field t r c with Ok v => v | Raise _ => VNull end)
      (tbl_key t).

Fixpoint keys_equal (a b : list sqlval) : bool :=
  match a, b with
  | [], [] => true
  | x :: a', y :: b' => sql_eqb x y && keys_equal a' b'
  | _, _ => false
  end.

Definition violates_notnull (t : table) (r : row) : bool :=
  existsb (fun cv => col_notnull (fst cv) && is_null (snd cv))
          (combine (tbl_columns t) r).

Definition violates_key (t : table) (r : row) : bool :=
  match tbl_key t with
  | [] => false
  | _ => existsb (fun r' => keys_equal (key_of t r) (key_of t r')) (tbl_rows t)
  end.

(** Parameters of a statement.  sqlite3 binds None, numbers and strings
    itself (a NaN as NULL) and asks its adapter registry for anything
    else; without an adapter it raises. *)
Definition bind (adapt : pyval -> res sqlval) (v : pyval) : res sqlval :=
  match v with
  | PyNone => Ok VNull
  | PyBool b => Ok (VNum (PFin (if b then 1 else 0)))
  | PyNum PNaN => Ok VNull
  | PyNum x => Ok (VNum x)
  | PyStr s => Ok (VText s)
  | PyList _ | PyDict _ => adapt v
  end.

Fixpoint bind_all (adapt : pyval -> res sqlval) (vs : list pyval)
  : res (list sqlval) :=
  match vs with
  | [] => Ok []
  | v :: vs' =>
      (let? x := bind adapt v in
       let? xs := bind_all adapt vs' in
       Ok (x :: xs))%res
  end.

Definition field_value (t : table) (r : row) (c : string) : sqlval :=
  match field t r c with
  | Ok v => v
  | Raise _ => VNull
  end.

(** [INSERT INTO name (cols) VALUES (?, ...)] with [params], at instant
    [now].  The statement is compiled against the table before the
    parameters are bound. *)
Definition sql_insert (adapt : pyval -> res sqlval) (now : Z) (db : database)
    (name : string) (cols : list string) (params : list pyval)
  : res database :=
  (let? t := find_table db name in
   if negb (forallb (has_column t) cols) then Raise OperationalError else
   let? vals := bind_all adapt params in
   let r := new_row now t (combine cols vals) in
   if violates_notnull t r then Raise IntegrityError else
   if violates_key t r then Raise IntegrityError else
   Ok (set_table db name
         {| tbl_columns := tbl_columns t; tbl_key := tbl_key t;
            tbl_rows := tbl_rows t ++ [r] |}))%res.

(** [SELECT 1 FROM name WHERE c1 = ? AND ...] has a row. *)
Definition sql_exists (adapt : pyval -> res sqlval) (db : database)
    (name : string) (conds : list (string * pyval)) : res bool :=
  (let? t := find_table db name in
   if negb (forallb (has_column t) (map fst conds))
   then Raise OperationalError else
   let? vals := bind_all adapt (map snd conds) in
   Ok (existsb
         (fun r => forallb (fun cv => sql_eqb (field_value t r (fst cv)) (snd cv))
                           (combine (map fst conds) vals))
         (tbl_rows t)))%res.

(** [CREATE TABLE IF NOT EXISTS] *)
Definition create_table_if_not_exists (db : database) (name : string)
    (cols : list column) (key : list string) : database :=
  match assoc name db with
  | Some _ => db
  | None => db ++ [(name, {| tbl_columns := cols; tbl_key := key;
                             tbl_rows := [] |})]
  end.

(** A value read back from a row. *)
Definition py_of_sql (v : sqlval) : pyval :=
  match v with
  | VNull => PyNone
  | VNum x => PyNum x
  | VText s => PyStr s
  | VTime t => PyNum (PFin (inject_Z t))
  end.

(** ** The outside world, the process state and the monad *)

(** A GET request of [fetch_dexscreener_data]: the URL is [req_url]
    followed by the text of [req_address]. *)
Record request : Type := {
  req_url : string;
  req_address : pyval;
  req_headers : list (string * string);
  req_timeout : Z                       (* seconds *)
}.

Inductive http_outcome : Type :=
| HttpResponse (status_code : Z) (json : res pyval)
    (* [json]: what [response.json()] does with the body *)
| HttpRaises (e : exn).                 (* timeout, connection error, ... *)

(** The interactions of the process with the outside are numbered in the
    order they happen; [w_clock k] is the wall clock, in seconds, at
    interaction [k], and every other oracle says how interaction [k] turns
    out when it is of that kind. *)
Record World : Type := {
  w_clock : nat -> Q;
  w_db_fault : nat -> option exn;       (* the storage layer raises *)
  w_adapt : pyval -> res sqlval;        (* sqlite3's adapter registry *)
  w_sql_datetime : Z -> sqlval -> option Z;
    (* SQLite's [datetime(x)] evaluated at a given instant, in seconds;
       None for NULL *)
  w_http_get : nat -> request -> http_outcome;
  w_fromtimestamp : pyfloat -> res string;
  w_format_tweet_text : dict -> parsed_dex -> pyfloat -> res string;
    (* the text of an alert; its layout is not modelled *)
  w_add_job : nat -> option exn;        (* [scheduler.add_job] raises *)
  w_post_tweet : nat -> string -> res Z;  (* status code of [oauth.post] *)
  w_okx_new : nat -> option exn;        (* [OkxDexAPI()] raises *)
  w_get_quote : nat -> string -> res pyval;
  w_purchase_params : pyval -> string -> res (list pyval);
    (* the parameters [add_purchase_record] computes from a quote *)
  w_sleep : nat -> option exn
}.

Record job : Type := {
  job_run_date : Q;
  job_text : string
}.

(** What the program prints.  One constructor per report, carrying the
    values in scope at the print statement that the properties below refer
    to.  The consecutive prints of [schedule_tweet] make one report.  Left
    out are the banners that announce a step without reporting its outcome
    and the diagnostics that repeat what the returned value says (those of
    [parse_dexscreener_data] and of the replies of [receive_token]). *)
Inductive line : Type :=
(* fetch_dexscreener_data *)
| LRequestFailed (status_code : Z)
| LFetchError (e : exn)
(* schedule_tweet, send_tweet *)
| LQueued (current_time target_time : Q) (text : string)
| LTweetContent (text : string)
| LTweetFailed (status_code : Z)
| LTweetSent
| LTweetError (e : exn)
(* TokenDB *)
| LTokenAdded (token : pyval)
| LTokenExists (token : pyval)
| LAddTokenFailed (e : exn)
| LRecordAlertFailed (e : exn)
| LPriceRecordFailed (e : exn)
| LPurchaseRecordFailed (e : exn)
(* monitor_token_price *)
| LRoundStart
| LTokenCount (n : nat)
| LTokenListFailed (e : exn)
| LCheckToken (token : pyval)
| LFetchFailed (token : pyval)
| LCurrentMcap (current_mcap : pyval) (multiple : pyfloat)
| LTooSoon (ca : pyval) (target_multiple : Z) (current_timestamp : Q)
           (wait_time : Z)
| LTargetReached (ca : pyval) (target_multiple : Z) (current_timestamp : Q)
| LScheduled (ca : pyval) (target_multiple : Z) (current_timestamp : Q)
| LTierError (e : exn)
| LTokenError (e : exn)
| LWaitNext
| LMonitorError (e : exn)
| LSleepError (e : exn)
(* check_tokens, receive_token *)
| LQuoteRecorded (ca : string)
| LQuoteFailed
| LQuoteError (e : exn)
| LReceived (token : string)
| LStored (token : string)
| LReceiveError (e : exn).

Record state : Type := {
  st_db : database;
  st_jobs : list job;                   (* pending jobs of the scheduler *)
  st_posted : list string;              (* texts handed to the posting API *)
  st_requests : list request;           (* GET requests issued *)
  st_out : list line;                   (* printed so far, oldest first *)
  st_steps : nat;                       (* interactions so far *)
  st_last_tweet_time : Q                (* the loop's [last_tweet_time] *)
}.

Definition M (A : Type) : Type := state -> res A * state.

Definition ret {A} (a : A) : M A := fun st => (Ok a, st).

Definition bind_m {A B} (m : M A) (k : A -> M B) : M B :=
  fun st =>
    match m st with
    | (Ok a, st') => k a st'
    | (Raise e, st') => (Raise e, st')
    end.

Definition raise {A} (e : exn) : M A := fun st => (Raise e, st).

(** [try: m except Exception as e: handler e] *)
Definition try_ {A} (m : M A) (handler : exn -> M A) : M A :=
  fun st =>
    match m st with
    | (Ok a, st') => (Ok a, st')
    | (Raise e, st') => handler e st'
    end.

Definition lift {A} (r : res A) : M A := fun st => (r, st).

Declare Scope m_scope.
Delimit Scope m_scope with m.
Notation "x <- m ;; k" := (bind_m m (fun x => k))
  (at level 61, m at next level, right associativity) : m_scope.
Notation "m ;; k" := (bind_m m (fun _ => k))
  (at level 61, right associativity) : m_scope.
Open Scope m_scope.

Definition print (l : line) : M unit :=
  fun st =>
    (Ok tt, {| st_db := st_db st; st_jobs := st_jobs st;
               st_posted := st_posted st; st_requests := st_requests st;
               st_out := st_out st ++ [l]; st_steps := st_steps st;
               st_last_tweet_time := st_last_tweet_time st |}).

(** The next interaction with the outside: its number. *)
Definition interact : M nat :=
  fun st =>
    (Ok (st_steps st),
     {| st_db := st_db st; st_jobs := st_jobs st;
        st_posted := st_posted st; st_requests := st_requests st;
        st_out := st_out st; st_steps := S (st_steps st);
        st_last_tweet_time := st_last_tweet_time st |}).

Definition get_db : M database := fun st => (Ok (st_db st), st).

Definition put_db (db : database) : M unit :=
  fun st =>
    (Ok tt, {| st_db := db; st_jobs := st_jobs st;
               st_posted := st_posted st; st_requests := st_requests st;
               st_out := st_out st; st_steps := st_steps st;
               st_last_tweet_time := st_last_tweet_time st |}).

Definition get_last_tweet_time : M Q :=
  fun st => (Ok (st_last_tweet_time st), st).

Definition put_last_tweet_time (t : Q) : M unit :=
  fun st =>
    (Ok tt, {| st_db := st_db st; st_jobs := st_jobs st;
               st_posted := st_posted st; st_requests := st_requests st;
               st_out := st_out st; st_steps := st_steps st;
               st_last_tweet_time := t |}).

Definition add_request (r : request) : M unit :=
  fun st =>
    (Ok tt, {| st_db := st_db st; st_jobs := st_jobs st;
               st_posted := st_posted st;
               st_requests := st_requests st ++ [r];
               st_out := st_out st; st_steps := st_steps st;
               st_last_tweet_time := st_last_tweet_time st |}).

Definition add_posted (text : string) : M unit :=
  fun st =>
    (Ok tt, {| st_db := st_db st; st_jobs := st_jobs st;
               st_posted := st_posted st ++ [text];
               st_requests := st_requests st;
               st_out := st_out st; st_steps := st_steps st;
               st_last_tweet_time := st_last_tweet_time st |}).

Definition get_jobs : M (list job) := fun st => (Ok (st_jobs st), st).

Definition put_jobs (js : list job) : M unit :=
  fun st =>
    (Ok tt, {| st_db := st_db st; st_jobs := js;
               st_posted := st_posted st; st_requests := st_requests st;
               st_out := st_out st; st_steps := st_steps st;
               st_last_tweet_time := st_last_tweet_time st |}).

Definition fault (o : option exn) : M unit :=
  match o with
  | Some e => raise e
  | None => ret tt
  end.

(** A [for] loop whose body does not break. *)
Fixpoint for_each {A} (l : list A) (body : A -> M unit) : M unit :=
  match l with
  | [] => ret tt
  | a :: l' => body a ;; for_each l' body
  end.

(** ** [TokenDB] *)

Definition col (name : string) (notnull : bool) (d : coldefault) : column :=
  {| col_name := name; col_notnull := notnull; col_default := d |}.

Definition monitored_tokens_columns : list column :=
  [ col "ca" false DefaultNull;
    col "token" true DefaultNull;
    col "initial_mcap" true DefaultNull;
    col "created_at" false DefaultCurrentTimestamp;
    col "last_alert_time" false (DefaultValue (VNum (PFin 0)));
    col "received_time" false DefaultNull;
    col "sourceType" false DefaultNull ].

Definition multiple_alerts_columns : list column :=
  [ col "ca" false DefaultNull;
    col "multiple" false DefaultNull;
    col "alert_time" false DefaultCurrentTimestamp ].

Definition price_history_columns : list column :=
  [ col "id" false DefaultRowid;
    col "ca" true DefaultNull;
    col "price_usd" false DefaultNull;
    col "price_native" false DefaultNull;
    col "volume_24h" false DefaultNull;
    col "fdv" false DefaultNull;
    col "market_cap" false DefaultNull;
    col "liquidity_usd" false DefaultNull;
    col "timestamp" false DefaultCurrentTimestamp ].

Definition purchase_records_columns : list column :=
  [ col "id" false DefaultRowid;
    col "ca" true DefaultNull;
    col "from_token_symbol" true DefaultNull;
    col "from_token_amount" true DefaultNull;
    col "from_token_price" true DefaultNull;
    col "to_token_symbol" true DefaultNull;
    col "to_token_amount" true DefaultNull;
    col "to_token_price" true DefaultNull;
    col "price_impact" false DefaultNull;
    col "trade_fee" false DefaultNull;
    col "dex_name" false DefaultNull;
    col "timestamp" false DefaultCurrentTimestamp;
    col "status" false (DefaultValue (VText "pending"));
    col "tx_hash" false DefaultNull ].

(** The four [CREATE TABLE IF NOT EXISTS] of [init_db]. *)
Definition init_db_sql (db : database) : database :=
  let db := create_table_if_not_exists db "monitored_tokens"
              monitored_tokens_columns ["ca"%string] in
  let db := create_table_if_not_exists db "multiple_alerts"
              multiple_alerts_columns ["ca"%string; "multiple"%string] in
  let db := create_table_if_not_exists db "price_history"
              price_history_columns ["id"%string] in
  create_table_if_not_exists db "purchase_records"
    purchase_records_columns ["id"%string].

(** The trailing window of [get_all_tokens], in seconds. *)
Definition WINDOW_SECONDS : Z := 72 * 3600.

Section TokenDB_sql.

Variable adapt : pyval -> res sqlval.
Variable sql_datetime : Z -> sqlval -> option Z.

(** The statements of each method, run at instant [now] on [db]; the
    result is the method's value and the committed database. *)

Definition add_token_sql (now : Z) (db : database)
    (token ca initial_mcap received_time source_type : pyval)
  : res (bool * database) :=
  (let? present := sql_exists adapt db "monitored_tokens" [("ca"%string, ca)] in
   if present then Ok (false, db) else
   let? db' := sql_insert adapt now db "monitored_tokens"
                 ["ca"; "token"; "initial_mcap"; "received_time"; "sourceType"]%string
                 [ca; token; initial_mcap; received_time; source_type] in
   Ok (true, db'))%res.

(** [datetime(received_time) > datetime('now', '-72 hours')] *)
Definition in_window (now : Z) (received_time : sqlval) : bool :=
  match sql_datetime now received_time with
  | Some t => now - WINDOW_SECONDS <? t
  | None => false
  end.

Definition token_columns : list string :=
  ["ca"; "token"; "initial_mcap"; "last_alert_time"; "received_time";
   "sourceType"]%string.

(** [dict(row)] of a selected row *)
Definition token_dict (t : table) (r : row) : dict :=
  map (fun c => (c, py_of_sql (field_value t r c))) token_columns.

Definition get_all_tokens_sql (now : Z) (db : database) : res (list dict) :=
  (let? t := find_table db "monitored_tokens" in
   if negb (forallb (has_column t) token_columns)
   then Raise OperationalError else
   Ok (map (token_dict t)
          (filter (fun r => in_window now (field_value t r "received_time"))
                  (tbl_rows t))))%res.

Definition check_multiple_alerted_sql (db : database) (ca multiple : pyval)
  : res bool :=
  sql_exists adapt db "multiple_alerts"
    [("ca"%string, ca); ("multiple"%string, multiple)].

Definition record_multiple_alert_sql (now : Z) (db : database)
    (ca multiple max_market_cap : pyval) : res database :=
  sql_insert adapt now db "multiple_alerts"
    ["ca"; "multiple"; "max_market_cap"]%string
    [ca; multiple; max_market_cap].

(** The parameters of the INSERT of [add_price_record]. *)
Definition price_params (ca pair : pyval) : res (list pyval) :=
  (let? price := py_get pair "priceUsd" (PyNum (PFin 0)) in
   let? price := py_float_of price in
   let? native := py_get pair "priceNative" (PyNum (PFin 0)) in
   let? native := py_float_of native in
   let? volume := py_get pair "volume" (PyDict []) in
   let? h24 := py_get volume "h24" (PyNum (PFin 0)) in
   let? fdv := py_get pair "fdv" (PyNum (PFin 0)) in
   let? mcap := py_get pair "marketCap" (PyNum (PFin 0)) in
   let? liquidity := py_get pair "liquidity" (PyDict []) in
   let? usd := py_get liquidity "usd" (PyNum (PFin 0)) in
   Ok [ca; PyNum price; PyNum native; h24; fdv; mcap; usd])%res.

Definition add_price_record_sql (now : Z) (db : database)
    (ca pair : pyval) : res database :=
  (let? params := price_params ca pair in
   sql_insert adapt now db "price_history"
     ["ca"; "price_usd"; "price_native"; "volume_24h"; "fdv"; "market_cap";
      "liquidity_usd"]%string params)%res.

Definition add_purchase_record_sql (now : Z) (db : database)
    (params : list pyval) : res database :=
  sql_insert adapt now db "purchase_records"
    ["ca"; "from_token_symbol"; "from_token_amount"; "from_token_price";
     "to_token_symbol"; "to_token_amount"; "to_token_price"; "price_impact";
     "trade_fee"; "dex_name"]%string params.

End TokenDB_sql.

(** ** The program *)

Definition MULTIPLES : list Z := [5; 10; 20; 50; 100].
Definition TWEET_INTERVAL : Z := 10.

Record TokenData : Type := {
  token : string;
  ca : string;
  marketCap : string;
  date : string;
  sourceType : list string
}.

Inductive error_message : Type :=
| FetchFailedMessage            (* the DexScreener data could not be got *)
| ParseFailedMessage.           (* the DexScreener data could not be parsed *)

(** What [receive_token] answers. *)
Inductive reply : Type :=
| ReplyError (message : error_message)        (* {"status": "error", ...} *)
| ReplySuccess (token : string) (initial_mcap : pyfloat)
    (dex_data : parsed_dex) (quote_data : pyval)
                                              (* {"status": "success", ...} *)
| ReplyHTTPException (status_code : Z) (e : exn).

Definition remove_nth {A} (n : nat) (l : list A) : list A :=
  firstn n l ++ skipn (S n) l.

Section Program.

Variable w : World.

(** *** TokenDB methods *)

(** [async with aiosqlite.connect(...)]: one interaction with the
    storage layer.  The statements of [body] run at the instant of the
    interaction and are committed together; when the layer or a
    statement raises, the connection closes without a commit. *)
Definition with_connection {A}
    (body : Z -> database -> res (A * database)) : M A :=
  k <- interact ;;
  fault (w_db_fault w k) ;;
  db <- get_db ;;
  match body (Qfloor (w_clock w k)) db with
  | Ok (a, db') => put_db db' ;; ret a
  | Raise e => raise e
  end.

Definition init_db : M unit :=
  with_connection (fun _ db => Ok (tt, init_db_sql db)).

Definition add_token (token ca initial_mcap received_time source_type : pyval)
  : M bool :=
  try_
    (added <- with_connection (fun now db =>
                add_token_sql (w_adapt w) now db
                  token ca initial_mcap received_time source_type) ;;
     if added : bool
     then print (LTokenAdded token) ;; ret true
     else print (LTokenExists token) ;; ret false)
    (fun e => print (LAddTokenFailed e) ;; ret false).

Definition get_all_tokens : M (list dict) :=
  with_connection (fun now db =>
    rbind (get_all_tokens_sql (w_sql_datetime w) now db)
          (fun rows => Ok (rows, db))).

Definition check_multiple_alerted (ca multiple : pyval) : M bool :=
  with_connection (fun _ db =>
    rbind (check_multiple_alerted_sql (w_adapt w) db ca multiple)
          (fun b => Ok (b, db))).

Definition record_multiple_alert (ca multiple max_market_cap : pyval)
  : M bool :=
  try_
    (with_connection (fun now db =>
       rbind (record_multiple_alert_sql (w_adapt w) now db
                ca multiple max_market_cap)
             (fun db' => Ok (tt, db'))) ;;
     ret true)
    (fun e => print (LRecordAlertFailed e) ;; ret false).

Definition add_price_record (ca dex_data : pyval) : M bool :=
  try_
    (pairs <- lift (subscript dex_data "pairs") ;;
     pair <- lift (subscript0 pairs) ;;
     with_connection (fun now db =>
       rbind (add_price_record_sql (w_adapt w) now db ca pair)
             (fun db' => Ok (tt, db'))) ;;
     ret true)
    (fun e => print (LPriceRecordFailed e) ;; ret false).

Definition add_purchase_record (quote_data : pyval) (ca : string) : M bool :=
  try_
    (with_connection (fun now db =>
       rbind (w_purchase_params w quote_data ca)
             (fun params =>
                rbind (add_purchase_record_sql (w_adapt w) now db params)
                      (fun db' => Ok (tt, db')))) ;;
     ret true)
    (fun e => print (LPurchaseRecordFailed e) ;; ret false).

(** *** The market data client *)

Definition dexscreener_request (token_address : pyval) : request :=
  {| req_url := "https://api.dexscreener.com/latest/dex/tokens/";
     req_address := token_address;
     req_headers := [("Accept", "application/json");
                     ("User-Agent", "Mozilla/5.0")]%string;
     req_timeout := 10 |}.

(** The result is the decoded answer, or None ([PyNone]). *)
Definition fetch_dexscreener_data (token_address : pyval) : M pyval :=
  try_
    (k <- interact ;;
     add_request (dexscreener_request token_address) ;;
     match w_http_get w k (dexscreener_request token_address) with
     | HttpRaises e => raise e
     | HttpResponse status_code json =>
         if status_code =? 200 then lift json
         else print (LRequestFailed status_code) ;; ret PyNone
     end)
    (fun e => print (LFetchError e) ;; ret PyNone).

(** *** The dispatcher *)

Definition send_tweet (text : string) : M bool :=
  print (LTweetContent text) ;;
  try_
    (k <- interact ;;
     add_posted text ;;
     status_code <- lift (w_post_tweet w k text) ;;
     if negb (status_code =? 201)
     then print (LTweetFailed status_code) ;; ret false
     else print LTweetSent ;; ret true)
    (fun e => print (LTweetError e) ;; ret false).

Definition schedule_tweet (text : string) (delay_minutes : Z) : M unit :=
  k <- interact ;;
  let current_time := w_clock w k in
  let target_time := (current_time + inject_Z (delay_minutes * 60))%Q in
  print (LQueued current_time target_time text) ;;
  j <- interact ;;
  fault (w_add_job w j) ;;
  jobs <- get_jobs ;;
  put_jobs (jobs ++ [{| job_run_date := target_time; job_text := text |}]).

(** [delay_minutes: int = 30] *)
Definition schedule_tweet_default (text : string) : M unit :=
  schedule_tweet text 30.

(** The background scheduler runs a pending job of trigger [date] once,
    when its date has come, and drops it. *)
Definition run_job (n : nat) : M unit :=
  k <- interact ;;
  jobs <- get_jobs ;;
  match nth_error jobs n with
  | Some j =>
      if Qle_bool (job_run_date j) (w_clock w k)
      then put_jobs (remove_nth n jobs) ;;
           _ <- send_tweet (job_text j) ;;
           ret tt
      else ret tt
  | None => ret tt
  end.

(** *** The polling loop *)

Definition py_int (n : Z) : pyval := PyNum (PFin (inject_Z n)).

(** The body of the innermost [try], for a tier the multiple has
    reached. *)
Definition tier_body (token : dict) (dex_data current_mcap : pyval)
    (multiple : pyfloat) (target_multiple : Z) : M unit :=
  ca <- lift (subscript (PyDict token) "ca") ;;
  alerted <- check_multiple_alerted ca (py_int target_multiple) ;;
  if alerted : bool then ret tt else
  k <- interact ;;
  let current_timestamp := w_clock w k in
  last_tweet_time <- get_last_tweet_time ;;
  if negb (Qle_bool (inject_Z TWEET_INTERVAL)
                    (current_timestamp - last_tweet_time)%Q)
  then
    print (LTooSoon ca target_multiple current_timestamp
             (Qfloor (inject_Z TWEET_INTERVAL
                      - (current_timestamp - last_tweet_time))%Q))
    (* continue *)
  else
    print (LTargetReached ca target_multiple current_timestamp) ;;
    match parse_dexscreener_data (w_fromtimestamp w) dex_data with
    | Some parsed_dex_data =>
        tweet_text <- lift (w_format_tweet_text w token parsed_dex_data
                              multiple) ;;
        schedule_tweet tweet_text 30 ;;
        _ <- record_multiple_alert ca (py_int target_multiple) current_mcap ;;
        k' <- interact ;;
        put_last_tweet_time (w_clock w k') ;;
        _ <- lift (subscript (PyDict token) "token") ;;
        print (LScheduled ca target_multiple current_timestamp)
    | None => ret tt
    end.

Definition tier_step (token : dict) (dex_data current_mcap : pyval)
    (multiple : pyfloat) (target_multiple : Z) : M unit :=
  if fge_int multiple target_multiple
  then try_ (tier_body token dex_data current_mcap multiple target_multiple)
            (fun e => print (LTierError e))
  else ret tt.

(** The body of the per-token [try]. *)
Definition token_body (token : dict) : M unit :=
  name <- lift (subscript (PyDict token) "token") ;;
  print (LCheckToken name) ;;
  ca <- lift (subscript (PyDict token) "ca") ;;
  dex_data <- fetch_dexscreener_data ca ;;
  if negb (truthy dex_data)
  then print (LFetchFailed name)        (* continue *)
  else
    _ <- add_price_record ca dex_data ;;
    pairs <- lift (subscript dex_data "pairs") ;;
    first_pair <- lift (subscript0 pairs) ;;
    current_mcap <- lift (subscript first_pair "fdv") ;;
    initial_mcap <- lift (subscript (PyDict token) "initial_mcap") ;;
    multiple <- lift (py_truediv current_mcap initial_mcap) ;;
    print (LCurrentMcap current_mcap multiple) ;;
    for_each MULTIPLES (tier_step token dex_data current_mcap multiple).

Definition token_step (token : dict) : M unit :=
  try_ (token_body token)
       (fun e => _ <- lift (subscript (PyDict token) "token") ;;
                 print (LTokenError e)).

(** One turn of the [while True]: the pass over the tokens, then the
    sleep. *)
Definition monitor_cycle : M unit :=
  try_
    (print LRoundStart ;;
     tokens <- try_ (tokens <- get_all_tokens ;;
                     print (LTokenCount (List.length tokens)) ;;
                     ret tokens)
                    (fun e => print (LTokenListFailed e) ;; raise e) ;;
     for_each tokens token_step ;;
     print LWaitNext)
    (fun e => print (LMonitorError e)) ;;
  try_ (k <- interact ;; fault (w_sleep w k))
       (fun e => print (LSleepError e)).

Fixpoint monitor_cycles (n : nat) : M unit :=
  match n with
  | O => ret tt
  | S n' => monitor_cycle ;; monitor_cycles n'
  end.

(** [monitor_token_price], stopped after [n] turns of its loop. *)
Definition monitor_token_price (n : nat) : M unit :=
  put_last_tweet_time 0%Q ;;
  monitor_cycles n.

(** *** Ingestion *)

Definition check_tokens (ca : string) : M pyval :=
  k <- interact ;;
  fault (w_okx_new w k) ;;
  try_
    (k' <- interact ;;
     quote_result <- lift (w_get_quote w k' ca) ;;
     code <- lift (py_get quote_result "code" PyNone) ;;
     if is_str code "0"
     then _ <- add_purchase_record quote_result ca ;;
          print (LQuoteRecorded ca) ;;
          ret quote_result
     else _ <- lift (py_get quote_result "msg" (PyStr "")) ;;
          print LQuoteFailed ;;
          ret PyNone)
    (fun e => print (LQuoteError e) ;; ret PyNone).

Definition receive_token (data : TokenData) : M reply :=
  try_
    (print (LReceived (token data)) ;;
     dex_raw_data <- fetch_dexscreener_data (PyStr (ca data)) ;;
     if negb (truthy dex_raw_data) then ret (ReplyError FetchFailedMessage)
     else
       match parse_dexscreener_data (w_fromtimestamp w) dex_raw_data with
       | None => ret (ReplyError ParseFailedMessage)
       | Some dex_data =>
           let mcap := parse_market_cap (marketCap data) in
           (if fpos mcap
            then added <- add_token (PyStr (token data)) (PyStr (ca data))
                            (PyNum mcap) (PyStr (date data))
                            (PyList (map PyStr (sourceType data))) ;;
                 if added : bool then print (LStored (token data)) else ret tt
            else ret tt) ;;
           quote_result <- check_tokens (ca data) ;;
           ret (ReplySuccess (token data) mcap dex_data quote_result)
       end)
    (fun e => print (LReceiveError e) ;; ret (ReplyHTTPException 500 e)).

End Program.

(** The state of a process that has just started. *)
Definition initial_state (db : database) : state :=
  {| st_db := db; st_jobs := []; st_posted := []; st_requests := [];
     st_out := []; st_steps := 0; st_last_tweet_time := 0%Q |}.

(** ** Vocabulary of the properties *)







(** Worlds and data for the concrete runs.  In [sample_world] nothing
    fails: the storage layer and the scheduler never raise, a post is
    answered 201, no quote is available; the clock, the HTTP answers and
    the adapter registry are given. *)
Definition sample_world (clock : nat -> Q) (http : request -> http_outcome)
    (adapt : pyval -> res sqlval) : World :=
  {| w_clock := clock;
     w_db_fault := fun _ => None;
     w_adapt := adapt;
     w_sql_datetime := fun _ v =>
       match v with
       | VText "2024-05-01 12:00:00" => Some 1714564800
       | _ => None
       end;
     w_http_get := fun _ r => http r;
     w_fromtimestamp := fun _ => Ok "2024-04-30 08:00:00"%string;
     w_format_tweet_text := fun _ _ _ => Ok "alert"%string;
     w_add_job := fun _ => None;
     w_post_tweet := fun _ _ => Ok 201;
     w_okx_new := fun _ => None;
     w_get_quote := fun _ _ => Ok (PyDict [("code"%string, PyStr "1")]);
     w_purchase_params := fun _ _ => Raise KeyError;
     w_sleep := fun _ => None |}.

(** sqlite3 as shipped: no adapter is registered. *)
Definition no_adapter (v : pyval) : res sqlval := Raise InterfaceError.

(** A DexScreener answer with one pair of the given valuation. *)
Definition snapshot (fdv : Q) : pyval :=
  PyDict [("pairs"%string,
           PyList [PyDict [("fdv"%string, PyNum (PFin fdv));
                           ("priceUsd"%string, PyStr "0.01");
                           ("pairCreatedAt"%string,
                            PyNum (PFin 1714464000000))]])].

(** The database [init_db] makes of a new file. *)
Definition fresh_db : database := init_db_sql [].

(** A ledger created with the market-cap column that
    [record_multiple_alert] writes and the statistics job reads. *)
Definition multiple_alerts_with_mcap : table :=
  {| tbl_columns := multiple_alerts_columns
                    ++ [col "max_market_cap" false DefaultNull];
     tbl_key := ["ca"; "multiple"]%string;
     tbl_rows := [] |}.

Definition db_with_mcap_column : database :=
  init_db_sql [("multiple_alerts"%string, multiple_alerts_with_mcap)].

(** The rows of a table of [db]; none when the table is missing. *)
Definition rows_of (db : database) (name : string) : list row :=
  match assoc name db with
  | Some t => tbl_rows t
  | None => []
  end.

(** Relations between the state before and after an action. *)

(** [R] holds from every state to the state the action leaves, whether it
    returns or raises. *)
Definition respects (R : state -> state -> Prop) {A} (m : M A) : Prop :=
  forall st, R st (snd (m st)).

(** The action only adds lines that satisfy [P]. *)
Definition emits (P : line -> Prop) (st st' : state) : Prop :=
  exists new, st_out st' = st_out st ++ new /\ Forall P new.


(** The monitored-token table of a state. *)
Definition tokens_table (st : state) : option table :=
  assoc "monitored_tokens" (st_db st).

(** A relation between databases, read on states. *)
Definition on_db (R : database -> database -> Prop) (st st' : state) : Prop :=
  R (st_db st) (st_db st').

Definition same_tokens (db db' : database) : Prop :=
  assoc "monitored_tokens" db' = assoc "monitored_tokens" db.

(** Every monitored token has a baseline market cap above zero. *)
Definition positive_baselines (db : database) : Prop :=
  forall t r,
    assoc "monitored_tokens" db = Some t ->
    In r (tbl_rows t) ->
    exists baseline,
      field_value t r "initial_mcap" = VNum baseline /\ fpos baseline = true.

(** [a <= 0] *)
Definition fle0 (a : pyfloat) : bool :=
  match a with
  | PFin x => Qnum x <=? 0
  | PInf s => s
  | PNaN => false
  end.

(** What happens in a process, in any order: the start-up hook, a request
    to the ingestion endpoint, a turn of the polling loop, the scheduler
    running a pending job. *)
Inductive action : Type :=
| InitDb
| ReceiveToken (data : TokenData)
| MonitorCycle
| RunJob (n : nat).

Definition perform (w : World) (a : action) : M unit :=
  match a with
  | InitDb => init_db w
  | ReceiveToken data => _ <- receive_token w data ;; ret tt
  | MonitorCycle => monitor_cycle w
  | RunJob n => run_job w n
  end.

Definition run (w : World) (actions : list action) (st : state) : state :=
  fold_left (fun st a => snd (perform w a st)) actions st.

(** A submission for the concrete runs. *)
Definition sample_data (market_cap : string) : TokenData :=
  {| token := "TOK"; ca := "A"; marketCap := market_cap;
     date := "2024-05-01 12:00:00"; sourceType := ["channel"%string] |}.

Definition keeps_positive (db db' : database) : Prop :=
  positive_baselines db -> positive_baselines db'.

(** sqlite3 with an adapter that stores a list as text. *)
Definition list_adapter (v : pyval) : res sqlval :=
  match v with
  | PyList _ => Ok (VText "[...]")
  | _ => Raise InterfaceError
  end.

(** What [record_multiple_alert] does to [db] when it is called at
    interaction [k]. *)
Definition record_outcome (w : World) (k : nat) (db : database)
    (ca : pyval) (t : Z) (current_mcap : pyval) : res database :=
  match w_db_fault w k with
  | Some e => Raise e
  | None =>
      record_multiple_alert_sql (w_adapt w) (Qfloor (w_clock w k)) db
        ca (py_int t) current_mcap
  end.

(** The line [send_tweet] prints for an answer of the posting API that is
    not a success. *)
Definition failure_line (answer : res Z) : line :=
  match answer with
  | Ok status_code => LTweetFailed status_code
  | Raise e => LTweetError e
  end.

(** A database with one monitored token A of baseline 100 and a ledger
    that has the market-cap column. *)
Definition db_one_token : database :=
  match add_token_sql no_adapter 1714564800 db_with_mcap_column
          (PyStr "TOK") (PyStr "A") (PyNum (PFin 100))
          (PyStr "2024-05-01 12:00:00") (PyStr "channel") with
  | Ok (_, db) => db
  | Raise _ => db_with_mcap_column
  end.

Definition token_A : dict :=
  [("ca", PyStr "A"); ("token", PyStr "TOK");
   ("initial_mcap", PyNum (PFin 100));
   ("last_alert_time", PyNum (PFin 0));
   ("received_time", PyStr "2024-05-01 12:00:00");
   ("sourceType", PyStr "channel")]%string.

(** The time of the spacing test a line reports having passed, and the
    time of the test behind a scheduled alert. *)
Definition dispatch_time (l : line) : option Q :=
  match l with
  | LTargetReached _ _ t | LScheduled _ _ t => Some t
  | _ => None
  end.

Definition scheduled_time (l : line) : option Q :=
  match l with
  | LScheduled _ _ t => Some t
  | _ => None
  end.

(** After an alert is scheduled, the spacing test is passed (and an alert
    scheduled) only [TWEET_INTERVAL] seconds or more after that alert's own
    test. *)
Definition well_spaced (out : list line) : Prop :=
  forall (i j : nat) (l1 l2 : line) (t1 t2 : Q),
    (i < j)%nat ->
    nth_error out i = Some l1 -> scheduled_time l1 = Some t1 ->
    nth_error out j = Some l2 -> dispatch_time l2 = Some t2 ->
    (t1 + inject_Z TWEET_INTERVAL <= t2)%Q.

Definition bounded_by (last : Q) (out : list line) : Prop :=
  forall l t, In l out -> scheduled_time l = Some t -> (t <= last)%Q.

Definition spaced (st : state) : Prop :=
  well_spaced (st_out st) /\ bounded_by (st_last_tweet_time st) (st_out st).

Definition keeps_spaced (st st' : state) : Prop := spaced st -> spaced st'.

Definition monotone_clock (w : World) : Prop :=
  forall i j, (i <= j)%nat -> (w_clock w i <= w_clock w j)%Q.

(** The action is no part of the dispatch decisions. *)
Definition calm (st st' : state) : Prop :=
  st_last_tweet_time st' = st_last_tweet_time st
  /\ (st_steps st <= st_steps st')%nat
  /\ emits (fun l => dispatch_time l = None) st st'.

(** A second monitored token, B, of baseline 200. *)
Definition db_two_tokens : database :=
  match add_token_sql no_adapter 1714564800 db_one_token
          (PyStr "TOK2") (PyStr "B") (PyNum (PFin 200))
          (PyStr "2024-05-01 12:00:00") (PyStr "channel") with
  | Ok (_, db) => db
  | Raise _ => db_one_token
  end.

(** The same two tokens in the database as [init_db] creates it, whose
    ledger has no market-cap column. *)
Definition fresh_one_token : database :=
  match add_token_sql no_adapter 1714564800 fresh_db
          (PyStr "TOK") (PyStr "A") (PyNum (PFin 100))
          (PyStr "2024-05-01 12:00:00") (PyStr "channel") with
  | Ok (_, db) => db
  | Raise _ => fresh_db
  end.

Definition fresh_two_tokens : database :=
  match add_token_sql no_adapter 1714564800 fresh_one_token
          (PyStr "TOK2") (PyStr "B") (PyNum (PFin 200))
          (PyStr "2024-05-01 12:00:00") (PyStr "channel") with
  | Ok (_, db) => db
  | Raise _ => fresh_one_token
  end.

(** DexScreener answering a valuation per address; no answer for any
    other address. *)
Definition http_for (fdv_A fdv_B : option Q) (r : request) : http_outcome :=
  let answer o :=
    match o with
    | Some fdv => HttpResponse 200 (Ok (snapshot fdv))
    | None => HttpRaises RequestException
    end in
  if is_str (req_address r) "A" then answer fdv_A
  else if is_str (req_address r) "B" then answer fdv_B
  else HttpResponse 404 (Raise ValueError).

(** What [fetch_dexscreener_data] returns and prints for each outcome of
    its request. *)
Definition fetch_result (o : http_outcome) : pyval :=
  match o with
  | HttpResponse status_code (Ok json) =>
      if status_code =? 200 then json else PyNone
  | _ => PyNone
  end.

Definition fetch_lines (o : http_outcome) : list line :=
  match o with
  | HttpRaises e => [LFetchError e]
  | HttpResponse status_code json =>
      if status_code =? 200
      then match json with Ok _ => [] | Raise e => [LFetchError e] end
      else [LRequestFailed status_code]
  end.






(** The lines printed between two states of a run. *)
Definition new_lines (st st' : state) : list line :=
  skipn (List.length (st_out st)) (st_out st').

(** A line the steps of the tiers [tiers] may print in the evaluation of a
    token of growth multiple [multiple] and snapshot [dex_data]: a dispatch
    decision is about one of these tiers, which the multiple has reached,
    and an alert is scheduled only for a snapshot that parses. *)
Definition tier_line (w : World) (dex_data : pyval) (multiple : pyfloat)
    (tiers : list Z) (l : line) : Prop :=
  match l with
  | LTooSoon _ t _ _ | LTargetReached _ t _ =>
      In t tiers /\ fge_int multiple t = true
  | LScheduled _ t _ =>
      In t tiers /\ fge_int multiple t = true
      /\ parse_dexscreener_data (w_fromtimestamp w) dex_data <> None
  | _ => True
  end.

(** Whether the ledger holds [(ca, t)] is the same in both databases. *)
Definition same_alert (adapt : pyval -> res sqlval) (ca : pyval) (t : Z)
    (db db' : database) : Prop :=
  check_multiple_alerted_sql adapt db' ca (py_int t)
  = check_multiple_alerted_sql adapt db ca (py_int t).

(** How the step of tier [t] ended, read off the lines [b] it printed and
    the database [db] it found: the alert was scheduled, deferred by the
    spacing test, dropped by an exception, impossible because the snapshot
    does not parse, or not due because the ledger already had the tier. *)
Definition tier_outcome (w : World) (token : dict) (dex_data : pyval)
    (t : Z) (db : database) (b : list line) : Prop :=
  (exists ca ts, In (LScheduled ca t ts) b)
  \/ (exists ca ts wait, In (LTooSoon ca t ts wait) b)
  \/ (exists e, In (LTierError e) b)
  \/ parse_dexscreener_data (w_fromtimestamp w) dex_data = None
  \/ (exists ca,
        dict_get token "ca" = Some ca
        /\ check_multiple_alerted_sql (w_adapt w) db ca (py_int t) = Ok true).

(** The tiers examined before tier [t] in an evaluation. *)
Definition tiers_before (t : Z) : list Z :=
  filter (fun x => x <? t) MULTIPLES.

(** The lines the step of tier [t] prints in the evaluation of a token
    that starts in [st]: the step is run in the state the steps of the
    tiers before [t] have left. *)
Definition lines_of_tier (w : World) (token : dict)
    (dex_data current_mcap : pyval) (multiple : pyfloat) (st : state)
    (t : Z) : list line :=
  let step := tier_step w token dex_data current_mcap multiple in
  let st1 := snd (for_each (tiers_before t) step st) in
  new_lines st1 (snd (step t st1)).

(** ** The rest of [TokenDB] and its endpoint

    [record_alert], [get_token_stats] and [update_purchase_status] are
    called by nothing in the polling loop or in the ingestion; the
    failure report each of the two writers prints is returned beside its
    value. *)

(** The row [r] with the columns named in [sets] replaced. *)
Fixpoint set_fields (cols : list string) (r : row)
    (sets : list (string * sqlval)) : row :=
  match cols, r with
  | c :: cols', v :: r' =>
      match assoc c sets with Some x => x | None => v end
      :: set_fields cols' r' sets
  | _, _ => r
  end.

(** The row satisfies [c1 = v1 AND ...]. *)
Definition row_matches (t : table) (conds : list (string * sqlval))
    (r : row) : bool :=
  forallb (fun cv => sql_eqb (field_value t r (fst cv)) (snd cv)) conds.

(** [UPDATE name SET s1 = ?, ... WHERE c1 = ? AND ...].  A row that is
    rewritten is checked: NULL may not be put in a NOT NULL column, and
    when a column of the primary key is set the new key may not be that
    of another row. *)
Definition sql_update (adapt : pyval -> res sqlval) (db : database)
    (name : string) (sets conds : list (string * pyval)) : res database :=
  (let? t := find_table db name in
   if negb (forallb (has_column t) (map fst sets ++ map fst conds))
   then Raise OperationalError else
   let? svals := bind_all adapt (map snd sets) in
   let? cvals := bind_all adapt (map snd conds) in
   let sets' := combine (map fst sets) svals in
   let conds' := combine (map fst conds) cvals in
   let updated r := set_fields (column_names t) r sets' in
   let rows' := map (fun r => if row_matches t conds' r then updated r else r)
                    (tbl_rows t) in
   let nulled :=
     existsb (fun c => col_notnull c
                       && match assoc (col_name c) sets' with
                          | Some v => is_null v
                          | None => false
                          end) (tbl_columns t) in
   let rekeyed :=
     existsb (fun c => existsb (String.eqb c) (tbl_key t)) (map fst sets) in
   let clash r' :=
     (1 <? List.length
             (filter (fun x => keys_equal (key_of t r') (key_of t x)) rows'))%nat in
   if existsb (fun r => row_matches t conds' r
                        && (nulled || (rekeyed && clash (updated r))))
              (tbl_rows t)
   then Raise IntegrityError
   else Ok (set_table db name
              {| tbl_columns := tbl_columns t; tbl_key := tbl_key t;
                 tbl_rows := rows' |}))%res.

(** [int(x)] of a finite float: towards zero. *)
Definition py_trunc (q : Q) : Z := Z.quot (Qnum q) (Z.pos (Qden q)).

(** [record_alert]: the INSERT into [price_alerts], then the UPDATE of
    the token with [int(time.time())], committed together. *)
Definition record_alert (w : World) (ca multiple : pyval)
  : M (bool * option exn) :=
  try_
    (k <- interact ;;
     fault (w_db_fault w k) ;;
     db <- get_db ;;
     db1 <- lift (sql_insert (w_adapt w) (Qfloor (w_clock w k)) db
                    "price_alerts" ["ca"; "multiple"]%string
                    [ca; multiple]) ;;
     j <- interact ;;                                   (* time.time() *)
     db2 <- lift (sql_update (w_adapt w) db1 "monitored_tokens"
                    [("last_alert_time"%string,
                      py_int (py_trunc (w_clock w j)))]
                    [("ca"%string, ca)]) ;;
     put_db db2 ;;
     ret (true, None))
    (fun e => ret (false, Some e)).

Definition update_purchase_status_sql (adapt : pyval -> res sqlval)
    (db : database) (record_id status tx_hash : pyval) : res database :=
  if truthy tx_hash
  then sql_update adapt db "purchase_records"
         [("status"%string, status); ("tx_hash"%string, tx_hash)]
         [("id"%string, record_id)]
  else sql_update adapt db "purchase_records"
         [("status"%string, status)] [("id"%string, record_id)].

(** [tx_hash: str = None] *)
Definition update_purchase_status (w : World)
    (record_id status tx_hash : pyval) : M (bool * option exn) :=
  try_
    (with_connection w (fun _ db =>
       rbind (update_purchase_status_sql (w_adapt w) db record_id status
                tx_hash)
             (fun db' => Ok (tt, db'))) ;;
     ret (true, None))
    (fun e => ret (false, Some e)).

Section TokenStats.

(** The rows of the grouped LEFT JOIN of [get_token_stats] over the two
    tables; how SQLite groups, counts and orders them is not modelled. *)
Variable grouped_join : table -> table -> list dict.

(** The statement is compiled against the tables it names, in the order
    of its FROM clause, before any row is read. *)
Definition get_token_stats_sql (db : database) : res (list dict) :=
  (let? t := find_table db "monitored_tokens" in
   let? p := find_table db "price_alerts" in
   if negb (forallb (has_column t)
              ["ca"; "token"; "initial_mcap"; "created_at"]%string)
   then Raise OperationalError else
   if negb (forallb (has_column p) ["ca"; "multiple"]%string)
   then Raise OperationalError else
   Ok (grouped_join t p))%res.

Definition get_token_stats (w : World) : M (list dict) :=
  with_connection w (fun _ db =>
    rbind (get_token_stats_sql db) (fun rows => Ok (rows, db))).

(** [GET /monitored_tokens]: the count and the rows. *)
Definition view_monitored_tokens (w : World) : M (nat * list dict) :=
  stats <- get_token_stats w ;;
  ret (List.length stats, stats).

End TokenStats.

(** ** More vocabulary *)

(** The tables of [db] are still there in [db'], with their columns and
    key, and with their rows followed by new ones. *)
Definition grows (db db' : database) : Prop :=
  forall name t,
    assoc name db = Some t ->
    exists t' new,
      assoc name db' = Some t'
      /\ tbl_columns t' = tbl_columns t
      /\ tbl_key t' = tbl_key t
      /\ tbl_rows t' = tbl_rows t ++ new.

(** The rows of the table [name] are what they were. *)
Definition same_rows (name : string) (db db' : database) : Prop :=
  rows_of db' name = rows_of db name.

(** A ledger without the market-cap column stays as it is. *)
Definition ledger_frozen (db db' : database) : Prop :=
  forall t,
    assoc "multiple_alerts" db = Some t ->
    has_column t "max_market_cap" = false ->
    assoc "multiple_alerts" db' = Some t.

(** The texts of the alerts queued so far. *)
Fixpoint queued_texts (out : list line) : list string :=
  match out with
  | [] => []
  | LQueued _ _ text :: out' => text :: queued_texts out'
  | _ :: out' => queued_texts out'
  end.

(** Every text handed to the posting API or waiting in the scheduler was
    queued by [schedule_tweet], and there are no more of them than were
    queued. *)
Definition accounted (st : state) : Prop :=
  (List.length (st_posted st) + List.length (st_jobs st)
   <= List.length (queued_texts (st_out st)))%nat
  /\ incl (st_posted st ++ map job_text (st_jobs st))
          (queued_texts (st_out st)).

Definition keeps_accounted (st st' : state) : Prop :=
  accounted st -> accounted st'.

(** The world [w] with another quote client, and with other faults of the
    storage layer. *)
Definition with_quotes (okx_new : nat -> option exn)
    (get_quote : nat -> string -> res pyval)
    (purchase_params : pyval -> string -> res (list pyval)) (w : World)
  : World :=
  {| w_clock := w_clock w; w_db_fault := w_db_fault w; w_adapt := w_adapt w;
     w_sql_datetime := w_sql_datetime w; w_http_get := w_http_get w;
     w_fromtimestamp := w_fromtimestamp w;
     w_format_tweet_text := w_format_tweet_text w;
     w_add_job := w_add_job w; w_post_tweet := w_post_tweet w;
     w_okx_new := okx_new; w_get_quote := get_quote;
     w_purchase_params := purchase_params; w_sleep := w_sleep w |}.

Definition with_db_fault (db_fault : nat -> option exn) (w : World) : World :=
  {| w_clock := w_clock w; w_db_fault := db_fault; w_adapt := w_adapt w;
     w_sql_datetime := w_sql_datetime w; w_http_get := w_http_get w;
     w_fromtimestamp := w_fromtimestamp w;
     w_format_tweet_text := w_format_tweet_text w;
     w_add_job := w_add_job w; w_post_tweet := w_post_tweet w;
     w_okx_new := w_okx_new w; w_get_quote := w_get_quote w;
     w_purchase_params := w_purchase_params w; w_sleep := w_sleep w |}.

(** The world [w] with another rendering of the tweet text. *)
Definition with_format_tweet_text
    (format_tweet_text : dict -> parsed_dex -> pyfloat -> res string)
    (w : World) : World :=
  {| w_clock := w_clock w; w_db_fault := w_db_fault w; w_adapt := w_adapt w;
     w_sql_datetime := w_sql_datetime w; w_http_get := w_http_get w;
     w_fromtimestamp := w_fromtimestamp w;
     w_format_tweet_text := format_tweet_text;
     w_add_job := w_add_job w; w_post_tweet := w_post_tweet w;
     w_okx_new := w_okx_new w; w_get_quote := w_get_quote w;
     w_purchase_params := w_purchase_params w; w_sleep := w_sleep w |}.

(** The outcome [r] of a write method on the table [name], called in
    [st]: it answers False and the database is what it was, or it answers
    True and the database has one more row, at the end of that table. *)
Definition all_or_nothing (name : string) (st : state)
    (r : res bool * state) : Prop :=
  (fst r = Ok false /\ st_db (snd r) = st_db st)
  \/ (fst r = Ok true
      /\ exists t added,
           assoc name (st_db st) = Some t
           /\ st_db (snd r)
              = set_table (st_db st) name
                  {| tbl_columns := tbl_columns t; tbl_key := tbl_key t;
                     tbl_rows := tbl_rows t ++ [added] |}).

(** The state after the first two steps of [token_body]: the line that
    names the token and the request for its data. *)
Definition after_fetch (w : World) (name ca : pyval) (st : state) : state :=
  {| st_db := st_db st; st_jobs := st_jobs st; st_posted := st_posted st;
     st_requests := st_requests st ++ [dexscreener_request ca];
     st_out := (st_out st ++ [LCheckToken name])
               ++ fetch_lines
                    (w_http_get w (st_steps st) (dexscreener_request ca));
     st_steps := S (st_steps st);
     st_last_tweet_time := st_last_tweet_time st |}.

(** The state after the first two steps of [receive_token]: the line that
    names the submission and the request for its data. *)
Definition after_receipt (w : World) (data : TokenData) (st : state) : state :=
  {| st_db := st_db st; st_jobs := st_jobs st; st_posted := st_posted st;
     st_requests := st_requests st
                    ++ [dexscreener_request (PyStr (ca data))];
     st_out := (st_out st ++ [LReceived (token data)])
               ++ fetch_lines
                    (w_http_get w (st_steps st)
                       (dexscreener_request (PyStr (ca data))));
     st_steps := S (st_steps st);
     st_last_tweet_time := st_last_tweet_time st |}.

(** A state that differs from [st] by its interaction count only. *)
Definition at_step (k : nat) (st : state) : state :=
  {| st_db := st_db st; st_jobs := st_jobs st; st_posted := st_posted st;
     st_requests := st_requests st; st_out := st_out st; st_steps := k;
     st_last_tweet_time := st_last_tweet_time st |}.

(** * Properties *)

(** ** The market-cap parser *)






















(** ** The market data client *)

Ltac munfold :=
  unfold bind_m, ret, raise, try_, lift, print, interact, get_db, put_db,
    get_last_tweet_time, put_last_tweet_time, add_request, add_posted,
    get_jobs, put_jobs, fault in *.

(** C8. [fetch_dexscreener_data] never raises: it returns the decoded
    answer when the status is 200 and the body decodes, and None for any
    other status, for a body that does not decode and when the request
    raises (timeout, network error); it issues exactly one request, whose
    timeout is the constant 10 seconds, and does not touch the database. *)
Theorem fetch_dexscreener_data_total :
  forall (w : World) (token_address : pyval) (st : state),
    let r := fetch_dexscreener_data w token_address st in
    fst r = Ok match w_http_get w (st_steps st)
                       (dexscreener_request token_address) with
               | HttpResponse status_code (Ok json) =>
                   if status_code =? 200 then json else PyNone
               | _ => PyNone
               end
    /\ st_requests (snd r)
       = st_requests st ++ [dexscreener_request token_address]
    /\ req_timeout (dexscreener_request token_address) = 10
    /\ st_db (snd r) = st_db st.
Proof.
  intros w a st. unfold fetch_dexscreener_data. munfold. cbn.
  destruct (w_http_get w (st_steps st) (dexscreener_request a))
    as [status json|e]; cbn.
  - destruct json, (status =? 200); cbn; repeat split; reflexivity.
  - repeat split; reflexivity.
Qed.

(** ** The alert ledger *)

(** C1 (the code departs from it). On the database that [init_db]
    creates, the ledger table has no market-cap column, so the INSERT of
    [record_multiple_alert] is refused whatever the address, tier and
    market cap: the call reports failure and no row is persisted, already
    at the first call. *)
Theorem record_multiple_alert_persists_nothing :
  forall (w : World) (ca multiple max_market_cap : pyval),
    let r := record_multiple_alert w ca multiple max_market_cap
               (initial_state fresh_db) in
    fst r = Ok false
    /\ st_db (snd r) = fresh_db
    /\ rows_of (st_db (snd r)) "multiple_alerts" = [].
Proof.
  intros w c m x. unfold record_multiple_alert, with_connection. munfold. cbn.
  destruct (w_db_fault w 0%nat); cbn; repeat split; reflexivity.
Qed.

(** With the column in place the same code behaves as the ledger should:
    the first call persists one row carrying the market cap, the second is
    refused by the primary key and reported as a failure, leaving that one
    row. *)
Example record_multiple_alert_with_column :
  let w := sample_world (fun _ => 1000%Q) (fun _ => HttpRaises RequestException)
             no_adapter in
  let r1 := record_multiple_alert w (PyStr "A") (py_int 5) (PyNum (PFin 550))
              (initial_state db_with_mcap_column) in
  let r2 := record_multiple_alert w (PyStr "A") (py_int 5) (PyNum (PFin 560))
              (snd r1) in
  fst r1 = Ok true /\ fst r2 = Ok false
  /\ rows_of (st_db (snd r1)) "multiple_alerts"
     = [[VText "A"; VNum (PFin 5); VTime 1000; VNum (PFin 550)]]
  /\ rows_of (st_db (snd r2)) "multiple_alerts"
     = rows_of (st_db (snd r1)) "multiple_alerts"
  /\ st_out (snd r2) = [LRecordAlertFailed IntegrityError].
Proof. vm_compute. repeat split. Qed.

(** ** Framing: what an action leaves alone *)

Section Respects.

Variable R : state -> state -> Prop.
Hypothesis R_refl : forall st, R st st.
Hypothesis R_trans : forall a b c, R a b -> R b c -> R a c.

Lemma respects_ret {A} (a : A) : respects R (ret a).
Proof. intros st. apply R_refl. Qed.

Lemma respects_raise {A} (e : exn) : respects R (@raise A e).
Proof. intros st. apply R_refl. Qed.

Lemma respects_lift {A} (r : res A) : respects R (lift r).
Proof. intros st. apply R_refl. Qed.

Lemma respects_fault o : respects R (fault o).
Proof. destruct o; intros st; apply R_refl. Qed.

Lemma respects_get_db : respects R get_db.
Proof. intros st. apply R_refl. Qed.

Lemma respects_get_jobs : respects R get_jobs.
Proof. intros st. apply R_refl. Qed.

Lemma respects_get_last_tweet_time : respects R get_last_tweet_time.
Proof. intros st. apply R_refl. Qed.

Lemma respects_bind {A B} (m : M A) (k : A -> M B) :
  respects R m -> (forall a, respects R (k a)) -> respects R (bind_m m k).
Proof.
  intros Hm Hk st. unfold bind_m.
  specialize (Hm st). destruct (m st) as [[a|e] st1]; cbn in *.
  - eapply R_trans; [exact Hm | apply Hk].
  - exact Hm.
Qed.

Lemma respects_try {A} (m : M A) (h : exn -> M A) :
  respects R m -> (forall e, respects R (h e)) -> respects R (try_ m h).
Proof.
  intros Hm Hh st. unfold try_.
  specialize (Hm st). destruct (m st) as [[a|e] st1]; cbn in *.
  - exact Hm.
  - eapply R_trans; [exact Hm | apply Hh].
Qed.

Lemma respects_for_each {A} (l : list A) (body : A -> M unit) :
  (forall a, respects R (body a)) -> respects R (for_each l body).
Proof.
  intros Hb. induction l as [|a l IH]; cbn [for_each].
  - apply respects_ret.
  - apply respects_bind; [apply Hb | intros _; exact IH].
Qed.

End Respects.

Lemma emits_refl P st : emits P st st.
Proof. exists []. rewrite app_nil_r. split; [reflexivity | constructor]. Qed.

Lemma emits_trans P a b c : emits P a b -> emits P b c -> emits P a c.
Proof.
  intros (n1 & E1 & F1) (n2 & E2 & F2). exists (n1 ++ n2).
  rewrite E2, E1, app_assoc. split; [reflexivity | now apply Forall_app].
Qed.

Lemma emits_weaken (P Q : line -> Prop) st st' :
  (forall l, P l -> Q l) -> emits P st st' -> emits Q st st'.
Proof.
  intros H (n & E & F). exists n. split; [exact E|].
  eapply Forall_impl; eauto.
Qed.



(** Decomposes [respects R m] along the structure of [m]; [prim] is tried
    first and closes the goals about the primitive actions. *)
Ltac respects_with Rrefl Rtrans prim :=
  repeat first
    [ prim
    | apply (respects_ret _ Rrefl)
    | apply (respects_raise _ Rrefl)
    | apply (respects_lift _ Rrefl)
    | apply (respects_fault _ Rrefl)
    | apply (respects_get_db _ Rrefl)
    | apply (respects_get_jobs _ Rrefl)
    | apply (respects_get_last_tweet_time _ Rrefl)
    | apply (respects_bind _ Rtrans); [|intros ?]
    | apply (respects_try _ Rtrans); [|intros ?]
    | apply (respects_for_each _ Rrefl Rtrans); intros ?
    | match goal with
      | |- respects _ (match ?x with _ => _ end) => destruct x eqn:?
      | |- respects _ (let (_, _) := ?x in _) => destruct x eqn:?
      end ].

(** *** The requests issued *)




(** ** The tables *)

Lemma assoc_set_table db name t n :
  assoc n (set_table db name t)
  = if String.eqb name n then Some t else assoc n db.
Proof.
  induction db as [|[n0 t0] db IH]; cbn [set_table assoc].
  - destruct (String.eqb name n); reflexivity.
  - destruct (String.eqb n0 name) eqn:E0; cbn [assoc].
    + apply String.eqb_eq in E0. subst n0.
      destruct (String.eqb name n); reflexivity.
    + rewrite IH. destruct (String.eqb n0 n) eqn:E1; [|reflexivity].
      apply String.eqb_eq in E1. subst n0.
      rewrite String.eqb_sym, E0. reflexivity.
  Qed.

Lemma sql_insert_table adapt now db name cols params db' :
  sql_insert adapt now db name cols params = Ok db' ->
  exists t vals,
    assoc name db = Some t /\
    forallb (has_column t) cols = true /\
    bind_all adapt params = Ok vals /\
    db' = set_table db name
            {| tbl_columns := tbl_columns t; tbl_key := tbl_key t;
               tbl_rows := tbl_rows t ++ [new_row now t (combine cols vals)] |}.
Proof.
  unfold sql_insert, find_table.
  destruct (assoc name db) as [t|]; cbn; [|discriminate].
  destruct (forallb (has_column t) cols) eqn:Hc; cbn; [|discriminate].
  destruct (bind_all adapt params) as [vals|]; cbn; [|discriminate].
  destruct (violates_notnull _ _); [discriminate|].
  destruct (violates_key _ _); [discriminate|].
  intros [= <-]. exists t, vals. repeat split; assumption || reflexivity.
Qed.

Lemma sql_insert_other adapt now db name cols params db' n :
  sql_insert adapt now db name cols params = Ok db' ->
  String.eqb name n = false ->
  assoc n db' = assoc n db.
Proof.
  intros H Hn. apply sql_insert_table in H as (t & vals & _ & _ & _ & ->).
  rewrite assoc_set_table, Hn. reflexivity.
Qed.

Lemma assoc_combine_columns {A} (cols : list column) (f : column -> A) c :
  assoc c (combine (map col_name cols) (map f cols))
  = option_map f (find (fun x => String.eqb (col_name x) c) cols).
Proof.
  induction cols as [|x cols IH]; cbn; [reflexivity|].
  destruct (String.eqb (col_name x) c); [reflexivity | exact IH].
Qed.

Lemma has_column_find t c :
  has_column t c = true ->
  exists x, find (fun x => String.eqb (col_name x) c) (tbl_columns t) = Some x
            /\ col_name x = c.
Proof.
  unfold has_column, column_names.
  induction (tbl_columns t) as [|x cols IH]; cbn; [discriminate|].
  destruct (String.eqb (col_name x) c) eqn:E.
  - intros _. exists x. split; [reflexivity | now apply String.eqb_eq].
  - rewrite String.eqb_sym, E. cbn. exact IH.
Qed.

(** A column named in the INSERT gets the value given for it. *)
Lemma field_value_new_row now t given c v :
  has_column t c = true ->
  assoc c given = Some v ->
  field_value {| tbl_columns := tbl_columns t; tbl_key := tbl_key t;
                 tbl_rows := tbl_rows t ++ [new_row now t given] |}
              (new_row now t given) c = v.
Proof.
  intros Hc Hv. unfold field_value, field, column_names, new_row. cbn.
  rewrite assoc_combine_columns.
  destruct (has_column_find _ _ Hc) as (x & -> & Hx). cbn.
  rewrite Hx, Hv. reflexivity.
Qed.

Lemma with_connection_on_db (R : database -> database -> Prop) w {A}
    (body : Z -> database -> res (A * database)) :
  (forall db, R db db) ->
  (forall now db a db', body now db = Ok (a, db') -> R db db') ->
  respects (on_db R) (with_connection w body).
Proof.
  intros Hrefl Hbody st. unfold with_connection. munfold. cbn.
  destruct (w_db_fault w (st_steps st)); cbn; [apply Hrefl|].
  destruct (body _ (st_db st)) as [[a db']|e] eqn:E; cbn.
  - eapply Hbody, E.
  - apply Hrefl.
Qed.

Lemma on_db_refl (R : database -> database -> Prop) :
  (forall db, R db db) -> forall st, on_db R st st.
Proof. intros H st. apply H. Qed.

Lemma on_db_trans (R : database -> database -> Prop) :
  (forall a b c, R a b -> R b c -> R a c) ->
  forall a b c, on_db R a b -> on_db R b c -> on_db R a c.
Proof. intros H a b c. apply H. Qed.

Lemma same_tokens_refl db : same_tokens db db.
Proof. reflexivity. Qed.

Lemma same_tokens_trans a b c :
  same_tokens a b -> same_tokens b c -> same_tokens a c.
Proof. unfold same_tokens. congruence. Qed.

Lemma rbind_ok {A B} (r : res A) (k : A -> res B) b :
  rbind r k = Ok b -> exists a, r = Ok a /\ k a = Ok b.
Proof. destruct r as [a|]; cbn; [eauto | discriminate]. Qed.

Lemma add_purchase_record_sql_same_tokens adapt now db params db' :
  add_purchase_record_sql adapt now db params = Ok db' -> same_tokens db db'.
Proof. intros H. eapply sql_insert_other in H; [exact H | reflexivity]. Qed.

Lemma add_price_record_sql_same_tokens adapt now db ca pair db' :
  add_price_record_sql adapt now db ca pair = Ok db' -> same_tokens db db'.
Proof.
  unfold add_price_record_sql. intros H.
  apply rbind_ok in H as (params & _ & H).
  eapply sql_insert_other in H; [exact H | reflexivity].
Qed.

Lemma record_multiple_alert_sql_same_tokens adapt now db ca m x db' :
  record_multiple_alert_sql adapt now db ca m x = Ok db' -> same_tokens db db'.
Proof. intros H. eapply sql_insert_other in H; [exact H | reflexivity]. Qed.

(** Closes [respects (on_db same_tokens)] for the primitive actions and
    for the uses of the database that do not write to the monitored
    tokens. *)
Ltac same_tokens_prim :=
  first
    [ solve [intros ?; reflexivity]
    | apply with_connection_on_db;
      [ exact same_tokens_refl
      | let H := fresh in
        intros ? ? ? ? H;
        repeat (apply rbind_ok in H; destruct H as (? & ? & H));
        first
          [ injection H as <- <-; first
              [ reflexivity
              | eauto using add_purchase_record_sql_same_tokens,
                  add_price_record_sql_same_tokens,
                  record_multiple_alert_sql_same_tokens ]
          | discriminate ] ] ].

Ltac same_tokens_tac :=
  respects_with (on_db_refl _ same_tokens_refl)
                (on_db_trans _ same_tokens_trans) same_tokens_prim.

Lemma fetch_dexscreener_data_same_tokens w a :
  respects (on_db same_tokens) (fetch_dexscreener_data w a).
Proof. unfold fetch_dexscreener_data. same_tokens_tac. Qed.

Lemma check_tokens_same_tokens w ca :
  respects (on_db same_tokens) (check_tokens w ca).
Proof. unfold check_tokens, add_purchase_record. same_tokens_tac. Qed.

Lemma tier_step_same_tokens w token dex_data current_mcap multiple t :
  respects (on_db same_tokens)
           (tier_step w token dex_data current_mcap multiple t).
Proof.
  unfold tier_step, tier_body, check_multiple_alerted, schedule_tweet,
    record_multiple_alert.
  same_tokens_tac.
Qed.

Lemma monitor_cycle_same_tokens w :
  respects (on_db same_tokens) (monitor_cycle w).
Proof.
  unfold monitor_cycle, get_all_tokens, token_step, token_body,
    add_price_record.
  same_tokens_tac;
    solve [apply fetch_dexscreener_data_same_tokens
          | apply tier_step_same_tokens].
Qed.

Lemma run_job_same_tokens w n :
  respects (on_db same_tokens) (run_job w n).
Proof. unfold run_job, send_tweet. same_tokens_tac. Qed.

(** ** Ingestion *)

Lemma fle0_not_fpos a : fle0 a = true -> fpos a = false.
Proof.
  destruct a as [q|s|]; cbn; intros H; [|now rewrite H|reflexivity].
  apply Z.ltb_ge. now apply Z.leb_le.
Qed.

Lemma receive_token_same_tokens w data :
  fpos (parse_market_cap (marketCap data)) = false ->
  respects (on_db same_tokens) (receive_token w data).
Proof.
  intros H. unfold receive_token. cbv zeta. rewrite H.
  same_tokens_tac;
    solve [apply fetch_dexscreener_data_same_tokens
          | apply check_tokens_same_tokens].
Qed.

Lemma get_all_tokens_sql_same_tokens dt now db db' :
  same_tokens db db' ->
  get_all_tokens_sql dt now db' = get_all_tokens_sql dt now db.
Proof.
  unfold same_tokens, get_all_tokens_sql, find_table. now intros ->.
Qed.

Lemma check_tokens_returns w ca st :
  w_okx_new w (st_steps st) = None ->
  exists quote, fst (check_tokens w ca st) = Ok quote.
Proof.
  intros H. unfold check_tokens. munfold. cbn. rewrite H. cbn.
  destruct (w_get_quote _ _ _) as [q|e]; cbn; [|eauto].
  destruct (py_get q "code" PyNone) as [c|e]; cbn; [|eauto].
  destruct (is_str c "0").
  - destruct (add_purchase_record w q ca _) as [[b|e] st1]; cbn; eauto.
  - destruct (py_get q "msg" _); cbn; eauto.
Qed.

(** C10, as the code has it. When the submitted market cap parses to a
    value that is not above zero, [receive_token] leaves the monitored
    tokens as they were, so the active set is what it was; and when the
    DexScreener answer is got and parsed and the quote client can be
    created, the reply is still a success, reporting the parsed value as
    [initial_mcap]: 0.0 where the string does not parse, the negative
    value where it parses to one. *)
Theorem receive_token_nonpositive_cap :
  forall (w : World) (data : TokenData) (st : state),
    fle0 (parse_market_cap (marketCap data)) = true ->
    let r := receive_token w data st in
    tokens_table (snd r) = tokens_table st
    /\ (forall now,
          get_all_tokens_sql (w_sql_datetime w) now (st_db (snd r))
          = get_all_tokens_sql (w_sql_datetime w) now (st_db st))
    /\ (forall raw dex_data,
          w_http_get w (st_steps st) (dexscreener_request (PyStr (ca data)))
          = HttpResponse 200 (Ok raw) ->
          truthy raw = true ->
          parse_dexscreener_data (w_fromtimestamp w) raw = Some dex_data ->
          w_okx_new w (S (st_steps st)) = None ->
          exists quote,
            fst r = Ok (ReplySuccess (token data)
                          (parse_market_cap (marketCap data)) dex_data quote))
    /\ (forall e, parse_market_cap_body (marketCap data) = Raise e ->
                  parse_market_cap (marketCap data) = PFin 0).
Proof.
  intros w data st H r.
  pose proof (fle0_not_fpos _ H) as Hpos.
  pose proof (receive_token_same_tokens w data Hpos st) as Hsame.
  fold r in Hsame. unfold on_db in Hsame.
  split; [exact Hsame|].
  split; [intros now; now apply get_all_tokens_sql_same_tokens|].
  split.
  - intros raw dex Hhttp Htruthy Hparse Hokx.
    subst r. unfold receive_token. cbv zeta. rewrite Hpos.
    unfold fetch_dexscreener_data. munfold. cbn -[check_tokens].
    rewrite Hhttp. cbn -[check_tokens].
    rewrite Htruthy. cbn -[check_tokens]. rewrite Hparse. cbn -[check_tokens].
    match goal with
    | |- context [check_tokens w (ca data) ?s] =>
        destruct (check_tokens_returns w (ca data) s Hokx) as (quote & Hq);
        destruct (check_tokens w (ca data) s) as [rq sq]
    end.
    cbn in Hq. subst rq. cbn. eauto.
  - intros e He. unfold parse_market_cap. now rewrite He.
Qed.

(** A witness of the theorem: an unparseable market cap, one that [float]
    rejects for the separator (character 28) in front of it, and one that
    parses to a negative value. *)
Lemma receive_token_nonpositive_cap_witness :
  let w := sample_world (fun _ => 1000%Q)
             (fun _ => HttpResponse 200 (Ok (snapshot 100))) no_adapter in
  let reply := fun market_cap : string =>
    receive_token w (sample_data market_cap) (initial_state fresh_db) in
  let separated := String (ascii_of_nat 28) "-5K" in
  (fle0 (parse_market_cap "n/a") = true
   /\ tokens_table (snd (reply "n/a"%string)) = tokens_table (initial_state fresh_db)
   /\ exists dex_data quote,
        fst (reply "n/a"%string) = Ok (ReplySuccess "TOK" (PFin 0) dex_data quote))
  /\ (fle0 (parse_market_cap separated) = true
      /\ tokens_table (snd (reply separated))
         = tokens_table (initial_state fresh_db)
      /\ exists dex_data quote,
           fst (reply separated)
           = Ok (ReplySuccess "TOK" (PFin 0) dex_data quote))
  /\ (fle0 (parse_market_cap "-1e3K") = true
      /\ tokens_table (snd (reply "-1e3K"%string))
         = tokens_table (initial_state fresh_db)
      /\ exists dex_data quote,
           fst (reply "-1e3K"%string)
           = Ok (ReplySuccess "TOK" (PFin (-1000000)) dex_data quote)).
Proof.
  cbv zeta.
  assert (T : forall (market_cap : string) (H : fle0 (parse_market_cap market_cap) = true),
             let r := receive_token
                        (sample_world (fun _ => 1000%Q)
                           (fun _ => HttpResponse 200 (Ok (snapshot 100)))
                           no_adapter)
                        (sample_data market_cap) (initial_state fresh_db) in
             tokens_table (snd r) = tokens_table (initial_state fresh_db)
             /\ exists dex_data quote,
                  fst r = Ok (ReplySuccess "TOK" (parse_market_cap market_cap)
                                dex_data quote)).
  { intros market_cap H.
    pose proof (receive_token_nonpositive_cap
                  (sample_world (fun _ => 1000%Q)
                     (fun _ => HttpResponse 200 (Ok (snapshot 100)))
                     no_adapter)
                  (sample_data market_cap) (initial_state fresh_db) H) as T.
    cbv zeta in T. destruct T as (T1 & _ & T3 & _).
    split; [exact T1|].
    destruct (T3 (snapshot 100)
                 {| price_usd := PFin (1 # 100);
                    created_time := "2024-04-30 08:00:00";
                    socials := [] |}
                 eq_refl eq_refl eq_refl eq_refl) as (quote & Hq).
    eauto. }
  split; [|split].
  - split; [reflexivity|]. exact (T "n/a"%string eq_refl).
  - split; [reflexivity|].
    exact (T (String (ascii_of_nat 28) "-5K") eq_refl).
  - split; [reflexivity|]. exact (T "-1e3K"%string eq_refl).
Defined.

(** C10 as stated fails: the reply does not always report 0.0, and is not
    always a success.  A market cap of "-5K" parses to -5000.0, which is
    what the success reply reports; and when the DexScreener data cannot
    be got the reply is an error, whatever the market cap. *)
Lemma receive_token_reply_counterexample :
  let ok := sample_world (fun _ => 1000%Q)
              (fun _ => HttpResponse 200 (Ok (snapshot 100))) no_adapter in
  let down := sample_world (fun _ => 1000%Q)
                (fun _ => HttpRaises RequestException) no_adapter in
  fle0 (parse_market_cap "-5K") = true
  /\ fst (receive_token ok (sample_data "-5K") (initial_state fresh_db))
     = Ok (ReplySuccess "TOK" (PFin (-5000))
             {| price_usd := PFin (1 # 100);
                created_time := "2024-04-30 08:00:00"; socials := [] |}
             PyNone)
  /\ PFin (-5000) <> PFin 0
  /\ fle0 (parse_market_cap "n/a") = true
  /\ fst (receive_token down (sample_data "n/a") (initial_state fresh_db))
     = Ok (ReplyError FetchFailedMessage).
Proof.
  cbv zeta. repeat split; try reflexivity. discriminate.
Qed.

(** ** The active set *)

Lemma keeps_positive_refl db : keeps_positive db db.
Proof. intros H. exact H. Qed.

Lemma keeps_positive_trans a b c :
  keeps_positive a b -> keeps_positive b c -> keeps_positive a c.
Proof. unfold keeps_positive. auto. Qed.

Lemma same_tokens_keeps_positive db db' :
  same_tokens db db' -> keeps_positive db db'.
Proof.
  unfold same_tokens, keeps_positive, positive_baselines.
  intros E H t r Ht. rewrite E in Ht. eauto.
Qed.

Lemma respects_same_tokens_positive {A} (m : M A) :
  respects (on_db same_tokens) m -> respects (on_db keeps_positive) m.
Proof. intros H st. apply same_tokens_keeps_positive, H. Qed.

Lemma bind_pynum_positive adapt x :
  fpos x = true -> bind adapt (PyNum x) = Ok (VNum x).
Proof. destruct x; cbn; [reflexivity | reflexivity | discriminate]. Qed.

(** The INSERT of [add_token] stores the baseline it is given. *)
Lemma add_token_sql_positive adapt now db token ca mcap received source b db' :
  add_token_sql adapt now db token ca (PyNum mcap) received source
  = Ok (b, db') ->
  fpos mcap = true ->
  keeps_positive db db'.
Proof.
  unfold add_token_sql. intros H Hpos Hinv.
  apply rbind_ok in H as (present & _ & H).
  destruct present; [injection H as <- <-; exact Hinv|].
  apply rbind_ok in H as (db1 & Hins & H). injection H as <- <-.
  apply sql_insert_table in Hins as (t & vals & Ht & Hcols & Hvals & ->).
  intros t' r Ht' Hr.
  rewrite assoc_set_table, String.eqb_refl in Ht'. injection Ht' as <-.
  cbn [tbl_rows] in Hr. apply in_app_or in Hr as [Hr|[<-|[]]].
  - destruct (Hinv t r Ht Hr) as (x & Hx & Hp). exists x. split; [|exact Hp].
    exact Hx.
  - exists mcap. split; [|exact Hpos].
    apply field_value_new_row.
    + cbn in Hcols. now repeat (apply andb_prop in Hcols as [? Hcols]).
    + cbn [bind_all] in Hvals.
      rewrite (bind_pynum_positive adapt _ Hpos) in Hvals.
      destruct (bind adapt ca); cbn [rbind] in Hvals; [|discriminate].
      destruct (bind adapt token); cbn [rbind] in Hvals; [|discriminate].
      destruct (bind adapt received); cbn [rbind] in Hvals; [|discriminate].
      destruct (bind adapt source); cbn [rbind] in Hvals; [|discriminate].
      injection Hvals as <-. reflexivity.
Qed.

Lemma assoc_app {A} n (l l' : list (string * A)) :
  assoc n (l ++ l') = match assoc n l with Some a => Some a | None => assoc n l' end.
Proof.
  induction l as [|[k a] l IH]; cbn; [reflexivity|].
  destruct (String.eqb k n); [reflexivity | exact IH].
Qed.

Lemma create_table_keeps_positive db name cols key :
  keeps_positive db (create_table_if_not_exists db name cols key).
Proof.
  unfold create_table_if_not_exists.
  destruct (assoc name db) eqn:E; [apply keeps_positive_refl|].
  intros H t r Ht Hr. rewrite assoc_app in Ht.
  destruct (assoc "monitored_tokens" db) eqn:E'.
  - injection Ht as <-. eauto.
  - cbn in Ht. destruct (String.eqb name "monitored_tokens"); [|discriminate].
    injection Ht as <-. destruct Hr.
Qed.

Lemma init_db_sql_keeps_positive db : keeps_positive db (init_db_sql db).
Proof.
  unfold init_db_sql.
  repeat (eapply keeps_positive_trans; [|apply create_table_keeps_positive]).
  apply keeps_positive_refl.
Qed.

Ltac positive_prim :=
  first
    [ solve [intros ? ?; assumption]
    | apply respects_same_tokens_positive;
      first [ apply fetch_dexscreener_data_same_tokens
            | apply check_tokens_same_tokens ]
    | apply with_connection_on_db;
      [ exact keeps_positive_refl
      | intros; eauto using add_token_sql_positive ] ].

Lemma receive_token_keeps_positive w data :
  respects (on_db keeps_positive) (receive_token w data).
Proof.
  unfold receive_token, add_token. cbv zeta.
  respects_with (on_db_refl _ keeps_positive_refl)
                (on_db_trans _ keeps_positive_trans) positive_prim.
Qed.

Lemma perform_keeps_positive w a :
  respects (on_db keeps_positive) (perform w a).
Proof.
  destruct a as [|data| |n]; cbn [perform].
  - apply with_connection_on_db; [exact keeps_positive_refl|].
    intros now db [] db' [= <-]. apply init_db_sql_keeps_positive.
  - apply (respects_bind _ (on_db_trans _ keeps_positive_trans));
      [apply receive_token_keeps_positive|].
    intros _. apply (respects_ret _ (on_db_refl _ keeps_positive_refl)).
  - apply respects_same_tokens_positive, monitor_cycle_same_tokens.
  - apply respects_same_tokens_positive, run_job_same_tokens.
Qed.

Lemma run_keeps_positive w actions st :
  positive_baselines (st_db st) ->
  positive_baselines (st_db (run w actions st)).
Proof.
  revert st. induction actions as [|a actions IH]; intros st H; [exact H|].
  cbn [run fold_left]. apply IH. now apply (perform_keeps_positive w a st).
Qed.

Lemma fdiv_positive_divisor x y :
  fpos y = true -> fdiv x y <> Raise ZeroDivisionError.
Proof.
  destruct y as [q|s|]; cbn; intros H.
  - assert (E : Qis_zero q = false).
    { unfold Qis_zero. apply Z.eqb_neq. apply Z.ltb_lt in H. lia. }
    destruct x; cbn; rewrite E; discriminate.
  - destruct x; discriminate.
  - discriminate.
Qed.

(** C4. Whatever the process has done (start-up, submissions, polling
    turns, scheduled jobs, in any order) on a database whose baselines were
    positive to begin with (a new file has none), every token the
    active-token loader returns was received within the trailing 72 hours
    and has a baseline above zero; dividing by it never raises
    ZeroDivisionError. *)
Theorem active_tokens_recent_with_positive_baseline :
  forall (w : World) (db0 : database) (actions : list action)
         (now : Z) (tokens : list dict) (token : dict),
    positive_baselines db0 ->
    get_all_tokens_sql (w_sql_datetime w) now
      (st_db (run w actions (initial_state db0))) = Ok tokens ->
    In token tokens ->
    exists (received : sqlval) (seen : Z) (baseline : pyfloat),
      dict_get token "received_time" = Some (py_of_sql received)
      /\ w_sql_datetime w now received = Some seen
      /\ now - 72 * 3600 < seen
      /\ dict_get token "initial_mcap" = Some (PyNum baseline)
      /\ fpos baseline = true
      /\ forall current_mcap,
           py_truediv current_mcap (PyNum baseline) <> Raise ZeroDivisionError.
Proof.
  intros w db0 actions now tokens token H0 Hget Hin.
  pose proof (run_keeps_positive w actions (initial_state db0) H0) as Hinv.
  set (db := st_db (run w actions (initial_state db0))) in *.
  unfold get_all_tokens_sql, find_table in Hget.
  destruct (assoc "monitored_tokens" db) as [t|] eqn:Ht; [|discriminate].
  cbn [of_option rbind] in Hget.
  destruct (forallb (has_column t) token_columns); [|discriminate].
  cbn in Hget. injection Hget as <-.
  apply in_map_iff in Hin as (r & <- & Hr).
  apply filter_In in Hr as (Hr & Hwin).
  destruct (Hinv t r Ht Hr) as (baseline & Hb & Hpos).
  unfold in_window in Hwin.
  destruct (w_sql_datetime w now (field_value t r "received_time"))
    as [seen|] eqn:Hseen; [|discriminate].
  exists (field_value t r "received_time"), seen, baseline.
  split; [reflexivity|]. split; [exact Hseen|].
  split; [now apply Z.ltb_lt in Hwin|].
  split; [cbn; now rewrite Hb|].
  split; [exact Hpos|].
  intros cur. unfold py_truediv.
  destruct cur; cbn [py_number rbind]; try discriminate;
    now apply fdiv_positive_divisor.
Qed.


(** A witness: one submission on a new database, in a process whose
    sqlite3 has an adapter for lists. *)
Lemma active_tokens_recent_with_positive_baseline_witness :
  let w := sample_world (fun _ => 1714600000%Q)
             (fun _ => HttpResponse 200 (Ok (snapshot 100))) list_adapter in
  let token : dict :=
    [("ca", PyStr "A"); ("token", PyStr "TOK");
     ("initial_mcap", PyNum (PFin 1500));
     ("last_alert_time", PyNum (PFin 0));
     ("received_time", PyStr "2024-05-01 12:00:00");
     ("sourceType", PyStr "[...]")]%string in
  get_all_tokens_sql (w_sql_datetime w) 1714600000
    (st_db (run w [InitDb; ReceiveToken (sample_data "1.5K")]
              (initial_state []))) = Ok [token]
  /\ exists (received : sqlval) (seen : Z) (baseline : pyfloat),
      dict_get token "received_time" = Some (py_of_sql received)
      /\ w_sql_datetime w 1714600000 received = Some seen
      /\ 1714600000 - 72 * 3600 < seen
      /\ dict_get token "initial_mcap" = Some (PyNum baseline)
      /\ fpos baseline = true
      /\ forall current_mcap,
           py_truediv current_mcap (PyNum baseline) <> Raise ZeroDivisionError.
Proof.
  intros w token.
  assert (H : get_all_tokens_sql (w_sql_datetime w) 1714600000
                (st_db (run w [InitDb; ReceiveToken (sample_data "1.5K")]
                          (initial_state []))) = Ok [token])
    by (vm_compute; reflexivity).
  split; [exact H|].
  apply (active_tokens_recent_with_positive_baseline w []
           [InitDb; ReceiveToken (sample_data "1.5K")] 1714600000
           [token] token).
  - intros t r Ht. discriminate Ht.
  - exact H.
  - left. reflexivity.
Defined.

(** ** One tier of one token *)

(** Simplifies a run of the monad, leaving the arithmetic of the clock
    alone. *)
Ltac msimpl :=
  cbn -[Qle_bool Qminus Qplus Qmult inject_Z Qfloor Z.mul Z.add
        parse_dexscreener_data schedule_tweet record_multiple_alert
        check_multiple_alerted fetch_dexscreener_data add_price_record
        get_all_tokens add_token check_tokens tier_step token_step].


Lemma tier_step_schedules w token dex_data current_mcap multiple t st
      ca name parsed text :
  dict_get token "ca" = Some ca ->
  dict_get token "token" = Some name ->
  fge_int multiple t = true ->
  w_db_fault w (st_steps st) = None ->
  check_multiple_alerted_sql (w_adapt w) (st_db st) ca (py_int t) = Ok false ->
  Qle_bool (inject_Z TWEET_INTERVAL)
           (w_clock w (1 + st_steps st) - st_last_tweet_time st) = true ->
  parse_dexscreener_data (w_fromtimestamp w) dex_data = Some parsed ->
  w_format_tweet_text w token parsed multiple = Ok text ->
  w_add_job w (3 + st_steps st) = None ->
  tier_step w token dex_data current_mcap multiple t st
  = (Ok tt,
     let rec := record_outcome w (4 + st_steps st) (st_db st) ca t
                  current_mcap in
     {| st_db := match rec with Ok db' => db' | Raise _ => st_db st end;
        st_jobs := st_jobs st
                   ++ [{| job_run_date :=
                            (w_clock w (2 + st_steps st)
                             + inject_Z (30 * 60))%Q;
                          job_text := text |}];
        st_posted := st_posted st;
        st_requests := st_requests st;
        st_out := ((((st_out st
                   ++ [LTargetReached ca t (w_clock w (1 + st_steps st))])
                   ++ [LQueued (w_clock w (2 + st_steps st))
                         (w_clock w (2 + st_steps st) + inject_Z (30 * 60))%Q
                         text])
                   ++ match rec with
                      | Ok _ => []
                      | Raise e => [LRecordAlertFailed e]
                      end)
                   ++ [LScheduled ca t (w_clock w (1 + st_steps st))]);
        st_steps := 6 + st_steps st;
        st_last_tweet_time := w_clock w (5 + st_steps st) |}).
Proof.
  intros Hca Hname Hge Hf Hchk Hsp Hparse Hfmt Hjob.
  cbn [Nat.add] in *.
  unfold tier_step. rewrite Hge.
  unfold tier_body, check_multiple_alerted, with_connection, schedule_tweet,
    record_multiple_alert, with_connection, record_outcome, subscript.
  munfold. msimpl. rewrite Hca. msimpl. rewrite Hf. msimpl.
  rewrite Hchk. msimpl. rewrite Hsp. msimpl. rewrite Hparse. msimpl.
  rewrite Hfmt. msimpl. rewrite Hjob. msimpl.
  destruct (w_db_fault w (S (S (S (S (st_steps st)))))); msimpl.
  - rewrite Hname. reflexivity.
  - destruct (record_multiple_alert_sql _ _ _ _ _ _); msimpl;
      rewrite Hname; msimpl; rewrite ?app_nil_r; reflexivity.
Qed.

Lemma tier_step_defers w token dex_data current_mcap multiple t st ca :
  dict_get token "ca" = Some ca ->
  fge_int multiple t = true ->
  w_db_fault w (st_steps st) = None ->
  check_multiple_alerted_sql (w_adapt w) (st_db st) ca (py_int t) = Ok false ->
  Qle_bool (inject_Z TWEET_INTERVAL)
           (w_clock w (1 + st_steps st) - st_last_tweet_time st) = false ->
  tier_step w token dex_data current_mcap multiple t st
  = (Ok tt,
     {| st_db := st_db st; st_jobs := st_jobs st;
        st_posted := st_posted st; st_requests := st_requests st;
        st_out := st_out st
                  ++ [LTooSoon ca t (w_clock w (1 + st_steps st))
                        (Qfloor (inject_Z TWEET_INTERVAL
                                 - (w_clock w (1 + st_steps st)
                                    - st_last_tweet_time st)))];
        st_steps := 2 + st_steps st;
        st_last_tweet_time := st_last_tweet_time st |}).
Proof.
  intros Hca Hge Hf Hchk Hsp.
  cbn [Nat.add] in *.
  unfold tier_step. rewrite Hge.
  unfold tier_body, check_multiple_alerted, with_connection, subscript.
  munfold. msimpl. rewrite Hca. msimpl. rewrite Hf. msimpl.
  rewrite Hchk. msimpl. rewrite Hsp. msimpl. reflexivity.
Qed.

(** A crossing that passed the spacing test is dropped when its text
    cannot be made. *)
Lemma tier_step_text_fails w token dex_data current_mcap multiple t st
      ca parsed e :
  dict_get token "ca" = Some ca ->
  fge_int multiple t = true ->
  w_db_fault w (st_steps st) = None ->
  check_multiple_alerted_sql (w_adapt w) (st_db st) ca (py_int t) = Ok false ->
  Qle_bool (inject_Z TWEET_INTERVAL)
           (w_clock w (1 + st_steps st) - st_last_tweet_time st) = true ->
  parse_dexscreener_data (w_fromtimestamp w) dex_data = Some parsed ->
  w_format_tweet_text w token parsed multiple = Raise e ->
  tier_step w token dex_data current_mcap multiple t st
  = (Ok tt,
     {| st_db := st_db st; st_jobs := st_jobs st;
        st_posted := st_posted st; st_requests := st_requests st;
        st_out := (st_out st
                   ++ [LTargetReached ca t (w_clock w (1 + st_steps st))])
                  ++ [LTierError e];
        st_steps := 2 + st_steps st;
        st_last_tweet_time := st_last_tweet_time st |}).
Proof.
  intros Hca Hge Hf Hchk Hsp Hparse Hfmt.
  cbn [Nat.add] in *.
  unfold tier_step. rewrite Hge.
  unfold tier_body, check_multiple_alerted, with_connection, subscript.
  munfold. msimpl. rewrite Hca. msimpl. rewrite Hf. msimpl.
  rewrite Hchk. msimpl. rewrite Hsp. msimpl. rewrite Hparse. msimpl.
  rewrite Hfmt. msimpl. reflexivity.
Qed.

Lemma tier_step_already_alerted w token dex_data current_mcap multiple t st ca :
  dict_get token "ca" = Some ca ->
  fge_int multiple t = true ->
  w_db_fault w (st_steps st) = None ->
  check_multiple_alerted_sql (w_adapt w) (st_db st) ca (py_int t) = Ok true ->
  tier_step w token dex_data current_mcap multiple t st
  = (Ok tt,
     {| st_db := st_db st; st_jobs := st_jobs st;
        st_posted := st_posted st; st_requests := st_requests st;
        st_out := st_out st;
        st_steps := 1 + st_steps st;
        st_last_tweet_time := st_last_tweet_time st |}).
Proof.
  intros Hca Hge Hf Hchk.
  cbn [Nat.add] in *.
  unfold tier_step. rewrite Hge.
  unfold tier_body, check_multiple_alerted, with_connection, subscript.
  munfold. msimpl. rewrite Hca. msimpl. rewrite Hf. msimpl.
  rewrite Hchk. msimpl. reflexivity.
Qed.

Lemma tier_step_not_reached w token dex_data current_mcap multiple t st :
  fge_int multiple t = false ->
  tier_step w token dex_data current_mcap multiple t st = (Ok tt, st).
Proof. intros H. unfold tier_step. rewrite H. reflexivity. Qed.

(** ** The dispatcher *)

Lemma schedule_tweet_effect w text delay st :
  let r := schedule_tweet w text delay st in
  st_posted (snd r) = st_posted st
  /\ st_db (snd r) = st_db st
  /\ match w_add_job w (1 + st_steps st) with
     | None =>
         fst r = Ok tt
         /\ st_jobs (snd r)
            = st_jobs st
              ++ [{| job_run_date :=
                       (w_clock w (st_steps st) + inject_Z (delay * 60))%Q;
                     job_text := text |}]
     | Some e => fst r = Raise e /\ st_jobs (snd r) = st_jobs st
     end.
Proof.
  unfold schedule_tweet. munfold. msimpl.
  destruct (w_add_job w (S (st_steps st))); msimpl; repeat split; reflexivity.
Qed.

Lemma run_job_failure w n st j answer :
  nth_error (st_jobs st) n = Some j ->
  Qle_bool (job_run_date j) (w_clock w (st_steps st)) = true ->
  w_post_tweet w (1 + st_steps st) (job_text j) = answer ->
  answer <> Ok 201 ->
  let r := run_job w n st in
  st_db (snd r) = st_db st
  /\ st_jobs (snd r) = remove_nth n (st_jobs st)
  /\ st_posted (snd r) = st_posted st ++ [job_text j]
  /\ st_out (snd r)
     = st_out st ++ [LTweetContent (job_text j); failure_line answer].
Proof.
  intros Hj Hdue Hpost Hfail. cbn [Nat.add] in *.
  unfold run_job, send_tweet. munfold. msimpl.
  rewrite Hj, Hdue. msimpl. rewrite Hpost.
  destruct answer as [status|e]; msimpl.
  - destruct (status =? 201) eqn:E.
    + apply Z.eqb_eq in E. subst status. now destruct Hfail.
    + msimpl. rewrite <- !app_assoc. repeat split; reflexivity.
  - rewrite <- !app_assoc. repeat split; reflexivity.
Qed.

(** C7. [schedule_tweet] hands nothing to the posting API and leaves the
    ledger alone: it queues one job whose date is the current time plus
    [delay_minutes] minutes, 30 by default.  In the polling loop the ledger
    write is made in the same tier step, right after the job is queued.
    When the scheduler later runs the job and the posting API answers
    anything but 201 (or raises), the failure is printed, the job is gone,
    nothing is queued again and the database is what it was. *)
Theorem dispatcher_defers_delivery :
  (forall w text delay st,
      let r := schedule_tweet w text delay st in
      st_posted (snd r) = st_posted st
      /\ st_db (snd r) = st_db st
      /\ match w_add_job w (1 + st_steps st) with
         | None =>
             fst r = Ok tt
             /\ st_jobs (snd r)
                = st_jobs st
                  ++ [{| job_run_date :=
                           (w_clock w (st_steps st)
                            + inject_Z (delay * 60))%Q;
                         job_text := text |}]
         | Some e => fst r = Raise e /\ st_jobs (snd r) = st_jobs st
         end)
  /\ (forall w text st,
        schedule_tweet_default w text st = schedule_tweet w text 30 st)
  /\ (forall w token dex_data current_mcap multiple t st ca name parsed text,
        dict_get token "ca" = Some ca ->
        dict_get token "token" = Some name ->
        fge_int multiple t = true ->
        w_db_fault w (st_steps st) = None ->
        check_multiple_alerted_sql (w_adapt w) (st_db st) ca (py_int t)
        = Ok false ->
        Qle_bool (inject_Z TWEET_INTERVAL)
          (w_clock w (1 + st_steps st) - st_last_tweet_time st) = true ->
        parse_dexscreener_data (w_fromtimestamp w) dex_data = Some parsed ->
        w_format_tweet_text w token parsed multiple = Ok text ->
        w_add_job w (3 + st_steps st) = None ->
        let r := tier_step w token dex_data current_mcap multiple t st in
        st_posted (snd r) = st_posted st
        /\ st_jobs (snd r)
           = st_jobs st
             ++ [{| job_run_date :=
                      (w_clock w (2 + st_steps st) + inject_Z (30 * 60))%Q;
                    job_text := text |}]
        /\ st_db (snd r)
           = match record_outcome w (4 + st_steps st) (st_db st) ca t
                     current_mcap with
             | Ok db' => db'
             | Raise _ => st_db st
             end)
  /\ (forall w n st j answer,
        nth_error (st_jobs st) n = Some j ->
        Qle_bool (job_run_date j) (w_clock w (st_steps st)) = true ->
        w_post_tweet w (1 + st_steps st) (job_text j) = answer ->
        answer <> Ok 201 ->
        let r := run_job w n st in
        st_db (snd r) = st_db st
        /\ st_jobs (snd r) = remove_nth n (st_jobs st)
        /\ st_posted (snd r) = st_posted st ++ [job_text j]
        /\ st_out (snd r)
           = st_out st ++ [LTweetContent (job_text j); failure_line answer]).
Proof.
  split; [exact schedule_tweet_effect|].
  split; [reflexivity|].
  split; [|exact run_job_failure].
  intros w token dex cur multiple t st ca name parsed text
         Hca Hname Hge Hf Hchk Hsp Hparse Hfmt Hjob r.
  subst r.
  rewrite (tier_step_schedules w token dex cur multiple t st ca name parsed
             text Hca Hname Hge Hf Hchk Hsp Hparse Hfmt Hjob).
  cbn [snd st_posted st_jobs st_db]. repeat split; reflexivity.
Qed.

(** A witness: token A at 25 times its baseline is scheduled at tier 5 at
    time 1000, and the job, run at 3000, is answered 403. *)
Lemma dispatcher_defers_delivery_witness :
  let http := fun _ => HttpResponse 200 (Ok (snapshot 2500)) in
  let w := sample_world (fun _ => 1000%Q) http no_adapter in
  let st := initial_state db_one_token in
  let r := tier_step w token_A (snapshot 2500) (PyNum (PFin 2500)) (PFin 25)
             5 st in
  let w' := {| w_clock := fun _ => 3000%Q;
               w_db_fault := w_db_fault w; w_adapt := w_adapt w;
               w_sql_datetime := w_sql_datetime w;
               w_http_get := w_http_get w;
               w_fromtimestamp := w_fromtimestamp w;
               w_format_tweet_text := w_format_tweet_text w;
               w_add_job := w_add_job w;
               w_post_tweet := fun _ _ => Ok 403;
               w_okx_new := w_okx_new w; w_get_quote := w_get_quote w;
               w_purchase_params := w_purchase_params w;
               w_sleep := w_sleep w |} in
  let r' := run_job w' 0 (snd r) in
  (st_posted (snd r) = []
   /\ st_jobs (snd r)
      = [{| job_run_date := (1000 + inject_Z (30 * 60))%Q;
            job_text := "alert" |}]
   /\ rows_of (st_db (snd r)) "multiple_alerts"
      = [[VText "A"; VNum (PFin 5); VTime 1000; VNum (PFin 2500)]])
  /\ (st_db (snd r') = st_db (snd r)
      /\ st_jobs (snd r') = []
      /\ st_posted (snd r') = ["alert"%string]
      /\ st_out (snd r')
         = st_out (snd r) ++ [LTweetContent "alert"; LTweetFailed 403]).
Proof.
  intros http w st r w' r'.
  destruct dispatcher_defers_delivery as (_ & _ & Hc & Hd).
  split.
  - destruct (Hc w token_A (snapshot 2500) (PyNum (PFin 2500)) (PFin 25) 5 st
                 (PyStr "A") (PyStr "TOK")
                 {| price_usd := PFin (1 # 100);
                    created_time := "2024-04-30 08:00:00"; socials := [] |}
                 "alert"%string
                 eq_refl eq_refl eq_refl eq_refl eq_refl eq_refl eq_refl
                 eq_refl eq_refl) as (H1 & H2 & H3).
    fold r in H1, H2, H3.
    split; [exact H1|]. split; [exact H2|].
    rewrite H3. reflexivity.
  - destruct (Hd w' 0%nat (snd r)
                 {| job_run_date := (1000 + inject_Z (30 * 60))%Q;
                    job_text := "alert" |}
                 (Ok 403) eq_refl eq_refl eq_refl ltac:(discriminate))
      as (H1 & H2 & H3 & H4).
    fold r' in H1, H2, H3, H4.
    split; [exact H1|]. split; [exact H2|]. split; [exact H3|exact H4].
Defined.

(** ** Spacing of the dispatch decisions *)

Lemma calm_refl st : calm st st.
Proof. split; [reflexivity|]. split; [lia | apply emits_refl]. Qed.

Lemma calm_trans a b c : calm a b -> calm b c -> calm a c.
Proof.
  intros (L1 & S1 & E1) (L2 & S2 & E2).
  split; [congruence|]. split; [lia | eapply emits_trans; eauto].
Qed.

Ltac calm_prim :=
  solve
    [ intros ?; split; [reflexivity|]; split; [cbn; lia|];
      first
        [ exists []; cbn; rewrite app_nil_r; split; [reflexivity | constructor]
        | eexists [_]; cbn; split;
          [reflexivity | repeat constructor] ] ].

Ltac calm_tac := respects_with calm_refl calm_trans calm_prim.

Lemma check_multiple_alerted_calm w ca m :
  respects calm (check_multiple_alerted w ca m).
Proof. unfold check_multiple_alerted, with_connection. calm_tac. Qed.

Lemma schedule_tweet_calm w text delay :
  respects calm (schedule_tweet w text delay).
Proof. unfold schedule_tweet. calm_tac. Qed.

Lemma record_multiple_alert_calm w ca m x :
  respects calm (record_multiple_alert w ca m x).
Proof. unfold record_multiple_alert, with_connection. calm_tac. Qed.

Lemma fetch_dexscreener_data_calm w a :
  respects calm (fetch_dexscreener_data w a).
Proof. unfold fetch_dexscreener_data. calm_tac. Qed.

Lemma add_price_record_calm w ca d : respects calm (add_price_record w ca d).
Proof. unfold add_price_record, with_connection. calm_tac. Qed.

Lemma get_all_tokens_calm w : respects calm (get_all_tokens w).
Proof. unfold get_all_tokens, with_connection. calm_tac. Qed.

Lemma init_db_calm w : respects calm (init_db w).
Proof. unfold init_db, with_connection. calm_tac. Qed.

Lemma run_job_calm w n : respects calm (run_job w n).
Proof. unfold run_job, send_tweet. calm_tac. Qed.

Lemma receive_token_calm w data : respects calm (receive_token w data).
Proof.
  unfold receive_token, fetch_dexscreener_data, add_token, check_tokens,
    add_purchase_record, with_connection.
  cbv zeta. calm_tac.
Qed.


Lemma scheduled_dispatch l t : scheduled_time l = Some t -> dispatch_time l = Some t.
Proof. destruct l; cbn; congruence. Qed.

Lemma well_spaced_app_quiet out new :
  well_spaced out ->
  Forall (fun l => dispatch_time l = None) new ->
  well_spaced (out ++ new).
Proof.
  intros H Hq i j l1 l2 t1 t2 Hij H1 S1 H2 D2.
  destruct (Nat.lt_ge_cases j (List.length out)) as [Hj|Hj].
  - rewrite nth_error_app1 in H1, H2 by lia. eauto.
  - rewrite nth_error_app2 in H2 by lia.
    apply nth_error_In in H2. rewrite Forall_forall in Hq.
    rewrite (Hq _ H2) in D2. discriminate.
Qed.

Lemma bounded_app_quiet last out new :
  bounded_by last out ->
  Forall (fun l => dispatch_time l = None) new ->
  bounded_by last (out ++ new).
Proof.
  intros H Hq l t Hin S. apply in_app_or in Hin as [Hin|Hin]; [eauto|].
  rewrite Forall_forall in Hq. apply scheduled_dispatch in S.
  rewrite (Hq _ Hin) in S. discriminate.
Qed.

Lemma calm_keeps_spaced st st' : calm st st' -> keeps_spaced st st'.
Proof.
  intros (L & _ & new & E & Hq) [W B]. unfold spaced. rewrite E, L.
  split; [now apply well_spaced_app_quiet | now apply bounded_app_quiet].
Qed.

Lemma keeps_spaced_refl st : keeps_spaced st st.
Proof. intros H. exact H. Qed.

Lemma keeps_spaced_trans a b c :
  keeps_spaced a b -> keeps_spaced b c -> keeps_spaced a c.
Proof. unfold keeps_spaced. auto. Qed.

Lemma respects_calm_spaced {A} (m : M A) :
  respects calm m -> respects keeps_spaced m.
Proof. intros H st. apply calm_keeps_spaced, H. Qed.

(** A line that passed the spacing test [TWEET_INTERVAL] after the last
    scheduled alert may be added. *)
Lemma well_spaced_snoc out last l t :
  well_spaced out -> bounded_by last out ->
  dispatch_time l = Some t ->
  (last + inject_Z TWEET_INTERVAL <= t)%Q ->
  well_spaced (out ++ [l]).
Proof.
  intros W B D Hsp i j l1 l2 t1 t2 Hij H1 S1 H2 D2.
  destruct (Nat.lt_ge_cases j (List.length out)) as [Hj|Hj].
  - rewrite nth_error_app1 in H1, H2 by lia. eauto.
  - assert (Hlen : (j < List.length (out ++ [l]))%nat)
      by (apply nth_error_Some; congruence).
    rewrite length_app in Hlen. cbn in Hlen.
    assert (j = List.length out) by lia. subst j.
    rewrite nth_error_app1 in H1 by lia.
    rewrite nth_error_app2, Nat.sub_diag in H2 by lia.
    cbn in H2. injection H2 as <-.
    rewrite D in D2. injection D2 as <-.
    apply nth_error_In in H1. specialize (B _ _ H1 S1). lra.
Qed.

Lemma bounded_mono last last' out :
  bounded_by last out -> (last <= last')%Q -> bounded_by last' out.
Proof. intros B H l t Hin S. specialize (B _ _ Hin S). lra. Qed.

Lemma bounded_snoc last out l :
  bounded_by last out ->
  (forall t, scheduled_time l = Some t -> (t <= last)%Q) ->
  bounded_by last (out ++ [l]).
Proof.
  intros B H l' t Hin S. apply in_app_or in Hin as [Hin|[<-|[]]]; eauto.
Qed.


Lemma Qle_bool_interval a b :
  Qle_bool (inject_Z TWEET_INTERVAL) (a - b) = true ->
  (b + inject_Z TWEET_INTERVAL <= a)%Q.
Proof. intros H. apply Qle_bool_iff in H. lra. Qed.

Lemma tier_body_keeps_spaced w token dex_data current_mcap multiple t :
  monotone_clock w ->
  respects keeps_spaced (tier_body w token dex_data current_mcap multiple t).
Proof.
  intros Hmono. unfold tier_body.
  apply (respects_bind _ keeps_spaced_trans);
    [apply (respects_lift _ keeps_spaced_refl)|]. intros ca.
  apply (respects_bind _ keeps_spaced_trans);
    [apply respects_calm_spaced, check_multiple_alerted_calm|].
  intros [|]; [apply (respects_ret _ keeps_spaced_refl)|].
  intros st [W B]. munfold. msimpl.
  destruct (Qle_bool _ _) eqn:Hsp; msimpl.
  2:{ split; cbn [st_out st_last_tweet_time].
      - apply well_spaced_app_quiet; [exact W | repeat constructor].
      - apply bounded_app_quiet; [exact B | repeat constructor]. }
  apply Qle_bool_interval in Hsp.
  set (ts := w_clock w (st_steps st)) in *.
  set (st2 := {| st_db := st_db st; st_jobs := st_jobs st;
                 st_posted := st_posted st; st_requests := st_requests st;
                 st_out := st_out st ++ [LTargetReached ca t ts];
                 st_steps := S (st_steps st);
                 st_last_tweet_time := st_last_tweet_time st |}).
  assert (W2 : well_spaced (st_out st2)).
  { eapply well_spaced_snoc; eauto. reflexivity. }
  assert (B2 : bounded_by (st_last_tweet_time st) (st_out st2)).
  { apply bounded_snoc; [exact B | discriminate]. }
  destruct (parse_dexscreener_data _ _) as [parsed|]; msimpl;
    [|split; assumption].
  destruct (w_format_tweet_text w token parsed multiple) as [text|e]; msimpl;
    [|split; assumption].
  pose proof (schedule_tweet_calm w text 30 st2) as C3.
  fold st2.
  destruct (schedule_tweet w text 30 st2) as [[[]|e] st3]; cbn [snd] in C3;
    msimpl.
  2:{ apply (calm_keeps_spaced st2 st3 C3). split; assumption. }
  pose proof (record_multiple_alert_calm w ca (py_int t) current_mcap st3)
    as C4.
  destruct (record_multiple_alert w ca (py_int t) current_mcap st3)
    as [[b|e] st4]; cbn [snd] in C4; msimpl.
  2:{ apply (calm_keeps_spaced st3 st4 C4), (calm_keeps_spaced st2 st3 C3).
      split; assumption. }
  destruct (calm_keeps_spaced st3 st4 C4
              (calm_keeps_spaced st2 st3 C3 (conj W2 B2))) as [W4 B4].
  destruct C3 as (L3 & S3 & _), C4 as (L4 & S4 & _).
  rewrite L4, L3 in B4. unfold st2 in S3, B4.
  cbn [st_last_tweet_time st_steps] in S3, B4.
  assert (Hts : (ts <= w_clock w (st_steps st4))%Q).
  { apply Hmono. lia. }
  assert (B5 : bounded_by (w_clock w (st_steps st4)) (st_out st4)).
  { eapply bounded_mono; [exact B4|].
    assert (0 <= inject_Z TWEET_INTERVAL)%Q by (unfold Qle; cbn; lia).
    lra. }
  destruct (dict_get token "token"); msimpl.
  - split; cbn [st_out st_last_tweet_time].
    + eapply well_spaced_snoc; [exact W4 | exact B4 | reflexivity | exact Hsp].
    + apply bounded_snoc; [exact B5|]. intros t' [= <-]. exact Hts.
  - split; assumption.
Qed.

Lemma tier_step_keeps_spaced w token dex_data current_mcap multiple t :
  monotone_clock w ->
  respects keeps_spaced (tier_step w token dex_data current_mcap multiple t).
Proof.
  intros Hmono. unfold tier_step.
  destruct (fge_int multiple t); [|apply (respects_ret _ keeps_spaced_refl)].
  apply (respects_try _ keeps_spaced_trans).
  - now apply tier_body_keeps_spaced.
  - intros e. apply respects_calm_spaced. calm_tac.
Qed.

Ltac spaced_prim Hmono :=
  first
    [ apply (tier_step_keeps_spaced _ _ _ _ _ _ Hmono)
    | apply respects_calm_spaced;
      first [ apply fetch_dexscreener_data_calm
            | apply add_price_record_calm
            | apply get_all_tokens_calm
            | calm_prim ] ].

Lemma monitor_cycle_keeps_spaced w :
  monotone_clock w -> respects keeps_spaced (monitor_cycle w).
Proof.
  intros Hmono. unfold monitor_cycle, token_step, token_body.
  respects_with keeps_spaced_refl keeps_spaced_trans ltac:(spaced_prim Hmono).
Qed.

Lemma perform_keeps_spaced w a :
  monotone_clock w -> respects keeps_spaced (perform w a).
Proof.
  intros Hmono. destruct a as [|data| |n]; cbn [perform].
  - apply respects_calm_spaced, init_db_calm.
  - apply respects_calm_spaced.
    apply (respects_bind _ calm_trans); [apply receive_token_calm|].
    intros _. apply (respects_ret _ calm_refl).
  - now apply monitor_cycle_keeps_spaced.
  - apply respects_calm_spaced, run_job_calm.
Qed.

Lemma run_keeps_spaced w actions st :
  monotone_clock w -> spaced st -> spaced (run w actions st).
Proof.
  intros Hmono. revert st.
  induction actions as [|a actions IH]; intros st H; [exact H|].
  cbn [run fold_left]. apply IH. now apply (perform_keeps_spaced w a Hmono st).
Qed.

Lemma initial_state_spaced db : spaced (initial_state db).
Proof.
  split.
  - intros i j l1 l2 t1 t2 _ H. cbn in H. now rewrite nth_error_nil in H.
  - intros l t [].
Qed.


(** A [try] whose handler only prints returns normally. *)
Lemma try_print_returns (m : M unit) (f : exn -> line) st :
  fst (try_ m (fun e => print (f e)) st) = Ok tt.
Proof.
  unfold try_, print. destruct (m st) as [[[]|e] st1]; reflexivity.
Qed.

Lemma bind_returns {A} (m : M A) (k : A -> M unit) st :
  (forall st, exists a, fst (m st) = Ok a) ->
  (forall a st, fst (k a st) = Ok tt) ->
  fst (bind_m m k st) = Ok tt.
Proof.
  intros Hm Hk. unfold bind_m. destruct (Hm st) as (a & Ha).
  destruct (m st) as [r st1]. cbn in Ha. subst r. apply Hk.
Qed.

Lemma monitor_cycle_returns w st : fst (monitor_cycle w st) = Ok tt.
Proof.
  unfold monitor_cycle. apply bind_returns.
  - intros st1. exists tt. apply try_print_returns.
  - intros _ st1. apply try_print_returns.
Qed.

Lemma monitor_cycles_run w n st :
  monitor_cycles w n st = (Ok tt, run w (repeat MonitorCycle n) st).
Proof.
  revert st. induction n as [|n IH]; intros st; [reflexivity|].
  cbn [monitor_cycles repeat run fold_left perform]. unfold bind_m.
  pose proof (monitor_cycle_returns w st) as H.
  destruct (monitor_cycle w st) as [r st1]. cbn in H. subst r.
  apply IH.
Qed.

Lemma monitor_token_price_run w n db :
  monitor_token_price w n (initial_state db)
  = (Ok tt, run w (repeat MonitorCycle n) (initial_state db)).
Proof.
  unfold monitor_token_price, bind_m, put_last_tweet_time. cbn.
  apply monitor_cycles_run.
Qed.

(** C5, as the code has it. With a clock that does not run backwards, in
    every run of the process, once an alert is scheduled no later dispatch
    decision passes the spacing test (and so no later alert is scheduled)
    less than [TWEET_INTERVAL] seconds after that alert's own test; in
    particular this holds of the polling loop run on its own.  Whatever the
    clock does, a crossing of a tier the ledger does not have yet, detected
    when [TWEET_INTERVAL] seconds or more have passed since the last
    scheduled alert, is scheduled in that very step if its snapshot parses,
    its text can be made and the scheduler takes the job; if the text
    cannot be made, the step ends on that exception and the crossing is
    dropped.  A crossing detected sooner is deferred: the step prints that
    it is too soon.  A step that drops or defers queues nothing, records
    nothing and leaves the last dispatch time as it is, so the tier comes
    up again in the next pass. *)
Theorem dispatch_minimum_spacing :
  (forall w : World,
      monotone_clock w ->
      (forall db actions,
          well_spaced (st_out (run w actions (initial_state db))))
      /\ (forall db n,
            well_spaced
              (st_out (snd (monitor_token_price w n (initial_state db))))))
  /\ (forall w token dex_data current_mcap multiple t st ca name parsed text,
        dict_get token "ca" = Some ca ->
        dict_get token "token" = Some name ->
        fge_int multiple t = true ->
        w_db_fault w (st_steps st) = None ->
        check_multiple_alerted_sql (w_adapt w) (st_db st) ca (py_int t)
        = Ok false ->
        Qle_bool (inject_Z TWEET_INTERVAL)
          (w_clock w (1 + st_steps st) - st_last_tweet_time st) = true ->
        parse_dexscreener_data (w_fromtimestamp w) dex_data = Some parsed ->
        w_format_tweet_text w token parsed multiple = Ok text ->
        w_add_job w (3 + st_steps st) = None ->
        let st' := snd (tier_step w token dex_data current_mcap multiple t
                          st) in
        st_jobs st'
        = st_jobs st
          ++ [{| job_run_date :=
                   (w_clock w (2 + st_steps st) + inject_Z (30 * 60))%Q;
                 job_text := text |}]
        /\ In (LScheduled ca t (w_clock w (1 + st_steps st))) (st_out st')
        /\ st_last_tweet_time st' = w_clock w (5 + st_steps st))
  /\ (forall w token dex_data current_mcap multiple t st ca,
        dict_get token "ca" = Some ca ->
        fge_int multiple t = true ->
        w_db_fault w (st_steps st) = None ->
        check_multiple_alerted_sql (w_adapt w) (st_db st) ca (py_int t)
        = Ok false ->
        Qle_bool (inject_Z TWEET_INTERVAL)
          (w_clock w (1 + st_steps st) - st_last_tweet_time st) = false ->
        tier_step w token dex_data current_mcap multiple t st
        = (Ok tt,
           {| st_db := st_db st; st_jobs := st_jobs st;
              st_posted := st_posted st; st_requests := st_requests st;
              st_out := st_out st
                        ++ [LTooSoon ca t (w_clock w (1 + st_steps st))
                              (Qfloor (inject_Z TWEET_INTERVAL
                                       - (w_clock w (1 + st_steps st)
                                          - st_last_tweet_time st)))];
              st_steps := 2 + st_steps st;
              st_last_tweet_time := st_last_tweet_time st |}))
  /\ (forall w token dex_data current_mcap multiple t st ca parsed e,
        dict_get token "ca" = Some ca ->
        fge_int multiple t = true ->
        w_db_fault w (st_steps st) = None ->
        check_multiple_alerted_sql (w_adapt w) (st_db st) ca (py_int t)
        = Ok false ->
        Qle_bool (inject_Z TWEET_INTERVAL)
          (w_clock w (1 + st_steps st) - st_last_tweet_time st) = true ->
        parse_dexscreener_data (w_fromtimestamp w) dex_data = Some parsed ->
        w_format_tweet_text w token parsed multiple = Raise e ->
        tier_step w token dex_data current_mcap multiple t st
        = (Ok tt,
           {| st_db := st_db st; st_jobs := st_jobs st;
              st_posted := st_posted st; st_requests := st_requests st;
              st_out := (st_out st
                         ++ [LTargetReached ca t
                               (w_clock w (1 + st_steps st))])
                        ++ [LTierError e];
              st_steps := 2 + st_steps st;
              st_last_tweet_time := st_last_tweet_time st |})).
Proof.
  split; [|split; [|split]].
  - intros w Hmono. split.
    + intros db actions.
      apply (run_keeps_spaced w actions _ Hmono (initial_state_spaced db)).
    + intros db n. rewrite monitor_token_price_run. cbn [snd].
      apply (run_keeps_spaced w _ _ Hmono (initial_state_spaced db)).
  - intros w token dex cur multiple t st ca name parsed text
           Hca Hname Hge Hf Hchk Hsp Hparse Hfmt Hjob st'.
    subst st'.
    rewrite (tier_step_schedules w token dex cur multiple t st ca name parsed
               text Hca Hname Hge Hf Hchk Hsp Hparse Hfmt Hjob).
    cbn [snd st_jobs st_out st_last_tweet_time].
    split; [reflexivity|]. split; [|reflexivity].
    apply in_or_app. right. now left.
  - intros. now apply tier_step_defers.
  - intros. eapply tier_step_text_fails; eassumption.
Qed.

(** A witness: tokens A and B both stand above five times their baselines;
    A's crossing is detected at 1714600000 and scheduled, B's three seconds
    later and deferred.  The step of A's tier 5 on its own schedules it;
    three seconds after the start of the process it defers it; and where
    the text cannot be made it drops it. *)
Lemma dispatch_minimum_spacing_witness :
  let clock := fun k : nat =>
    if (k <? 12)%nat then 1714600000%Q else 1714600003%Q in
  let w := sample_world clock (http_for (Some 550%Q) (Some 1200%Q))
             no_adapter in
  let st := run w [MonitorCycle] (initial_state db_two_tokens) in
  let early := sample_world (fun _ => 3%Q) (http_for (Some 550%Q) None)
                 no_adapter in
  let mute := with_format_tweet_text (fun _ _ _ => Raise AttributeError) w in
  let step := fun w => tier_step w token_A (snapshot 550) (PyNum (PFin 550))
                         (PFin (11 # 2)) 5 (initial_state db_one_token) in
  (monotone_clock w
   /\ well_spaced (st_out st)
   /\ st_out st
      = [LRoundStart; LTokenCount 2; LCheckToken (PyStr "TOK");
         LCurrentMcap (PyNum (PFin 550)) (PFin (11 # 2));
         LTargetReached (PyStr "A") 5 1714600000;
         LQueued 1714600000 1714601800 "alert";
         LScheduled (PyStr "A") 5 1714600000;
         LCheckToken (PyStr "TOK2");
         LCurrentMcap (PyNum (PFin 1200)) (PFin 6);
         LTooSoon (PyStr "B") 5 1714600003 7;
         LWaitNext]
   /\ List.length (st_jobs st) = 1%nat)
  /\ (st_jobs (snd (step w))
      = [{| job_run_date := (1714600000 + inject_Z (30 * 60))%Q;
            job_text := "alert" |}]
      /\ In (LScheduled (PyStr "A") 5 1714600000) (st_out (snd (step w)))
      /\ st_last_tweet_time (snd (step w)) = 1714600000%Q)
  /\ snd (step early)
     = {| st_db := db_one_token; st_jobs := []; st_posted := [];
          st_requests := []; st_out := [LTooSoon (PyStr "A") 5 3 7];
          st_steps := 2; st_last_tweet_time := 0 |}
  /\ snd (step mute)
     = {| st_db := db_one_token; st_jobs := []; st_posted := [];
          st_requests := [];
          st_out := [LTargetReached (PyStr "A") 5 1714600000;
                     LTierError AttributeError];
          st_steps := 2; st_last_tweet_time := 0 |}.
Proof.
  intros clock w st early mute step.
  assert (Hmono : monotone_clock w).
  { intros i j Hij. cbn. unfold clock.
    destruct (Nat.ltb_spec i 12), (Nat.ltb_spec j 12);
      try (unfold Qle; cbn; lia). }
  destruct dispatch_minimum_spacing as (Hrun & Hsched & Hdefer & Hdrop).
  split; [|split; [|split]].
  - split; [exact Hmono|].
    split; [apply (proj1 (Hrun w Hmono) db_two_tokens)|].
    split; vm_compute; reflexivity.
  - exact (Hsched w token_A (snapshot 550) (PyNum (PFin 550)) (PFin (11 # 2))
             5 (initial_state db_one_token) (PyStr "A") (PyStr "TOK")
             {| price_usd := PFin (1 # 100);
                created_time := "2024-04-30 08:00:00"; socials := [] |}
             "alert"%string
             eq_refl eq_refl eq_refl eq_refl eq_refl eq_refl eq_refl eq_refl
             eq_refl).
  - unfold step.
    rewrite (Hdefer early token_A (snapshot 550) (PyNum (PFin 550))
               (PFin (11 # 2)) 5 (initial_state db_one_token) (PyStr "A")
               eq_refl eq_refl eq_refl eq_refl eq_refl).
    reflexivity.
  - unfold step.
    rewrite (Hdrop mute token_A (snapshot 550) (PyNum (PFin 550))
               (PFin (11 # 2)) 5 (initial_state db_one_token) (PyStr "A")
               {| price_usd := PFin (1 # 100);
                  created_time := "2024-04-30 08:00:00"; socials := [] |}
               AttributeError
               eq_refl eq_refl eq_refl eq_refl eq_refl eq_refl eq_refl).
    reflexivity.
Defined.

(** C5 as stated fails.  Tokens A and B are in the active set, nothing is
    in the ledger.  A is scheduled at tier 5 at 1714600000.  B stands at 12
    times its baseline: the crossing of its tier 5 is detected at 1714600008
    and the crossing of its tier 10 three seconds later, at 1714600011.  Of
    these two detections the earlier is deferred and the later is scheduled.
    The database of [init_db] gives the same decisions; there the ledger
    write after each scheduling fails. *)
Lemma earlier_detection_deferred_counterexample :
  let clock := fun k : nat =>
    if (k <? 12)%nat then 1714600000%Q
    else if (k <? 14)%nat then 1714600008%Q else 1714600011%Q in
  let w := sample_world clock (http_for (Some 550%Q) (Some 2400%Q))
             no_adapter in
  let st := run w [MonitorCycle] (initial_state db_two_tokens) in
  let st0 := run w [MonitorCycle] (initial_state fresh_two_tokens) in
  monotone_clock w
  /\ st_out st
     = [LRoundStart; LTokenCount 2; LCheckToken (PyStr "TOK");
        LCurrentMcap (PyNum (PFin 550)) (PFin (11 # 2));
        LTargetReached (PyStr "A") 5 1714600000;
        LQueued 1714600000 1714601800 "alert";
        LScheduled (PyStr "A") 5 1714600000;
        LCheckToken (PyStr "TOK2");
        LCurrentMcap (PyNum (PFin 2400)) (PFin 12);
        LTooSoon (PyStr "B") 5 1714600008 2;
        LTargetReached (PyStr "B") 10 1714600011;
        LQueued 1714600011 1714601811 "alert";
        LScheduled (PyStr "B") 10 1714600011;
        LWaitNext]
  /\ st_jobs st
     = [{| job_run_date := 1714601800; job_text := "alert" |};
        {| job_run_date := 1714601811; job_text := "alert" |}]
  /\ st_out st0
     = [LRoundStart; LTokenCount 2; LCheckToken (PyStr "TOK");
        LCurrentMcap (PyNum (PFin 550)) (PFin (11 # 2));
        LTargetReached (PyStr "A") 5 1714600000;
        LQueued 1714600000 1714601800 "alert";
        LRecordAlertFailed OperationalError;
        LScheduled (PyStr "A") 5 1714600000;
        LCheckToken (PyStr "TOK2");
        LCurrentMcap (PyNum (PFin 2400)) (PFin 12);
        LTooSoon (PyStr "B") 5 1714600008 2;
        LTargetReached (PyStr "B") 10 1714600011;
        LQueued 1714600011 1714601811 "alert";
        LRecordAlertFailed OperationalError;
        LScheduled (PyStr "B") 10 1714600011;
        LWaitNext]
  /\ st_jobs st0 = st_jobs st.
Proof.
  intros clock w st st0. split.
  - intros i j Hij. cbn. unfold clock.
    destruct (Nat.ltb_spec i 12), (Nat.ltb_spec j 12),
      (Nat.ltb_spec i 14), (Nat.ltb_spec j 14);
      try (unfold Qle; cbn; lia).
  - repeat split; vm_compute; reflexivity.
Qed.

(** ** Isolation of failures in a polling pass *)

Lemma fetch_dexscreener_data_effect w a st :
  fetch_dexscreener_data w a st
  = (Ok (fetch_result (w_http_get w (st_steps st) (dexscreener_request a))),
     {| st_db := st_db st; st_jobs := st_jobs st; st_posted := st_posted st;
        st_requests := st_requests st ++ [dexscreener_request a];
        st_out := st_out st
                  ++ fetch_lines
                       (w_http_get w (st_steps st) (dexscreener_request a));
        st_steps := S (st_steps st);
        st_last_tweet_time := st_last_tweet_time st |}).
Proof.
  unfold fetch_dexscreener_data. munfold. cbn.
  destruct (w_http_get w (st_steps st) (dexscreener_request a))
    as [status json|e]; cbn.
  - destruct (status =? 200), json; cbn; rewrite ?app_nil_r; reflexivity.
  - reflexivity.
Qed.











Lemma tier_step_returns w token dex_data current_mcap multiple t st :
  fst (tier_step w token dex_data current_mcap multiple t st) = Ok tt.
Proof.
  unfold tier_step. destruct (fge_int multiple t); [|reflexivity].
  apply try_print_returns.
Qed.








Lemma for_each_tier_step_returns w token dex_data current_mcap multiple l st :
  fst (for_each l (tier_step w token dex_data current_mcap multiple) st)
  = Ok tt.
Proof.
  revert st. induction l as [|t l IH]; intros st; [reflexivity|].
  cbn [for_each]. unfold bind_m.
  pose proof (tier_step_returns w token dex_data current_mcap multiple t st)
    as H.
  destruct (tier_step w token dex_data current_mcap multiple t st)
    as [r st1]. cbn in H. subst r. apply IH.
Qed.







(** ** The evaluation of a token, tier by tier *)

Lemma new_lines_app st st' new :
  st_out st' = st_out st ++ new -> new_lines st st' = new.
Proof.
  intros E. unfold new_lines. rewrite E.
  rewrite skipn_app, skipn_all, Nat.sub_diag. reflexivity.
Qed.

Lemma tier_line_weaken w dex_data multiple tiers tiers' l :
  (forall t, In t tiers -> In t tiers') ->
  tier_line w dex_data multiple tiers l ->
  tier_line w dex_data multiple tiers' l.
Proof.
  intros H. destruct l; cbn; try tauto; intros (? & ?); auto.
Qed.

Ltac emits_prim :=
  solve
    [ intros ?;
      first
        [ exists []; cbn; rewrite app_nil_r; split; [reflexivity | constructor]
        | eexists [_]; cbn; split;
          [ reflexivity
          | repeat constructor; cbn; auto; congruence ] ] ].

Lemma tier_step_emits w token dex_data current_mcap multiple t :
  respects (emits (tier_line w dex_data multiple [t]))
           (tier_step w token dex_data current_mcap multiple t).
Proof.
  unfold tier_step, tier_body, check_multiple_alerted, schedule_tweet,
    record_multiple_alert, with_connection.
  respects_with (emits_refl (tier_line w dex_data multiple [t]))
                (emits_trans (tier_line w dex_data multiple [t]))
                emits_prim.
Qed.

Lemma tier_step_emits_in w token dex_data current_mcap multiple t all :
  In t all ->
  respects (emits (tier_line w dex_data multiple all))
           (tier_step w token dex_data current_mcap multiple t).
Proof.
  intros Hin st. eapply emits_weaken; [|apply tier_step_emits].
  intros l. apply tier_line_weaken. intros t' [<-|[]]. exact Hin.
Qed.

Lemma for_each_tier_step_emits w token dex_data current_mcap multiple
      tiers all :
  (forall t, In t tiers -> In t all) ->
  respects (emits (tier_line w dex_data multiple all))
           (for_each tiers (tier_step w token dex_data current_mcap multiple)).
Proof.
  induction tiers as [|t tiers IH]; intros Hsub; cbn [for_each].
  - apply (respects_ret _ (emits_refl _)).
  - apply (respects_bind _ (emits_trans _)).
    + apply tier_step_emits_in, Hsub. now left.
    + intros _. apply IH. intros t' Ht'. apply Hsub. now right.
Qed.

Ltac in_tail :=
  solve [repeat first [apply in_eq | apply in_cons | apply in_or_app; right]].

Ltac outcome_done :=
  eexists; split;
  [ cbn [st_out]; rewrite <- ?app_assoc; reflexivity
  | unfold tier_outcome;
    first
      [ left; do 2 eexists; in_tail
      | right; left; do 3 eexists; in_tail
      | right; right; left; eexists; in_tail
      | right; right; right; left; assumption
      | right; right; right; right; eauto ] ].

Lemma calm_out st st' : calm st st' -> exists new, st_out st' = st_out st ++ new.
Proof. intros (_ & _ & new & E & _). eauto. Qed.

(** The step of a tier the multiple has reached ends in one of the five
    ways. *)
Lemma tier_step_outcome w token dex_data current_mcap multiple t st :
  fge_int multiple t = true ->
  exists b,
    st_out (snd (tier_step w token dex_data current_mcap multiple t st))
    = st_out st ++ b
    /\ tier_outcome w token dex_data t (st_db st) b.
Proof.
  intros Hge. unfold tier_step. rewrite Hge.
  unfold tier_body, check_multiple_alerted, with_connection, subscript.
  munfold. msimpl.
  destruct (dict_get token "ca") as [ca|] eqn:Hca; msimpl; [|outcome_done].
  destruct (w_db_fault w (st_steps st)); msimpl; [outcome_done|].
  destruct (check_multiple_alerted_sql _ _ _ _) as [[|]|e] eqn:Hchk; msimpl.
  - exists []. rewrite app_nil_r. split; [reflexivity|].
    unfold tier_outcome. do 4 right. eauto.
  - destruct (Qle_bool _ _); msimpl; [|outcome_done].
    destruct (parse_dexscreener_data _ _) as [parsed|] eqn:Hparse; msimpl;
      [|outcome_done].
    destruct (w_format_tweet_text w token parsed multiple) as [text|e];
      msimpl; [|outcome_done].
    match goal with
    | |- context [schedule_tweet w text 30 ?s] =>
        destruct (calm_out _ _ (schedule_tweet_calm w text 30 s)) as (n3 & E3);
        destruct (schedule_tweet w text 30 s) as [[[]|e] st3]
    end; cbn [snd st_out] in E3; msimpl.
    2:{ rewrite E3. outcome_done. }
    match goal with
    | |- context [record_multiple_alert w ?a ?b ?c st3] =>
        destruct (calm_out _ _ (record_multiple_alert_calm w a b c st3))
          as (n4 & E4);
        destruct (record_multiple_alert w a b c st3) as [[r|e] st4]
    end; cbn [snd] in E4; msimpl.
    2:{ rewrite E4, E3. outcome_done. }
    destruct (dict_get token "token"); msimpl; rewrite E4, E3; outcome_done.
  - outcome_done.
Qed.


Lemma Qeq_bool_inject_Z a b : Qeq_bool (inject_Z a) (inject_Z b) = (a =? b).
Proof. unfold Qeq_bool, inject_Z. cbn. now rewrite !Z.mul_1_r. Qed.

Lemma same_alert_refl adapt ca t db : same_alert adapt ca t db db.
Proof. reflexivity. Qed.

Lemma same_alert_trans adapt ca t a b c :
  same_alert adapt ca t a b -> same_alert adapt ca t b c ->
  same_alert adapt ca t a c.
Proof. unfold same_alert. congruence. Qed.

(** A row test is not changed by a new row that fails it. *)
Lemma sql_exists_new_row adapt db name tb r conds :
  assoc name db = Some tb ->
  (forall vals,
      bind_all adapt (map snd conds) = Ok vals ->
      forallb (fun cv => sql_eqb (field_value tb r (fst cv)) (snd cv))
              (combine (map fst conds) vals) = false) ->
  sql_exists adapt
    (set_table db name
       {| tbl_columns := tbl_columns tb; tbl_key := tbl_key tb;
          tbl_rows := tbl_rows tb ++ [r] |}) name conds
  = sql_exists adapt db name conds.
Proof.
  intros Htb Hr. unfold sql_exists, find_table.
  rewrite assoc_set_table, String.eqb_refl, Htb. cbn [of_option rbind].
  set (tb' := {| tbl_columns := tbl_columns tb; tbl_key := tbl_key tb;
                 tbl_rows := tbl_rows tb ++ [r] |}).
  change (has_column tb') with (has_column tb).
  destruct (negb (forallb (has_column tb) (map fst conds))); [reflexivity|].
  destruct (bind_all adapt (map snd conds)) as [vals|] eqn:Hvals;
    cbn [rbind]; [|reflexivity].
  f_equal. change (field_value tb') with (field_value tb).
  cbn [tb' tbl_rows]. rewrite existsb_app. cbn [existsb].
  rewrite (Hr vals eq_refl). now rewrite !orb_false_r.
Qed.

(** Recording another tier does not change whether a tier is in the
    ledger. *)
Lemma record_multiple_alert_sql_same_alert adapt now db ca' t x db' ca t1 :
  record_multiple_alert_sql adapt now db ca' (py_int t) x = Ok db' ->
  t <> t1 ->
  same_alert adapt ca t1 db db'.
Proof.
  unfold record_multiple_alert_sql. intros H Hne.
  apply sql_insert_table in H as (tb & vals & Htb & Hcols & Hvals & ->).
  unfold same_alert, check_multiple_alerted_sql.
  set (r := new_row now tb _).
  assert (Hm : field_value tb r "multiple" = VNum (PFin (inject_Z t))).
  { apply (field_value_new_row now tb _ "multiple").
    - cbn in Hcols. now repeat (apply andb_prop in Hcols as [? Hcols]).
    - cbn [bind_all] in Hvals.
      destruct (bind adapt ca'); cbn [rbind] in Hvals; [|discriminate].
      change (bind adapt (py_int t)) with (Ok (VNum (PFin (inject_Z t))))
        in Hvals.
      cbn [rbind] in Hvals.
      destruct (bind adapt x); cbn [rbind] in Hvals; [|discriminate].
      injection Hvals as <-. reflexivity. }
  apply sql_exists_new_row; [exact Htb|].
  intros conds Hconds. cbn [map fst snd bind_all] in Hconds.
  destruct (bind adapt ca); cbn [rbind] in Hconds; [|discriminate].
  change (bind adapt (py_int t1)) with (Ok (VNum (PFin (inject_Z t1))))
    in Hconds.
  cbn [rbind] in Hconds. injection Hconds as <-.
  cbn [map fst snd combine forallb]. rewrite Hm.
  cbn [sql_eqb pyfloat_eqb]. rewrite Qeq_bool_inject_Z.
  apply Z.eqb_neq in Hne. rewrite Hne. now rewrite andb_false_r.
Qed.


Lemma tier_step_same_alert w token dex_data current_mcap multiple t ca t1 :
  t <> t1 ->
  respects (on_db (same_alert (w_adapt w) ca t1))
           (tier_step w token dex_data current_mcap multiple t).
Proof.
  intros Hne.
  unfold tier_step, tier_body, check_multiple_alerted, schedule_tweet,
    record_multiple_alert.
  respects_with (on_db_refl _ (same_alert_refl (w_adapt w) ca t1))
                (on_db_trans _ (same_alert_trans (w_adapt w) ca t1))
    ltac:(first
            [ solve [intros ?; reflexivity]
            | apply with_connection_on_db;
              [ exact (same_alert_refl (w_adapt w) ca t1)
              | let H := fresh in
                intros ? ? ? ? H;
                apply rbind_ok in H; destruct H as (? & ? & H);
                injection H as <- <-;
                first [ reflexivity
                      | eapply record_multiple_alert_sql_same_alert; eauto ] ] ]).
Qed.

Lemma for_each_tier_step_same_alert w token dex_data current_mcap multiple
      tiers ca t1 :
  ~ In t1 tiers ->
  respects (on_db (same_alert (w_adapt w) ca t1))
           (for_each tiers (tier_step w token dex_data current_mcap multiple)).
Proof.
  intros Hnot.
  induction tiers as [|t tiers IH]; cbn [for_each].
  - apply (respects_ret _ (on_db_refl _ (same_alert_refl _ _ _))).
  - apply (respects_bind _ (on_db_trans _ (same_alert_trans _ _ _))).
    + apply tier_step_same_alert. intros ->. apply Hnot. now left.
    + intros _. apply IH. intros H. apply Hnot. now right.
Qed.

Lemma for_each_app_tier_step w token dex_data current_mcap multiple l1 l2 st :
  snd (for_each (l1 ++ l2)
         (tier_step w token dex_data current_mcap multiple) st)
  = snd (for_each l2 (tier_step w token dex_data current_mcap multiple)
           (snd (for_each l1
                   (tier_step w token dex_data current_mcap multiple) st))).
Proof.
  revert st. induction l1 as [|t l1 IH]; intros st; [reflexivity|].
  cbn [app for_each]. unfold bind_m.
  pose proof (tier_step_returns w token dex_data current_mcap multiple t st)
    as H.
  destruct (tier_step w token dex_data current_mcap multiple t st)
    as [r st1]. cbn in H. subst r. apply IH.
Qed.

Lemma fge_int_le a t1 t2 :
  t1 <= t2 -> fge_int a t2 = true -> fge_int a t1 = true.
Proof.
  destruct a as [q|s|]; cbn; auto.
  intros Hle H. apply Qle_bool_iff in H. apply Qle_bool_iff.
  eapply Qle_trans; [|exact H].
  unfold Qle, inject_Z. cbn. lia.
Qed.

Lemma MULTIPLES_before t1 :
  In t1 MULTIPLES ->
  exists l2, MULTIPLES = tiers_before t1 ++ t1 :: l2
             /\ ~ In t1 (tiers_before t1).
Proof.
  unfold MULTIPLES. cbn [In].
  intros [<-|[<-|[<-|[<-|[<-|[]]]]]].
  - exists [10; 20; 50; 100]. split; [reflexivity | cbn; tauto].
  - exists [20; 50; 100]. split; [reflexivity | cbn; lia].
  - exists [50; 100]. split; [reflexivity | cbn; lia].
  - exists [100]. split; [reflexivity | cbn; lia].
  - exists []. split; [reflexivity | cbn; lia].
Qed.

(** C3, as the code has it. If a tier [t2] is scheduled in the evaluation
    of a token, the growth multiple has reached every lower configured tier
    [t1] as well, and [t1] was examined in the same evaluation, in a step
    of its own whose lines are part of those of the evaluation: either the
    ledger already had [t1] before the evaluation, or the step of [t1]
    scheduled it too, or it put [t1] off: the step deferred it by the
    spacing test, or an exception raised in that very step dropped it. *)
Theorem lower_tier_alerted_or_put_off :
  forall (w : World) (token : dict) (dex_data current_mcap : pyval)
         (multiple : pyfloat) (st : state) (t1 t2 : Z) (ca2 : pyval) (ts2 : Q),
    In t1 MULTIPLES -> In t2 MULTIPLES -> t1 < t2 ->
    let st' := snd (for_each MULTIPLES
                      (tier_step w token dex_data current_mcap multiple) st) in
    let own := lines_of_tier w token dex_data current_mcap multiple st t1 in
    In (LScheduled ca2 t2 ts2) (new_lines st st') ->
    fge_int multiple t1 = true
    /\ (exists earlier later, new_lines st st' = earlier ++ own ++ later)
    /\ ((exists ca,
            dict_get token "ca" = Some ca
            /\ check_multiple_alerted_sql (w_adapt w) (st_db st) ca
                 (py_int t1) = Ok true)
        \/ (exists ca ts, In (LScheduled ca t1 ts) own)
        \/ (exists ca ts wait, In (LTooSoon ca t1 ts wait) own)
        \/ (exists e, In (LTierError e) own)).
Proof.
  intros w token dex cur multiple st t1 t2 ca2 ts2 H1 H2 Hlt st' own Hin.
  (* the scheduled line is a line of a tier the multiple has reached *)
  destruct (for_each_tier_step_emits w token dex cur multiple MULTIPLES
              MULTIPLES (fun _ H => H) st) as (new & Enew & Hnew).
  fold st' in Enew. rewrite (new_lines_app _ _ _ Enew) in *.
  rewrite Forall_forall in Hnew.
  destruct (Hnew _ Hin) as (_ & Hge2 & Hparse).
  assert (Hge1 : fge_int multiple t1 = true)
    by (apply (fge_int_le _ t1 t2); [lia | exact Hge2]).
  split; [exact Hge1|].
  (* the evaluation, cut at the step of t1 *)
  destruct (MULTIPLES_before t1 H1) as (l2 & Esplit & Hnot).
  set (step := tier_step w token dex cur multiple) in *.
  set (s1 := snd (for_each (tiers_before t1) step st)).
  set (s2 := snd (step t1 s1)).
  assert (Est' : st' = snd (for_each l2 step s2)).
  { unfold st'. rewrite Esplit.
    unfold step. rewrite for_each_app_tier_step. fold step. fold s1.
    cbn [for_each]. unfold bind_m.
    pose proof (tier_step_returns w token dex cur multiple t1 s1) as Hr.
    fold step in Hr. unfold s2.
    destruct (step t1 s1) as [r s2']. cbn in Hr. subst r. reflexivity. }
  destruct (for_each_tier_step_emits w token dex cur multiple
              (tiers_before t1) (tiers_before t1) (fun _ H => H) st)
    as (n1 & E1 & _).
  fold step in E1. fold s1 in E1.
  destruct (tier_step_outcome w token dex cur multiple t1 s1 Hge1)
    as (b & Eb & Hout).
  fold step in Eb. fold s2 in Eb.
  assert (Hown : own = b).
  { unfold own, lines_of_tier. fold step. fold s1. fold s2.
    now apply new_lines_app. }
  destruct (for_each_tier_step_emits w token dex cur multiple l2 l2
              (fun _ H => H) s2) as (n2 & E2 & _).
  fold step in E2. rewrite <- Est' in E2.
  assert (Hnew' : new = n1 ++ b ++ n2).
  { apply (app_inv_head (st_out st)).
    rewrite <- Enew, E2, Eb, E1, <- !app_assoc. reflexivity. }
  rewrite Hown.
  split; [exists n1, n2; exact Hnew'|].
  destruct Hout as [(ca & ts & Hl)|[(ca & ts & wait & Hl)|[(e & Hl)|[Hp|Hal]]]].
  - right; left. eauto.
  - right; right; left. eauto 6.
  - right; right; right. eauto.
  - contradiction.
  - left. destruct Hal as (ca & Hca & Hchk). exists ca. split; [exact Hca|].
    pose proof (for_each_tier_step_same_alert w token dex cur multiple
                  (tiers_before t1) ca t1 Hnot st) as Hsame.
    fold step in Hsame. fold s1 in Hsame.
    unfold on_db, same_alert in Hsame. now rewrite <- Hsame.
Qed.

(** A witness: with a hundred seconds between interactions, token A at 25
    times its baseline is scheduled at tiers 5, 10 and 20 in one
    evaluation; tier 5 is the lower tier of tier 10, and its own step
    prints the three lines of its alert. *)
Lemma lower_tier_alerted_or_put_off_witness :
  let w := sample_world
             (fun k => inject_Z (1714600000 + 100 * Z.of_nat k))
             (http_for (Some 2500%Q) None) no_adapter in
  let st := initial_state db_one_token in
  let st' := snd (for_each MULTIPLES
                    (tier_step w token_A (snapshot 2500) (PyNum (PFin 2500))
                       (PFin 25)) st) in
  let own := lines_of_tier w token_A (snapshot 2500) (PyNum (PFin 2500))
               (PFin 25) st 5 in
  In (LScheduled (PyStr "A") 10 1714600700) (new_lines st st')
  /\ own = [LTargetReached (PyStr "A") 5 1714600100;
            LQueued 1714600200 1714602000 "alert";
            LScheduled (PyStr "A") 5 1714600100]
  /\ fge_int (PFin 25) 5 = true
  /\ (exists earlier later, new_lines st st' = earlier ++ own ++ later)
  /\ ((exists ca,
          dict_get token_A "ca" = Some ca
          /\ check_multiple_alerted_sql (w_adapt w) (st_db st) ca (py_int 5)
             = Ok true)
      \/ (exists ca ts, In (LScheduled ca 5 ts) own)
      \/ (exists ca ts wait, In (LTooSoon ca 5 ts wait) own)
      \/ (exists e, In (LTierError e) own)).
Proof.
  intros w st st' own.
  assert (H : In (LScheduled (PyStr "A") 10 1714600700) (new_lines st st')).
  { vm_compute. tauto. }
  split; [exact H|].
  split; [vm_compute; reflexivity|].
  apply (lower_tier_alerted_or_put_off w token_A (snapshot 2500)
           (PyNum (PFin 2500)) (PFin 25) st 5 10 (PyStr "A") 1714600700).
  - cbn; tauto.
  - cbn; tauto.
  - lia.
  - exact H.
Defined.

(** C3 as stated fails.  Tokens A and B are in the active set, nothing is
    in the ledger.  A is scheduled at tier 5 at 1714600000.  B stands at 25
    times its baseline: its tier 5 is examined nine seconds after A's alert
    and deferred, its tier 10 one second later and scheduled.  Tier 10 of B
    is alerted and recorded while tier 5 of B was not alerted before and is
    not alerted in this evaluation.  On the database of [init_db] the same
    alerts are scheduled and deferred; the ledger writes fail there. *)
Lemma tier_skipped_counterexample :
  let clock := fun k : nat =>
    if (k <? 12)%nat then 1714600000%Q
    else if (k <? 14)%nat then 1714600009%Q else 1714600010%Q in
  let w := sample_world clock (http_for (Some 550%Q) (Some 5000%Q))
             no_adapter in
  let st := run w [MonitorCycle] (initial_state db_two_tokens) in
  let st0 := run w [MonitorCycle] (initial_state fresh_two_tokens) in
  monotone_clock w
  /\ rows_of db_two_tokens "multiple_alerts" = []
  /\ st_out st
     = [LRoundStart; LTokenCount 2; LCheckToken (PyStr "TOK");
        LCurrentMcap (PyNum (PFin 550)) (PFin (11 # 2));
        LTargetReached (PyStr "A") 5 1714600000;
        LQueued 1714600000 1714601800 "alert";
        LScheduled (PyStr "A") 5 1714600000;
        LCheckToken (PyStr "TOK2");
        LCurrentMcap (PyNum (PFin 5000)) (PFin 25);
        LTooSoon (PyStr "B") 5 1714600009 1;
        LTargetReached (PyStr "B") 10 1714600010;
        LQueued 1714600010 1714601810 "alert";
        LScheduled (PyStr "B") 10 1714600010;
        LTooSoon (PyStr "B") 20 1714600010 10;
        LWaitNext]
  /\ rows_of (st_db st) "multiple_alerts"
     = [[VText "A"; VNum (PFin 5); VTime 1714600000; VNum (PFin 550)];
        [VText "B"; VNum (PFin 10); VTime 1714600010; VNum (PFin 5000)]]
  /\ st_out st0
     = [LRoundStart; LTokenCount 2; LCheckToken (PyStr "TOK");
        LCurrentMcap (PyNum (PFin 550)) (PFin (11 # 2));
        LTargetReached (PyStr "A") 5 1714600000;
        LQueued 1714600000 1714601800 "alert";
        LRecordAlertFailed OperationalError;
        LScheduled (PyStr "A") 5 1714600000;
        LCheckToken (PyStr "TOK2");
        LCurrentMcap (PyNum (PFin 5000)) (PFin 25);
        LTooSoon (PyStr "B") 5 1714600009 1;
        LTargetReached (PyStr "B") 10 1714600010;
        LQueued 1714600010 1714601810 "alert";
        LRecordAlertFailed OperationalError;
        LScheduled (PyStr "B") 10 1714600010;
        LTooSoon (PyStr "B") 20 1714600010 10;
        LWaitNext]
  /\ st_jobs st0
     = [{| job_run_date := 1714601800; job_text := "alert" |};
        {| job_run_date := 1714601810; job_text := "alert" |}].
Proof.
  intros clock w st st0. split.
  - intros i j Hij. cbn. unfold clock.
    destruct (Nat.ltb_spec i 12), (Nat.ltb_spec j 12),
      (Nat.ltb_spec i 14), (Nat.ltb_spec j 14);
      try (unfold Qle; cbn; lia).
  - repeat split; vm_compute; reflexivity.
Qed.


Lemma for_each_cons_tier_step w token dex_data current_mcap multiple t l st :
  snd (for_each (t :: l)
         (tier_step w token dex_data current_mcap multiple) st)
  = snd (for_each l (tier_step w token dex_data current_mcap multiple)
           (snd (tier_step w token dex_data current_mcap multiple t st))).
Proof.
  cbn [for_each]. unfold bind_m.
  pose proof (tier_step_returns w token dex_data current_mcap multiple t st)
    as H.
  destruct (tier_step w token dex_data current_mcap multiple t st)
    as [r st1]. cbn in H. subst r. reflexivity.
Qed.

(** The lines of an evaluation come tier by tier, in the order of the
    configured list. *)
Lemma evaluation_blocks w token dex_data current_mcap multiple st :
  exists b5 b10 b20 b50 b100,
    st_out (snd (for_each MULTIPLES
                   (tier_step w token dex_data current_mcap multiple) st))
    = st_out st ++ b5 ++ b10 ++ b20 ++ b50 ++ b100
    /\ Forall (tier_line w dex_data multiple [5]) b5
    /\ Forall (tier_line w dex_data multiple [10]) b10
    /\ Forall (tier_line w dex_data multiple [20]) b20
    /\ Forall (tier_line w dex_data multiple [50]) b50
    /\ Forall (tier_line w dex_data multiple [100]) b100.
Proof.
  unfold MULTIPLES. rewrite !for_each_cons_tier_step. cbn [for_each ret snd].
  set (step := tier_step w token dex_data current_mcap multiple).
  destruct (tier_step_emits w token dex_data current_mcap multiple 5 st)
    as (b5 & E5 & F5). fold step in E5.
  destruct (tier_step_emits w token dex_data current_mcap multiple 10
              (snd (step 5 st))) as (b10 & E10 & F10). fold step in E10.
  destruct (tier_step_emits w token dex_data current_mcap multiple 20
              (snd (step 10 (snd (step 5 st))))) as (b20 & E20 & F20).
  fold step in E20.
  destruct (tier_step_emits w token dex_data current_mcap multiple 50
              (snd (step 20 (snd (step 10 (snd (step 5 st)))))))
    as (b50 & E50 & F50). fold step in E50.
  destruct (tier_step_emits w token dex_data current_mcap multiple 100
              (snd (step 50 (snd (step 20 (snd (step 10 (snd (step 5 st)))))))))
    as (b100 & E100 & F100). fold step in E100.
  exists b5, b10, b20, b50, b100.
  split; [|repeat split; assumption].
  rewrite E100, E50, E20, E10, E5, <- !app_assoc. reflexivity.
Qed.

(** C2, as the code has it. In the evaluation of a token the configured
    tiers are examined in ascending order, each in a step of its own.  A
    tier the multiple has not reached, or that the ledger already has, is
    left alone.  A tier that is due is scheduled and recorded only if, at
    its own detection time, at least [TWEET_INTERVAL] seconds have passed
    since the last scheduled alert (and the snapshot parses, the text can be
    made and the scheduler takes the job): the job is queued, the ledger
    write attempted and the last dispatch time set to the time after these.
    Otherwise the tier is deferred: nothing is queued or recorded, and it
    comes up again in a later pass. *)
Theorem tiers_scheduled_when_spaced :
  forall (w : World) (token : dict) (dex_data current_mcap : pyval)
         (multiple : pyfloat),
    (forall st,
        exists b5 b10 b20 b50 b100,
          st_out (snd (for_each MULTIPLES
                         (tier_step w token dex_data current_mcap multiple)
                         st))
          = st_out st ++ b5 ++ b10 ++ b20 ++ b50 ++ b100
          /\ Forall (tier_line w dex_data multiple [5]) b5
          /\ Forall (tier_line w dex_data multiple [10]) b10
          /\ Forall (tier_line w dex_data multiple [20]) b20
          /\ Forall (tier_line w dex_data multiple [50]) b50
          /\ Forall (tier_line w dex_data multiple [100]) b100)
    /\ (forall t st,
          fge_int multiple t = false ->
          tier_step w token dex_data current_mcap multiple t st = (Ok tt, st))
    /\ (forall t st ca,
          dict_get token "ca" = Some ca ->
          fge_int multiple t = true ->
          w_db_fault w (st_steps st) = None ->
          check_multiple_alerted_sql (w_adapt w) (st_db st) ca (py_int t)
          = Ok true ->
          tier_step w token dex_data current_mcap multiple t st
          = (Ok tt,
             {| st_db := st_db st; st_jobs := st_jobs st;
                st_posted := st_posted st; st_requests := st_requests st;
                st_out := st_out st; st_steps := 1 + st_steps st;
                st_last_tweet_time := st_last_tweet_time st |}))
    /\ (forall t st ca name parsed text,
          dict_get token "ca" = Some ca ->
          dict_get token "token" = Some name ->
          fge_int multiple t = true ->
          w_db_fault w (st_steps st) = None ->
          check_multiple_alerted_sql (w_adapt w) (st_db st) ca (py_int t)
          = Ok false ->
          Qle_bool (inject_Z TWEET_INTERVAL)
            (w_clock w (1 + st_steps st) - st_last_tweet_time st) = true ->
          parse_dexscreener_data (w_fromtimestamp w) dex_data = Some parsed ->
          w_format_tweet_text w token parsed multiple = Ok text ->
          w_add_job w (3 + st_steps st) = None ->
          tier_step w token dex_data current_mcap multiple t st
          = (Ok tt,
             let rec := record_outcome w (4 + st_steps st) (st_db st) ca t
                          current_mcap in
             {| st_db := match rec with Ok db' => db' | Raise _ => st_db st end;
                st_jobs := st_jobs st
                           ++ [{| job_run_date :=
                                    (w_clock w (2 + st_steps st)
                                     + inject_Z (30 * 60))%Q;
                                  job_text := text |}];
                st_posted := st_posted st;
                st_requests := st_requests st;
                st_out := ((((st_out st
                           ++ [LTargetReached ca t
                                 (w_clock w (1 + st_steps st))])
                           ++ [LQueued (w_clock w (2 + st_steps st))
                                 (w_clock w (2 + st_steps st)
                                  + inject_Z (30 * 60))%Q text])
                           ++ match rec with
                              | Ok _ => []
                              | Raise e => [LRecordAlertFailed e]
                              end)
                           ++ [LScheduled ca t (w_clock w (1 + st_steps st))]);
                st_steps := 6 + st_steps st;
                st_last_tweet_time := w_clock w (5 + st_steps st) |}))
    /\ (forall t st ca,
          dict_get token "ca" = Some ca ->
          fge_int multiple t = true ->
          w_db_fault w (st_steps st) = None ->
          check_multiple_alerted_sql (w_adapt w) (st_db st) ca (py_int t)
          = Ok false ->
          Qle_bool (inject_Z TWEET_INTERVAL)
            (w_clock w (1 + st_steps st) - st_last_tweet_time st) = false ->
          tier_step w token dex_data current_mcap multiple t st
          = (Ok tt,
             {| st_db := st_db st; st_jobs := st_jobs st;
                st_posted := st_posted st; st_requests := st_requests st;
                st_out := st_out st
                          ++ [LTooSoon ca t (w_clock w (1 + st_steps st))
                                (Qfloor (inject_Z TWEET_INTERVAL
                                         - (w_clock w (1 + st_steps st)
                                            - st_last_tweet_time st)))];
                st_steps := 2 + st_steps st;
                st_last_tweet_time := st_last_tweet_time st |})).
Proof.
  intros w token dex cur multiple.
  split; [intros st; apply evaluation_blocks|].
  split; [intros; now apply tier_step_not_reached|].
  split; [intros; eapply tier_step_already_alerted; eassumption|].
  split; [intros; eapply tier_step_schedules; eassumption | intros].
  eapply tier_step_defers; eassumption.
Qed.

(** A witness: baseline 100, market cap 2500, nothing in the ledger, all
    clock readings of the pass within one second.  Tier 5 is due and
    scheduled from the state of a process that has just started; tier 10
    is due in the state this leaves, and deferred. *)
Lemma tiers_scheduled_when_spaced_witness :
  let w := sample_world (fun _ => 1714600000%Q) (http_for (Some 2500%Q) None)
             no_adapter in
  let step := tier_step w token_A (snapshot 2500) (PyNum (PFin 2500))
                (PFin 25) in
  let st := initial_state db_one_token in
  let st5 := snd (step 5 st) in
  (st_jobs st5 = [{| job_run_date := 1714601800; job_text := "alert" |}]
   /\ rows_of (st_db st5) "multiple_alerts"
      = [[VText "A"; VNum (PFin 5); VTime 1714600000; VNum (PFin 2500)]]
   /\ st_last_tweet_time st5 = 1714600000%Q)
  /\ step 10 st5
     = (Ok tt,
        {| st_db := st_db st5; st_jobs := st_jobs st5;
           st_posted := []; st_requests := [];
           st_out := st_out st5
                     ++ [LTooSoon (PyStr "A") 10 1714600000 10];
           st_steps := 8; st_last_tweet_time := 1714600000 |}).
Proof.
  intros w step st st5.
  destruct (tiers_scheduled_when_spaced w token_A (snapshot 2500)
              (PyNum (PFin 2500)) (PFin 25)) as (_ & _ & _ & Hs & Hd).
  assert (E5 : step 5 st = _)
    by exact (Hs 5 st (PyStr "A") (PyStr "TOK")
                {| price_usd := PFin (1 # 100);
                   created_time := "2024-04-30 08:00:00"; socials := [] |}
                "alert"%string
                eq_refl eq_refl eq_refl eq_refl eq_refl eq_refl eq_refl eq_refl
                eq_refl).
  split.
  - unfold st5. rewrite E5. repeat split; vm_compute; reflexivity.
  - unfold step at 1.
    rewrite (Hd 10 st5 (PyStr "A") eq_refl eq_refl eq_refl).
    + vm_compute. reflexivity.
    + vm_compute. reflexivity.
    + vm_compute. reflexivity.
Defined.

(** C2 as stated fails.  Baseline 100, market cap 2500, nothing in the
    ledger, and the clock reads the same second during the pass: tier 5 is
    scheduled and recorded, and tiers 10 and 20, although reached and not
    alerted, are found too soon after it and left for the next pass.  On the
    database of [init_db] the decisions are the same; the ledger write of
    tier 5 fails there. *)
Lemma tiers_deferred_counterexample :
  let w := sample_world (fun _ => 1714600000%Q) (http_for (Some 2500%Q) None)
             no_adapter in
  let st := snd (monitor_cycle w (initial_state db_one_token)) in
  let st0 := snd (monitor_cycle w (initial_state fresh_one_token)) in
  rows_of db_one_token "multiple_alerts" = []
  /\ st_out st
     = [LRoundStart; LTokenCount 1; LCheckToken (PyStr "TOK");
        LCurrentMcap (PyNum (PFin 2500)) (PFin 25);
        LTargetReached (PyStr "A") 5 1714600000;
        LQueued 1714600000 1714601800 "alert";
        LScheduled (PyStr "A") 5 1714600000;
        LTooSoon (PyStr "A") 10 1714600000 10;
        LTooSoon (PyStr "A") 20 1714600000 10;
        LWaitNext]
  /\ st_jobs st = [{| job_run_date := 1714601800; job_text := "alert" |}]
  /\ rows_of (st_db st) "multiple_alerts"
     = [[VText "A"; VNum (PFin 5); VTime 1714600000; VNum (PFin 2500)]]
  /\ st_out st0
     = [LRoundStart; LTokenCount 1; LCheckToken (PyStr "TOK");
        LCurrentMcap (PyNum (PFin 2500)) (PFin 25);
        LTargetReached (PyStr "A") 5 1714600000;
        LQueued 1714600000 1714601800 "alert";
        LRecordAlertFailed OperationalError;
        LScheduled (PyStr "A") 5 1714600000;
        LTooSoon (PyStr "A") 10 1714600000 10;
        LTooSoon (PyStr "A") 20 1714600000 10;
        LWaitNext]
  /\ st_jobs st0 = [{| job_run_date := 1714601800; job_text := "alert" |}].
Proof. cbv zeta. repeat split; vm_compute; reflexivity. Qed.

(** ** What a run does to the database

    A relation between databases that every statement of [TokenDB] keeps
    is kept by every action of the process, hence by every run. *)

Section DatabaseInvariant.

Variable w : World.
Variable R : database -> database -> Prop.
Hypothesis R_refl : forall db, R db db.
Hypothesis R_trans : forall a b c, R a b -> R b c -> R a c.
Hypothesis R_init : forall db, R db (init_db_sql db).
Hypothesis R_add_token :
  forall now db token ca mcap received l b db',
    add_token_sql (w_adapt w) now db token ca mcap received (PyList l)
    = Ok (b, db') ->
    R db db'.
Hypothesis R_record :
  forall now db ca m x db',
    record_multiple_alert_sql (w_adapt w) now db ca m x = Ok db' -> R db db'.
Hypothesis R_price :
  forall now db ca pair db',
    add_price_record_sql (w_adapt w) now db ca pair = Ok db' -> R db db'.
Hypothesis R_purchase :
  forall now db params db',
    add_purchase_record_sql (w_adapt w) now db params = Ok db' -> R db db'.

Ltac db_prim :=
  idtac;
  match goal with
  | |- respects _ (print _) => intros ?; apply R_refl
  | |- respects _ interact => intros ?; apply R_refl
  | |- respects _ (add_request _) => intros ?; apply R_refl
  | |- respects _ (add_posted _) => intros ?; apply R_refl
  | |- respects _ (put_jobs _) => intros ?; apply R_refl
  | |- respects _ (put_last_tweet_time _) => intros ?; apply R_refl
  | |- respects _ (with_connection _ _) =>
      apply with_connection_on_db;
      [ exact R_refl
      | let H := fresh in
        intros ? ? ? ? H;
        first
          [ solve [eapply R_add_token; exact H]
          | repeat (apply rbind_ok in H; destruct H as (? & ? & H));
            injection H as <- <-;
            first [ apply R_refl | apply R_init
                  | eauto using R_record, R_price, R_purchase ] ] ]
  end.

Ltac db_tac :=
  respects_with (on_db_refl _ R_refl) (on_db_trans _ R_trans) db_prim.

Lemma fetch_dexscreener_data_on_db a :
  respects (on_db R) (fetch_dexscreener_data w a).
Proof. unfold fetch_dexscreener_data. db_tac. Qed.

Lemma check_tokens_on_db ca : respects (on_db R) (check_tokens w ca).
Proof. unfold check_tokens, add_purchase_record. db_tac. Qed.

Lemma tier_step_on_db token dex_data current_mcap multiple t :
  respects (on_db R) (tier_step w token dex_data current_mcap multiple t).
Proof.
  unfold tier_step, tier_body, check_multiple_alerted, schedule_tweet,
    record_multiple_alert.
  db_tac.
Qed.

Lemma monitor_cycle_on_db : respects (on_db R) (monitor_cycle w).
Proof.
  unfold monitor_cycle, get_all_tokens, token_step, token_body,
    add_price_record.
  db_tac; solve [apply fetch_dexscreener_data_on_db | apply tier_step_on_db].
Qed.

Lemma receive_token_on_db data : respects (on_db R) (receive_token w data).
Proof.
  unfold receive_token, add_token. cbv zeta.
  db_tac; solve [apply fetch_dexscreener_data_on_db | apply check_tokens_on_db].
Qed.

Lemma perform_on_db a : respects (on_db R) (perform w a).
Proof.
  destruct a; cbn [perform].
  - unfold init_db. db_tac.
  - db_tac; apply receive_token_on_db.
  - apply monitor_cycle_on_db.
  - unfold run_job, send_tweet. db_tac.
Qed.

Lemma run_on_db actions st : R (st_db st) (st_db (run w actions st)).
Proof.
  revert st. induction actions as [|a actions IH]; intros st; cbn [run fold_left].
  - apply R_refl.
  - eapply R_trans; [apply (perform_on_db a st)|]. apply IH.
Qed.

End DatabaseInvariant.

(** *** Tables are created once and only appended to *)

Lemma assoc_create_present db name cols key n t :
  assoc n db = Some t ->
  assoc n (create_table_if_not_exists db name cols key) = Some t.
Proof.
  intros H. unfold create_table_if_not_exists.
  destruct (assoc name db); [exact H|].
  rewrite assoc_app, H. reflexivity.
Qed.

Lemma assoc_create_other db name cols key n :
  String.eqb name n = false ->
  assoc n (create_table_if_not_exists db name cols key) = assoc n db.
Proof.
  intros H. unfold create_table_if_not_exists.
  destruct (assoc name db); [reflexivity|].
  rewrite assoc_app. destruct (assoc n db); [reflexivity|].
  cbn. now rewrite H.
Qed.

Lemma assoc_init_db_present db n t :
  assoc n db = Some t -> assoc n (init_db_sql db) = Some t.
Proof.
  intros H. unfold init_db_sql. now repeat apply assoc_create_present.
Qed.

Lemma grows_refl db : grows db db.
Proof.
  intros name t H. exists t, []. rewrite app_nil_r. now repeat split.
Qed.

Lemma grows_trans a b c : grows a b -> grows b c -> grows a c.
Proof.
  intros Hab Hbc name t H.
  destruct (Hab name t H) as (t1 & new1 & H1 & Hc1 & Hk1 & Hr1).
  destruct (Hbc name t1 H1) as (t2 & new2 & H2 & Hc2 & Hk2 & Hr2).
  exists t2, (new1 ++ new2).
  rewrite app_assoc, <- Hr1, <- Hc1, <- Hk1. now repeat split.
Qed.

Lemma grows_init db : grows db (init_db_sql db).
Proof.
  intros name t H. exists t, []. rewrite app_nil_r.
  split; [now apply assoc_init_db_present | now repeat split].
Qed.

Lemma grows_insert adapt now db name cols params db' :
  sql_insert adapt now db name cols params = Ok db' -> grows db db'.
Proof.
  intros H. apply sql_insert_table in H as (t & vals & Ht & _ & _ & ->).
  intros n t0 H0. rewrite assoc_set_table.
  destruct (String.eqb name n) eqn:E.
  - apply String.eqb_eq in E. subst n. rewrite Ht in H0. injection H0 as <-.
    eexists _, _. split; [reflexivity|]. now repeat split.
  - exists t0, []. rewrite app_nil_r. now repeat split.
Qed.

Lemma add_token_sql_cases adapt now db token ca mcap received source b db' :
  add_token_sql adapt now db token ca mcap received source = Ok (b, db') ->
  (b = false /\ db' = db
   /\ sql_exists adapt db "monitored_tokens" [("ca"%string, ca)] = Ok true)
  \/ (b = true
      /\ sql_exists adapt db "monitored_tokens" [("ca"%string, ca)] = Ok false
      /\ sql_insert adapt now db "monitored_tokens"
           ["ca"; "token"; "initial_mcap"; "received_time"; "sourceType"]%string
           [ca; token; mcap; received; source] = Ok db').
Proof.
  unfold add_token_sql. intros H.
  apply rbind_ok in H as (present & Hp & H).
  destruct present.
  - injection H as <- <-. now left.
  - apply rbind_ok in H as (db1 & Hi & H). injection H as <- <-. now right.
Qed.

Lemma grows_add_token adapt now db token ca mcap received source b db' :
  add_token_sql adapt now db token ca mcap received source = Ok (b, db') ->
  grows db db'.
Proof.
  intros H. apply add_token_sql_cases in H as [(_ & -> & _)|(_ & _ & H)].
  - apply grows_refl.
  - eapply grows_insert, H.
Qed.

Lemma grows_price adapt now db ca pair db' :
  add_price_record_sql adapt now db ca pair = Ok db' -> grows db db'.
Proof.
  unfold add_price_record_sql. intros H.
  apply rbind_ok in H as (params & _ & H). eapply grows_insert, H.
Qed.

(** X1. Whatever the process does, in any order, it never drops a table,
    never changes the columns or the key of one, and never deletes or
    rewrites a row: a table that exists keeps its rows, in their order,
    and new rows come after them. *)
Theorem storage_append_only :
  forall (w : World) (actions : list action) (st : state)
         (name : string) (t : table),
    assoc name (st_db st) = Some t ->
    exists t' new,
      assoc name (st_db (run w actions st)) = Some t'
      /\ tbl_columns t' = tbl_columns t
      /\ tbl_key t' = tbl_key t
      /\ tbl_rows t' = tbl_rows t ++ new.
Proof.
  intros w actions st.
  apply (run_on_db w grows grows_refl grows_trans grows_init).
  - intros. eapply grows_add_token; eassumption.
  - intros. eapply grows_insert; eassumption.
  - intros. eapply grows_price; eassumption.
  - intros. eapply grows_insert; eassumption.
Qed.

(** A witness: a start-up, a submission and a polling pass on a database
    that has token A; its row is still there, followed by the new one, and
    the pass adds a price sample for each. *)
Lemma storage_append_only_witness :
  let w := sample_world (fun _ => 1714600000%Q)
             (fun _ => HttpResponse 200 (Ok (snapshot 550))) list_adapter in
  let data := {| token := "NEW"; ca := "C"; marketCap := "2K";
                 date := "2024-05-01 12:00:00";
                 sourceType := ["channel"%string] |} in
  let st' := run w [InitDb; ReceiveToken data; MonitorCycle]
               (initial_state db_one_token) in
  (exists t t' new,
      assoc "monitored_tokens" db_one_token = Some t
      /\ assoc "monitored_tokens" (st_db st') = Some t'
      /\ tbl_columns t' = tbl_columns t
      /\ tbl_key t' = tbl_key t
      /\ tbl_rows t' = tbl_rows t ++ new)
  /\ List.length (rows_of db_one_token "monitored_tokens") = 1%nat
  /\ List.length (rows_of (st_db st') "monitored_tokens") = 2%nat
  /\ List.length (rows_of (st_db st') "price_history") = 2%nat.
Proof.
  intros w data st'. split.
  - destruct (storage_append_only w
                [InitDb; ReceiveToken data; MonitorCycle]
                (initial_state db_one_token) "monitored_tokens" _ eq_refl)
      as (t' & new & H).
    eexists _, t', new. split; [reflexivity | exact H].
  - repeat split; vm_compute; reflexivity.
Defined.

(** *** A ledger without the market-cap column *)

Lemma ledger_frozen_refl db : ledger_frozen db db.
Proof. intros t H _. exact H. Qed.

Lemma ledger_frozen_trans a b c :
  ledger_frozen a b -> ledger_frozen b c -> ledger_frozen a c.
Proof. intros Hab Hbc t H Hc. apply Hbc; [now apply Hab | exact Hc]. Qed.

Lemma ledger_frozen_same db db' :
  assoc "multiple_alerts" db' = assoc "multiple_alerts" db ->
  ledger_frozen db db'.
Proof. intros E t H _. now rewrite E. Qed.

Lemma ledger_frozen_record adapt now db ca m x db' :
  record_multiple_alert_sql adapt now db ca m x = Ok db' ->
  ledger_frozen db db'.
Proof.
  unfold record_multiple_alert_sql. intros H t Ht Hc.
  apply sql_insert_table in H as (t' & vals & Ht' & Hcols & _ & _).
  rewrite Ht in Ht'. injection Ht' as <-.
  cbn in Hcols. rewrite Hc in Hcols.
  now rewrite !andb_false_r in Hcols.
Qed.

Lemma run_ledger_frozen w actions st :
  ledger_frozen (st_db st) (st_db (run w actions st)).
Proof.
  apply (run_on_db w ledger_frozen ledger_frozen_refl ledger_frozen_trans).
  - intros db t H _. now apply assoc_init_db_present.
  - intros now db token ca mcap received l b db' H.
    apply add_token_sql_cases in H as [(_ & -> & _)|(_ & _ & H)];
      [apply ledger_frozen_refl|].
    apply ledger_frozen_same. eapply sql_insert_other; [exact H|reflexivity].
  - intros. eapply ledger_frozen_record; eassumption.
  - intros now db ca pair db' H. unfold add_price_record_sql in H.
    apply rbind_ok in H as (params & _ & H).
    apply ledger_frozen_same. eapply sql_insert_other; [exact H|reflexivity].
  - intros now db params db' H.
    apply ledger_frozen_same. eapply sql_insert_other; [exact H|reflexivity].
Qed.

(** X2. On a database whose ledger has no market-cap column, as [init_db]
    creates it, no run of the process ever writes the ledger: the table is
    what it was, so [check_multiple_alerted] answers after the run what it
    answered before it, for every address and tier.  A tier that was
    announced is therefore announced again by a later pass. *)
Theorem ledger_without_column_never_written :
  forall (w : World) (actions : list action) (st : state) (t : table),
    assoc "multiple_alerts" (st_db st) = Some t ->
    has_column t "max_market_cap" = false ->
    let st' := run w actions st in
    assoc "multiple_alerts" (st_db st') = Some t
    /\ forall ca multiple,
         check_multiple_alerted_sql (w_adapt w) (st_db st') ca multiple
         = check_multiple_alerted_sql (w_adapt w) (st_db st) ca multiple.
Proof.
  intros w actions st t Ht Hc st'. subst st'.
  pose proof (run_ledger_frozen w actions st t Ht Hc) as H.
  split; [exact H|].
  intros ca multiple.
  unfold check_multiple_alerted_sql, sql_exists, find_table.
  now rewrite H, Ht.
Qed.

(** A witness: on the database of [init_db] with token A at 5.5 times its
    baseline, two polling passes queue the alert of tier 5 twice. *)
Lemma ledger_without_column_never_written_witness :
  let w := sample_world (fun k => inject_Z (1714600000 + 100 * Z.of_nat k))
             (http_for (Some 550%Q) None) no_adapter in
  let st' := run w [MonitorCycle; MonitorCycle]
               (initial_state fresh_one_token) in
  rows_of (st_db st') "multiple_alerts" = []
  /\ check_multiple_alerted_sql (w_adapt w) (st_db st') (PyStr "A") (py_int 5)
     = Ok false
  /\ filter (fun l => match l with LScheduled _ _ _ => true | _ => false end)
            (st_out st')
     = [LScheduled (PyStr "A") 5 1714600400;
        LScheduled (PyStr "A") 5 1714601400]
  /\ List.length (st_jobs st') = 2%nat.
Proof.
  intros w st'.
  destruct (assoc "multiple_alerts" fresh_one_token) as [t|] eqn:Ht;
    [|discriminate Ht].
  assert (Hc : has_column t "max_market_cap" = false).
  { revert Ht. vm_compute. intros [= <-]. reflexivity. }
  destruct (ledger_without_column_never_written w [MonitorCycle; MonitorCycle]
              (initial_state fresh_one_token) t Ht Hc) as [H1 H2].
  subst st'. split.
  { unfold rows_of. rewrite H1.
    revert Ht. vm_compute. intros [= <-]. reflexivity. }
  split; [rewrite H2; reflexivity|].
  split; vm_compute; reflexivity.
Defined.

(** *** The monitored set under sqlite3 as shipped *)

Lemma same_rows_refl name db : same_rows name db db.
Proof. reflexivity. Qed.

Lemma same_rows_trans name a b c :
  same_rows name a b -> same_rows name b c -> same_rows name a c.
Proof. unfold same_rows. congruence. Qed.

Lemma same_rows_assoc name db db' :
  assoc name db' = assoc name db -> same_rows name db db'.
Proof. unfold same_rows, rows_of. now intros ->. Qed.

Lemma same_rows_create n db name cols key :
  same_rows n db (create_table_if_not_exists db name cols key).
Proof.
  unfold same_rows, rows_of, create_table_if_not_exists.
  destruct (assoc name db) eqn:E; [reflexivity|].
  rewrite assoc_app. destruct (assoc n db) eqn:E'; [reflexivity|].
  cbn. destruct (String.eqb name n); reflexivity.
Qed.

Lemma same_rows_init n db : same_rows n db (init_db_sql db).
Proof.
  unfold init_db_sql.
  repeat (eapply same_rows_trans; [|apply same_rows_create]).
  apply same_rows_refl.
Qed.

Lemma bind_all_list_refused adapt a b c d l vals :
  (forall l, exists e, adapt (PyList l) = Raise e) ->
  bind_all adapt [a; b; c; d; PyList l] = Ok vals -> False.
Proof.
  intros Hl H. cbn [bind_all] in H.
  destruct (Hl l) as (e & He).
  change (bind adapt (PyList l)) with (adapt (PyList l)) in H.
  rewrite He in H.
  destruct (bind adapt a), (bind adapt b), (bind adapt c), (bind adapt d);
    discriminate H.
Qed.

Lemma run_same_tokens_rows w actions st :
  (forall l, exists e, w_adapt w (PyList l) = Raise e) ->
  same_rows "monitored_tokens" (st_db st) (st_db (run w actions st)).
Proof.
  intros Hl.
  apply (run_on_db w (same_rows "monitored_tokens")
           (same_rows_refl _) (same_rows_trans _) (same_rows_init _)).
  - intros now db token ca mcap received l b db' H.
    apply add_token_sql_cases in H as [(_ & -> & _)|(_ & _ & H)];
      [apply same_rows_refl|].
    apply sql_insert_table in H as (t & vals & _ & _ & Hv & _).
    now apply bind_all_list_refused in Hv.
  - intros now db ca m x db' H.
    apply same_rows_assoc. eapply sql_insert_other; [exact H|reflexivity].
  - intros now db ca pair db' H. unfold add_price_record_sql in H.
    apply rbind_ok in H as (params & _ & H).
    apply same_rows_assoc. eapply sql_insert_other; [exact H|reflexivity].
  - intros now db params db' H.
    apply same_rows_assoc. eapply sql_insert_other; [exact H|reflexivity].
Qed.

(** X3. [receive_token] hands the [sourceType] list to the INSERT of
    [add_token].  When sqlite3 has no adapter for a list, as shipped, the
    parameter is refused, so no run of the process adds a row to the
    monitored tokens: the table has after the run the rows it had before,
    and from a new database the active-token loader never returns a
    token. *)
Theorem monitored_set_frozen_without_list_adapter :
  forall w : World,
    (forall l, exists e, w_adapt w (PyList l) = Raise e) ->
    (forall actions st,
        rows_of (st_db (run w actions st)) "monitored_tokens"
        = rows_of (st_db st) "monitored_tokens")
    /\ (forall actions now tokens,
          get_all_tokens_sql (w_sql_datetime w) now
            (st_db (run w actions (initial_state []))) = Ok tokens ->
          tokens = []).
Proof.
  intros w Hl. split.
  - intros actions st. apply (run_same_tokens_rows w actions st Hl).
  - intros actions now tokens H.
    pose proof (run_same_tokens_rows w actions (initial_state []) Hl) as Hr.
    unfold same_rows, rows_of in Hr. cbn [initial_state st_db assoc] in Hr.
    unfold get_all_tokens_sql, find_table in H.
    destruct (assoc "monitored_tokens" (st_db (run w actions _))) as [t|];
      [|discriminate H].
    cbn [of_option rbind] in H. rewrite Hr in H.
    destruct (negb _); [discriminate H|].
    now injection H as <-.
Qed.

(** A witness: after the start-up, a submission with a market cap of 1.5K
    is answered with a success and stores nothing. *)
Lemma monitored_set_frozen_without_list_adapter_witness :
  let w := sample_world (fun _ => 1714600000%Q)
             (fun _ => HttpResponse 200 (Ok (snapshot 100))) no_adapter in
  let st := run w [InitDb] (initial_state []) in
  let r := receive_token w (sample_data "1.5K") st in
  (exists dex_data quote,
      fst r = Ok (ReplySuccess "TOK" (PFin 1500) dex_data quote))
  /\ st_out (snd r) = [LReceived "TOK"; LAddTokenFailed InterfaceError;
                       LQuoteFailed]
  /\ rows_of (st_db (run w [InitDb; ReceiveToken (sample_data "1.5K")]
                       (initial_state []))) "monitored_tokens" = []
  /\ get_all_tokens_sql (w_sql_datetime w) 1714600000
       (st_db (run w [InitDb; ReceiveToken (sample_data "1.5K")]
                 (initial_state []))) = Ok [].
Proof.
  intros w st r.
  assert (Hl : forall l, exists e, w_adapt w (PyList l) = Raise e)
    by (intros l; eexists; reflexivity).
  destruct (monitored_set_frozen_without_list_adapter w Hl) as [H1 H2].
  split; [eexists _, _; vm_compute; reflexivity|].
  split; [vm_compute; reflexivity|].
  split; [rewrite H1; reflexivity|].
  vm_compute. reflexivity.
Defined.

(** *** The table [price_alerts] *)

Lemma assoc_init_db_other db n :
  In n ["monitored_tokens"; "multiple_alerts"; "price_history";
        "purchase_records"]%string \/ assoc n (init_db_sql db) = assoc n db.
Proof.
  unfold init_db_sql.
  destruct (String.eqb "monitored_tokens" n) eqn:E1;
    [apply String.eqb_eq in E1; subst; left; cbn; tauto|].
  destruct (String.eqb "multiple_alerts" n) eqn:E2;
    [apply String.eqb_eq in E2; subst; left; cbn; tauto|].
  destruct (String.eqb "price_history" n) eqn:E3;
    [apply String.eqb_eq in E3; subst; left; cbn; tauto|].
  destruct (String.eqb "purchase_records" n) eqn:E4;
    [apply String.eqb_eq in E4; subst; left; cbn; tauto|].
  right. now rewrite !assoc_create_other.
Qed.

Lemma run_no_price_alerts w actions st :
  assoc "price_alerts" (st_db st) = None ->
  assoc "price_alerts" (st_db (run w actions st)) = None.
Proof.
  apply (run_on_db w (fun db db' =>
           assoc "price_alerts" db = None -> assoc "price_alerts" db' = None)).
  - auto.
  - auto.
  - intros db H. destruct (assoc_init_db_other db "price_alerts") as [Hin|E].
    + cbn in Hin. repeat destruct Hin as [Hin|Hin]; discriminate || contradiction.
    + now rewrite E.
  - intros now db token ca mcap received l b db' H.
    apply add_token_sql_cases in H as [(_ & -> & _)|(_ & _ & H)]; [auto|].
    intros E. erewrite sql_insert_other; [exact E|exact H|reflexivity].
  - intros now db ca m x db' H E.
    erewrite sql_insert_other; [exact E|exact H|reflexivity].
  - intros now db ca pair db' H E. unfold add_price_record_sql in H.
    apply rbind_ok in H as (params & _ & H).
    erewrite sql_insert_other; [exact E|exact H|reflexivity].
  - intros now db params db' H E.
    erewrite sql_insert_other; [exact E|exact H|reflexivity].
Qed.

Lemma record_alert_no_table w ca multiple st :
  assoc "price_alerts" (st_db st) = None ->
  exists e,
    fst (record_alert w ca multiple st) = Ok (false, Some e)
    /\ st_db (snd (record_alert w ca multiple st)) = st_db st
    /\ (w_db_fault w (st_steps st) = None -> e = OperationalError).
Proof.
  intros H. unfold record_alert, sql_insert, find_table. munfold. cbn.
  destruct (w_db_fault w (st_steps st)) as [e|]; cbn.
  - exists e. repeat split. discriminate.
  - rewrite H. cbn. exists OperationalError. repeat split.
Qed.

Lemma view_monitored_tokens_no_table grouped_join w st :
  assoc "price_alerts" (st_db st) = None ->
  exists e,
    fst (view_monitored_tokens grouped_join w st) = Raise e
    /\ (w_db_fault w (st_steps st) = None -> e = OperationalError).
Proof.
  intros H.
  unfold view_monitored_tokens, get_token_stats, with_connection,
    get_token_stats_sql, find_table.
  munfold. cbn.
  destruct (w_db_fault w (st_steps st)) as [e|]; cbn.
  - exists e. split; [reflexivity | discriminate].
  - rewrite H. destruct (assoc "monitored_tokens" (st_db st)); cbn;
      exists OperationalError; split; reflexivity.
Qed.

(** X4. No statement of the program creates the table [price_alerts]:
    when a database has none, as a new one after [init_db], it has none
    after any run.  [record_alert] then always reports a failure and
    changes nothing, and [get_token_stats] raises, so the endpoint
    [view_monitored_tokens] never answers; the exception is sqlite3's
    OperationalError when the storage layer is in order. *)
Theorem price_alerts_never_created :
  forall (w : World) (grouped_join : table -> table -> list dict)
         (actions : list action) (st : state),
    assoc "price_alerts" (st_db st) = None ->
    let st' := run w actions st in
    assoc "price_alerts" (st_db st') = None
    /\ (forall ca multiple,
          exists e,
            fst (record_alert w ca multiple st') = Ok (false, Some e)
            /\ st_db (snd (record_alert w ca multiple st')) = st_db st'
            /\ (w_db_fault w (st_steps st') = None -> e = OperationalError))
    /\ (exists e,
          fst (view_monitored_tokens grouped_join w st') = Raise e
          /\ (w_db_fault w (st_steps st') = None -> e = OperationalError)).
Proof.
  intros w gj actions st H st'.
  pose proof (run_no_price_alerts w actions st H) as H'. fold st' in H'.
  split; [exact H'|]. split.
  - intros. now apply record_alert_no_table.
  - now apply view_monitored_tokens_no_table.
Qed.

(** A witness: a new database after the start-up, a submission and a
    polling pass. *)
Lemma price_alerts_never_created_witness :
  let w := sample_world (fun _ => 1714600000%Q)
             (fun _ => HttpResponse 200 (Ok (snapshot 550))) list_adapter in
  let st' := run w [InitDb; ReceiveToken (sample_data "100"); MonitorCycle]
               (initial_state []) in
  List.length (rows_of (st_db st') "monitored_tokens") = 1%nat
  /\ fst (record_alert w (PyStr "A") (py_int 5) st')
     = Ok (false, Some OperationalError)
  /\ fst (view_monitored_tokens (fun _ _ => []) w st')
     = Raise OperationalError.
Proof.
  intros w st'.
  destruct (price_alerts_never_created w (fun _ _ => [])
              [InitDb; ReceiveToken (sample_data "100"); MonitorCycle]
              (initial_state []) eq_refl) as (_ & Hr & Hv).
  fold st' in Hr, Hv.
  split; [vm_compute; reflexivity|]. split.
  - destruct (Hr (PyStr "A") (py_int 5)) as (e & -> & _ & He).
    now rewrite (He eq_refl).
  - destruct Hv as (e & -> & He). now rewrite (He eq_refl).
Defined.

(** X5. [record_alert] commits its two statements together or not at
    all.  It never raises; when it answers False, whether the storage
    layer failed, the INSERT was refused or the UPDATE was, the database
    is exactly what it was, so no alert is left without the time of the
    token; when it answers True the database is the one the INSERT
    followed by the UPDATE leaves. *)
Theorem record_alert_commits_together :
  forall (w : World) (ca multiple : pyval) (st : state),
    let r := record_alert w ca multiple st in
    (exists e, fst r = Ok (false, Some e) /\ st_db (snd r) = st_db st)
    \/ (fst r = Ok (true, None)
        /\ exists db1,
             sql_insert (w_adapt w) (Qfloor (w_clock w (st_steps st)))
               (st_db st) "price_alerts" ["ca"; "multiple"]%string
               [ca; multiple] = Ok db1
             /\ sql_update (w_adapt w) db1 "monitored_tokens"
                  [("last_alert_time"%string,
                    py_int (py_trunc (w_clock w (S (st_steps st)))))]
                  [("ca"%string, ca)]
                = Ok (st_db (snd r))).
Proof.
  intros w ca multiple st. unfold record_alert. munfold.
  cbn -[sql_insert sql_update Qfloor py_trunc].
  destruct (w_db_fault w (st_steps st)) as [e|];
    cbn -[sql_insert sql_update Qfloor py_trunc]; [left; eauto|].
  destruct (sql_insert _ _ _ _ _ _) as [db1|e];
    cbn -[sql_insert sql_update Qfloor py_trunc]; [|left; eauto].
  destruct (sql_update _ _ _ _ _) as [db2|e] eqn:E;
    cbn -[sql_insert sql_update Qfloor py_trunc]; [|left; eauto].
  right. split; [reflexivity|]. exists db1. split; [reflexivity | exact E].
Qed.

(** With a table [price_alerts] made by hand beside the tables of
    [init_db], the alert of token A is stored and the time of the token
    set; where the table of the tokens is missing the UPDATE is refused
    and the alert is not stored either. *)
Example record_alert_with_table :
  let alerts :=
    {| tbl_columns := [col "ca" false DefaultNull;
                       col "multiple" false DefaultNull];
       tbl_key := []; tbl_rows := [] |} in
  let w := sample_world (fun _ => (3429200001 # 2)%Q)
             (fun _ => HttpRaises RequestException) no_adapter in
  let r := record_alert w (PyStr "A") (py_int 5)
             (initial_state (fresh_one_token ++ [("price_alerts"%string, alerts)])) in
  let r' := record_alert w (PyStr "A") (py_int 5)
              (initial_state [("price_alerts"%string, alerts)]) in
  fst r = Ok (true, None)
  /\ rows_of (st_db (snd r)) "price_alerts" = [[VText "A"; VNum (PFin 5)]]
  /\ rows_of (st_db (snd r)) "monitored_tokens"
     = [[VText "A"; VText "TOK"; VNum (PFin 100); VTime 1714564800;
         VNum (PFin 1714600000); VText "2024-05-01 12:00:00";
         VText "channel"]]
  /\ fst r' = Ok (false, Some OperationalError)
  /\ rows_of (st_db (snd r')) "price_alerts" = [].
Proof. cbv zeta. repeat split; vm_compute; reflexivity. Qed.

(** *** [update_purchase_status] *)

Lemma set_table_same db name t :
  assoc name db = Some t -> set_table db name t = db.
Proof.
  induction db as [|[n t0] db IH]; cbn; [discriminate|].
  destruct (String.eqb n name) eqn:E.
  - intros [= <-]. reflexivity.
  - intros H. now rewrite IH.
Qed.

Lemma map_unless {A} (hit : A -> bool) (f : A -> A) l :
  forallb (fun a => negb (hit a)) l = true ->
  map (fun a => if hit a then f a else a) l = l.
Proof.
  induction l as [|a l IH]; cbn; [reflexivity|].
  intros H. apply andb_prop in H as [Ha Hl].
  destruct (hit a); [discriminate|]. now rewrite IH.
Qed.

Lemma existsb_never {A} (f : A -> bool) (l : list A) :
  (forall a, f a = false) -> existsb f l = false.
Proof. intros H. induction l; cbn; [reflexivity|]. now rewrite H. Qed.

Lemma sql_update_plain adapt db name t sets conds svals cvals :
  assoc name db = Some t ->
  forallb (has_column t) (map fst sets ++ map fst conds) = true ->
  bind_all adapt (map snd sets) = Ok svals ->
  bind_all adapt (map snd conds) = Ok cvals ->
  existsb (fun c => col_notnull c
                    && match assoc (col_name c)
                               (combine (map fst sets) svals) with
                       | Some v => is_null v
                       | None => false
                       end) (tbl_columns t) = false ->
  existsb (fun c => existsb (String.eqb c) (tbl_key t)) (map fst sets)
  = false ->
  sql_update adapt db name sets conds
  = Ok (set_table db name
          {| tbl_columns := tbl_columns t; tbl_key := tbl_key t;
             tbl_rows :=
               map (fun r => if row_matches t (combine (map fst conds) cvals) r
                             then set_fields (column_names t) r
                                    (combine (map fst sets) svals)
                             else r) (tbl_rows t) |}).
Proof.
  intros Ht Hc Hs Hv Hnull Hkey. unfold sql_update, find_table.
  rewrite Ht. cbn [of_option rbind]. rewrite Hc. cbn [negb].
  rewrite Hs, Hv. cbn [rbind]. rewrite Hnull, Hkey.
  rewrite existsb_never; [reflexivity|].
  intros r. cbn. now rewrite andb_false_r.
Qed.

Lemma update_purchase_status_sql_ok adapt db t n s tx :
  assoc "purchase_records" db = Some t ->
  tbl_columns t = purchase_records_columns ->
  tbl_key t = ["id"%string] ->
  (tx = PyNone \/ exists h, tx = PyStr h) ->
  update_purchase_status_sql adapt db (py_int n) (PyStr s) tx
  = Ok (set_table db "purchase_records"
          {| tbl_columns := tbl_columns t; tbl_key := tbl_key t;
             tbl_rows :=
               map (fun row =>
                      if sql_eqb (field_value t row "id")
                                 (VNum (PFin (inject_Z n)))
                      then set_fields (column_names t) row
                             (("status"%string, VText s)
                              :: match tx with
                                 | PyStr h =>
                                     if String.eqb h "" then []
                                     else [("tx_hash"%string, VText h)]
                                 | _ => []
                                 end)
                      else row) (tbl_rows t) |}).
Proof.
  intros Ht Hcols Hkey Htx.
  assert (Hn : column_names t = map col_name purchase_records_columns)
    by (unfold column_names; now rewrite Hcols).
  assert (Hm : forall row,
             row_matches t [("id"%string, VNum (PFin (inject_Z n)))] row
             = sql_eqb (field_value t row "id") (VNum (PFin (inject_Z n))))
    by (intros row; unfold row_matches; cbn [forallb fst snd];
        now rewrite andb_true_r).
  unfold update_purchase_status_sql.
  destruct Htx as [->|[h ->]]; cbn [truthy].
  - erewrite sql_update_plain; try exact Ht; try reflexivity.
    + cbn [map fst snd combine]. do 3 f_equal.
      apply map_ext. intros row. now rewrite Hm.
    + unfold has_column. rewrite Hn. reflexivity.
    + rewrite Hcols. reflexivity.
    + rewrite Hkey. reflexivity.
  - destruct (String.eqb h "") eqn:Eh; cbn [negb].
    + erewrite sql_update_plain; try exact Ht; try reflexivity.
      * cbn [map fst snd combine]. do 3 f_equal.
        apply map_ext. intros row. now rewrite Hm.
      * unfold has_column. rewrite Hn. reflexivity.
      * rewrite Hcols. reflexivity.
      * rewrite Hkey. reflexivity.
    + erewrite sql_update_plain; try exact Ht; try reflexivity.
      * cbn [map fst snd combine]. do 3 f_equal.
        apply map_ext. intros row. now rewrite Hm.
      * unfold has_column. rewrite Hn. reflexivity.
      * rewrite Hcols. reflexivity.
      * rewrite Hkey. reflexivity.
Qed.

(** X6. On the table [init_db] creates, with no fault of the storage
    layer, [update_purchase_status] answers True whether or not a record
    has the identifier: it sets the status of the records that have it
    (and their transaction hash, when one is given that is not empty) and
    leaves every other record and every other table alone, so for an
    unknown identifier the database is unchanged.  Without a hash, or
    with an empty one, the stored hash stays. *)
Theorem update_purchase_status_effect :
  forall (w : World) (n : Z) (s : string) (tx : pyval) (st : state)
         (t : table),
    w_db_fault w (st_steps st) = None ->
    assoc "purchase_records" (st_db st) = Some t ->
    tbl_columns t = purchase_records_columns ->
    tbl_key t = ["id"%string] ->
    (tx = PyNone \/ exists h, tx = PyStr h) ->
    let r := update_purchase_status w (py_int n) (PyStr s) tx st in
    let hit row := sql_eqb (field_value t row "id") (VNum (PFin (inject_Z n))) in
    let sets :=
      ("status"%string, VText s)
      :: match tx with
         | PyStr h => if String.eqb h "" then []
                      else [("tx_hash"%string, VText h)]
         | _ => []
         end in
    fst r = Ok (true, None)
    /\ rows_of (st_db (snd r)) "purchase_records"
       = map (fun row => if hit row
                         then set_fields (column_names t) row sets
                         else row) (tbl_rows t)
    /\ (forallb (fun row => negb (hit row)) (tbl_rows t) = true ->
        st_db (snd r) = st_db st)
    /\ (forall name, String.eqb "purchase_records" name = false ->
                     assoc name (st_db (snd r)) = assoc name (st_db st)).
Proof.
  intros w n s tx st t Hf Ht Hcols Hkey Htx r hit sets.
  assert (E : r = (Ok (true, None),
                   {| st_db := set_table (st_db st) "purchase_records"
                        {| tbl_columns := tbl_columns t; tbl_key := tbl_key t;
                           tbl_rows :=
                             map (fun row => if hit row
                                             then set_fields (column_names t)
                                                    row sets
                                             else row) (tbl_rows t) |};
                      st_jobs := st_jobs st; st_posted := st_posted st;
                      st_requests := st_requests st; st_out := st_out st;
                      st_steps := S (st_steps st);
                      st_last_tweet_time := st_last_tweet_time st |})).
  { subst r hit sets.
    unfold update_purchase_status, with_connection. munfold.
    cbn -[update_purchase_status_sql set_fields field_value sql_eqb
          column_names set_table].
    rewrite Hf.
    cbn -[update_purchase_status_sql set_fields field_value sql_eqb
          column_names set_table].
    rewrite (update_purchase_status_sql_ok _ _ t n s tx Ht Hcols Hkey Htx).
    reflexivity. }
  rewrite E. cbn [fst snd st_db].
  split; [reflexivity|]. split.
  - unfold rows_of. rewrite assoc_set_table, String.eqb_refl. reflexivity.
  - split.
    + intros Hnone. rewrite (map_unless hit _ _ Hnone).
      destruct t as [c k rs]. cbn. now apply set_table_same.
    + intros name Hname. now rewrite assoc_set_table, Hname.
Qed.

(** A witness: the one purchase on record is marked a success with its
    hash; marking an unknown record 7 is answered True and changes
    nothing. *)
Lemma update_purchase_status_effect_witness :
  let params :=
    [PyStr "A"; PyStr "wSOL"; PyNum (PFin (1 # 10)); PyNum (PFin 150);
     PyStr "TOK"; PyNum (PFin 1000); PyNum (PFin (3 # 200));
     PyNum (PFin (1 # 2)); PyNum (PFin (1 # 1000)); PyStr "Raydium"] in
  let db := match add_purchase_record_sql no_adapter 1714600000 fresh_db
                    params with
            | Ok db => db
            | Raise _ => fresh_db
            end in
  let w := sample_world (fun _ => 1714600000%Q)
             (fun _ => HttpRaises RequestException) no_adapter in
  let r1 := update_purchase_status w (py_int 1) (PyStr "success")
              (PyStr "5xHash") (initial_state db) in
  let r2 := update_purchase_status w (py_int 7) (PyStr "failed") PyNone
              (snd r1) in
  rows_of db "purchase_records"
  = [[VNum (PFin 1); VText "A"; VText "wSOL"; VNum (PFin (1 # 10));
      VNum (PFin 150); VText "TOK"; VNum (PFin 1000); VNum (PFin (3 # 200));
      VNum (PFin (1 # 2)); VNum (PFin (1 # 1000)); VText "Raydium";
      VTime 1714600000; VText "pending"; VNull]]
  /\ fst r1 = Ok (true, None)
  /\ rows_of (st_db (snd r1)) "purchase_records"
     = [[VNum (PFin 1); VText "A"; VText "wSOL"; VNum (PFin (1 # 10));
         VNum (PFin 150); VText "TOK"; VNum (PFin 1000); VNum (PFin (3 # 200));
         VNum (PFin (1 # 2)); VNum (PFin (1 # 1000)); VText "Raydium";
         VTime 1714600000; VText "success"; VText "5xHash"]]
  /\ fst r2 = Ok (true, None)
  /\ st_db (snd r2) = st_db (snd r1).
Proof.
  intros params db w r1 r2.
  destruct (update_purchase_status_effect w 1 "success" (PyStr "5xHash")
              (initial_state db) _ eq_refl eq_refl eq_refl eq_refl
              (or_intror (ex_intro _ "5xHash"%string eq_refl)))
    as (H1 & H2 & _ & _).
  destruct (update_purchase_status_effect w 7 "failed" PyNone
              (snd r1) _ eq_refl eq_refl eq_refl eq_refl
              (or_introl eq_refl))
    as (H3 & _ & H4 & _).
  split; [vm_compute; reflexivity|].
  split; [exact H1|].
  split; [fold r1 in H2; rewrite H2; vm_compute; reflexivity|].
  split; [exact H3|].
  apply H4. vm_compute. reflexivity.
Defined.

(** ** [TokenDB], method by method *)

Lemma create_table_present db name cols key t :
  assoc name db = Some t ->
  create_table_if_not_exists db name cols key = db.
Proof. intros H. unfold create_table_if_not_exists. now rewrite H. Qed.

Lemma assoc_create_self db name cols key :
  exists t, assoc name (create_table_if_not_exists db name cols key) = Some t.
Proof.
  unfold create_table_if_not_exists.
  destruct (assoc name db) as [t|] eqn:E; [eauto|].
  rewrite assoc_app, E. cbn. rewrite String.eqb_refl. eauto.
Qed.

Lemma assoc_init_db_tables db name :
  In name ["monitored_tokens"; "multiple_alerts"; "price_history";
           "purchase_records"]%string ->
  exists t, assoc name (init_db_sql db) = Some t.
Proof.
  unfold init_db_sql. cbn [In].
  intros [<-|[<-|[<-|[<-|[]]]]].
  - destruct (assoc_create_self db "monitored_tokens"
                monitored_tokens_columns ["ca"%string]) as (t & H).
    exists t. do 3 apply assoc_create_present. exact H.
  - match goal with
    | |- context [create_table_if_not_exists ?d "multiple_alerts" ?c ?k] =>
        destruct (assoc_create_self d "multiple_alerts" c k) as (t & H)
    end.
    exists t. do 2 apply assoc_create_present. exact H.
  - match goal with
    | |- context [create_table_if_not_exists ?d "price_history" ?c ?k] =>
        destruct (assoc_create_self d "price_history" c k) as (t & H)
    end.
    exists t. apply assoc_create_present. exact H.
  - apply assoc_create_self.
Qed.

(** X7. [init_db] is safe to run again: a second run changes nothing, the
    four tables exist after it, and a table that was there before it, of
    whatever columns, is left exactly as it was, with its rows (an old
    table is not brought up to date); tables of other names are not
    touched. *)
Theorem init_db_sql_idempotent :
  forall db : database,
    init_db_sql (init_db_sql db) = init_db_sql db
    /\ (forall name t,
          assoc name db = Some t -> assoc name (init_db_sql db) = Some t)
    /\ (forall name,
          In name ["monitored_tokens"; "multiple_alerts"; "price_history";
                   "purchase_records"]%string ->
          exists t, assoc name (init_db_sql db) = Some t)
    /\ (forall name,
          ~ In name ["monitored_tokens"; "multiple_alerts"; "price_history";
                     "purchase_records"]%string ->
          assoc name (init_db_sql db) = assoc name db).
Proof.
  intros db. split; [|split; [|split]].
  - destruct (assoc_init_db_tables db "monitored_tokens") as (t1 & H1);
      [cbn; tauto|].
    destruct (assoc_init_db_tables db "multiple_alerts") as (t2 & H2);
      [cbn; tauto|].
    destruct (assoc_init_db_tables db "price_history") as (t3 & H3);
      [cbn; tauto|].
    destruct (assoc_init_db_tables db "purchase_records") as (t4 & H4);
      [cbn; tauto|].
    set (d := init_db_sql db) in *. unfold init_db_sql at 1.
    rewrite (create_table_present d _ _ _ t1 H1).
    rewrite (create_table_present d _ _ _ t2 H2).
    rewrite (create_table_present d _ _ _ t3 H3).
    now rewrite (create_table_present d _ _ _ t4 H4).
  - intros name t. apply assoc_init_db_present.
  - apply assoc_init_db_tables.
  - intros name Hn. destruct (assoc_init_db_other db name); tauto.
Qed.

(** A witness: a database whose ledger was made with the market-cap
    column keeps that ledger. *)
Lemma init_db_sql_idempotent_witness :
  let db := [("multiple_alerts"%string, multiple_alerts_with_mcap)] in
  init_db_sql (init_db_sql db) = init_db_sql db
  /\ assoc "multiple_alerts" (init_db_sql db) = Some multiple_alerts_with_mcap
  /\ (exists t, assoc "price_history" (init_db_sql db) = Some t)
  /\ assoc "price_alerts" (init_db_sql db) = None.
Proof.
  intros db.
  destruct (init_db_sql_idempotent db) as (H1 & H2 & H3 & H4).
  split; [exact H1|].
  split; [apply H2; reflexivity|].
  split; [apply H3; cbn; tauto|].
  rewrite H4; [reflexivity|].
  cbn. intros [H|[H|[H|[H|[]]]]]; discriminate H.
Defined.

Lemma sql_eqb_sym a b : sql_eqb a b = sql_eqb b a.
Proof.
  destruct a as [|x|s|t], b as [|y|s'|t']; cbn; try reflexivity.
  - destruct x, y; cbn; try reflexivity.
    + unfold Qeq_bool. apply Z.eqb_sym.
    + now destruct negative, negative0.
  - apply String.eqb_sym.
  - apply Z.eqb_sym.
Qed.

Lemma sql_exists_after_insert adapt db name tb r conds vals :
  assoc name db = Some tb ->
  forallb (has_column tb) (map fst conds) = true ->
  bind_all adapt (map snd conds) = Ok vals ->
  forallb (fun cv => sql_eqb (field_value tb r (fst cv)) (snd cv))
          (combine (map fst conds) vals) = true ->
  sql_exists adapt
    (set_table db name
       {| tbl_columns := tbl_columns tb; tbl_key := tbl_key tb;
          tbl_rows := tbl_rows tb ++ [r] |}) name conds
  = Ok true.
Proof.
  intros Htb Hc Hv Hr. unfold sql_exists, find_table.
  rewrite assoc_set_table, String.eqb_refl. cbn [of_option rbind].
  set (tb' := {| tbl_columns := tbl_columns tb; tbl_key := tbl_key tb;
                 tbl_rows := tbl_rows tb ++ [r] |}).
  change (has_column tb') with (has_column tb). rewrite Hc. cbn [negb].
  rewrite Hv. cbn [rbind]. f_equal.
  change (field_value tb') with (field_value tb).
  cbn [tb' tbl_rows]. rewrite existsb_app. cbn [existsb].
  rewrite Hr. cbn. now rewrite orb_true_r.
Qed.

Lemma field_value_new_row_plain now t given c v :
  has_column t c = true ->
  assoc c given = Some v ->
  field_value t (new_row now t given) c = v.
Proof. exact (field_value_new_row now t given c v). Qed.

(** X8. An address is stored once, at its first sighting.  When the
    address is already in the table, [add_token] answers False, prints
    that the token exists and leaves the database alone; and after an
    address has been stored, any later [add_token] of that address,
    whatever the other values, is answered False and changes nothing, so
    the baseline of the first sighting stays. *)
Theorem add_token_first_sighting_wins :
  (forall (w : World) (token ca initial_mcap received_time source_type : pyval)
          (st : state),
      w_db_fault w (st_steps st) = None ->
      sql_exists (w_adapt w) (st_db st) "monitored_tokens" [("ca"%string, ca)]
      = Ok true ->
      add_token w token ca initial_mcap received_time source_type st
      = (Ok false,
         {| st_db := st_db st; st_jobs := st_jobs st;
            st_posted := st_posted st; st_requests := st_requests st;
            st_out := st_out st ++ [LTokenExists token];
            st_steps := S (st_steps st);
            st_last_tweet_time := st_last_tweet_time st |}))
  /\ (forall adapt now db token (ca : string) mcap received source db',
        add_token_sql adapt now db token (PyStr ca) mcap received source
        = Ok (true, db') ->
        forall now' token' mcap' received' source',
          add_token_sql adapt now' db' token' (PyStr ca) mcap' received'
            source'
          = Ok (false, db')).
Proof.
  split.
  - intros w token ca mcap received source st Hf He.
    unfold add_token, with_connection, add_token_sql. munfold. cbn.
    rewrite Hf. cbn. rewrite He. reflexivity.
  - intros adapt now db token ca mcap received source db' H
           now' token' mcap' received' source'.
    apply add_token_sql_cases in H as [(E & _)|(_ & _ & H)]; [discriminate E|].
    apply sql_insert_table in H as (t & vals & Ht & Hcols & Hvals & ->).
    unfold add_token_sql.
    cbn in Hcols. apply andb_prop in Hcols as [Hca _].
    erewrite sql_exists_after_insert; [reflexivity|exact Ht| | |].
    + cbn. now rewrite Hca.
    + reflexivity.
    + cbn [map fst snd combine forallb].
      rewrite (field_value_new_row_plain now t _ "ca" (VText ca) Hca).
      * cbn. now rewrite String.eqb_refl.
      * cbn [bind_all bind] in Hvals. cbn [rbind] in Hvals.
        destruct (bind adapt token); cbn [rbind] in Hvals; [|discriminate].
        destruct (bind adapt mcap); cbn [rbind] in Hvals; [|discriminate].
        destruct (bind adapt received); cbn [rbind] in Hvals; [|discriminate].
        destruct (bind adapt source); cbn [rbind] in Hvals; [|discriminate].
        injection Hvals as <-. reflexivity.
Qed.

(** A witness: token A, stored with a baseline of 100, is submitted again
    with a baseline of 999. *)
Lemma add_token_first_sighting_wins_witness :
  let w := sample_world (fun _ => 1714600000%Q)
             (fun _ => HttpRaises RequestException) no_adapter in
  add_token w (PyStr "TOK") (PyStr "A") (PyNum (PFin 999))
    (PyStr "2024-05-02 08:00:00") (PyStr "channel")
    (initial_state db_one_token)
  = (Ok false,
     {| st_db := db_one_token; st_jobs := []; st_posted := [];
        st_requests := []; st_out := [LTokenExists (PyStr "TOK")];
        st_steps := 1; st_last_tweet_time := 0 |})
  /\ add_token_sql no_adapter 1714650000 db_one_token (PyStr "TOK")
       (PyStr "A") (PyNum (PFin 999)) (PyStr "2024-05-02 08:00:00")
       (PyStr "channel")
     = Ok (false, db_one_token).
Proof.
  intros w.
  destruct add_token_first_sighting_wins as [H1 H2].
  split.
  - rewrite (H1 w (PyStr "TOK") (PyStr "A") (PyNum (PFin 999))
               (PyStr "2024-05-02 08:00:00") (PyStr "channel")
               (initial_state db_one_token) eq_refl eq_refl).
    reflexivity.
  - apply (H2 no_adapter 1714564800 db_with_mcap_column (PyStr "TOK")
              "A"%string
              (PyNum (PFin 100)) (PyStr "2024-05-01 12:00:00")
              (PyStr "channel") db_one_token).
    reflexivity.
Defined.

Lemma existsb_pointwise {A} (f g : A -> bool) l :
  (forall a, f a = g a) -> existsb f l = existsb g l.
Proof. intros H. induction l; cbn; [reflexivity|]. now rewrite H, IHl. Qed.

Lemma add_token_sql_stores adapt now db t (token ca received : string)
      (mcap : Q) source vsrc :
  assoc "monitored_tokens" db = Some t ->
  tbl_columns t = monitored_tokens_columns ->
  tbl_key t = ["ca"%string] ->
  bind adapt source = Ok vsrc ->
  sql_exists adapt db "monitored_tokens" [("ca"%string, PyStr ca)] = Ok false ->
  add_token_sql adapt now db (PyStr token) (PyStr ca) (PyNum (PFin mcap))
    (PyStr received) source
  = Ok (true,
        set_table db "monitored_tokens"
          {| tbl_columns := tbl_columns t; tbl_key := tbl_key t;
             tbl_rows := tbl_rows t
                         ++ [[VText ca; VText token; VNum (PFin mcap);
                              VTime now; VNum (PFin 0); VText received;
                              vsrc]] |}).
Proof.
  intros Ht Hcols Hkey Hsrc Hex.
  assert (Hn : column_names t = map col_name monitored_tokens_columns)
    by (unfold column_names; now rewrite Hcols).
  unfold add_token_sql. rewrite Hex. cbn [rbind].
  unfold sql_insert, find_table. rewrite Ht. cbn [of_option rbind].
  assert (Hc : forallb (has_column t)
                 ["ca"; "token"; "initial_mcap"; "received_time";
                  "sourceType"]%string = true)
    by (unfold has_column; rewrite Hn; reflexivity).
  rewrite Hc. cbn [negb bind_all bind]. rewrite Hsrc. cbn [rbind].
  assert (Hrow : new_row now t
                   (combine ["ca"; "token"; "initial_mcap"; "received_time";
                             "sourceType"]%string
                            [VText ca; VText token; VNum (PFin mcap);
                             VText received; vsrc])
                 = [VText ca; VText token; VNum (PFin mcap); VTime now;
                    VNum (PFin 0); VText received; vsrc])
    by (unfold new_row; rewrite Hcols; reflexivity).
  rewrite Hrow.
  assert (Hnn : violates_notnull t
                  [VText ca; VText token; VNum (PFin mcap); VTime now;
                   VNum (PFin 0); VText received; vsrc] = false).
  { unfold violates_notnull. rewrite Hcols. reflexivity. }
  rewrite Hnn.
  assert (Hk : violates_key t
                 [VText ca; VText token; VNum (PFin mcap); VTime now;
                  VNum (PFin 0); VText received; vsrc] = false).
  { unfold violates_key, key_of. rewrite Hkey. cbn [map].
    unfold sql_exists, find_table in Hex. rewrite Ht in Hex.
    cbn [of_option rbind map fst snd] in Hex.
    assert (Hca : forallb (has_column t) ["ca"%string] = true)
      by (unfold has_column; rewrite Hn; reflexivity).
    rewrite Hca in Hex. cbn [negb bind_all bind rbind combine] in Hex.
    injection Hex as Hex. etransitivity; [|exact Hex].
    apply existsb_pointwise. intros r.
    unfold field_value. cbn [forallb fst snd keys_equal].
    unfold field at 1. rewrite Hn. cbn [map combine col_name
      monitored_tokens_columns col assoc String.eqb Ascii.eqb Bool.eqb
      of_option].
    apply f_equal2; [apply sql_eqb_sym | reflexivity]. }
  rewrite Hk. reflexivity.
Qed.

(** X9. Storing a token and loading the active set: on the table of
    [init_db], [add_token] of an address that is not yet there appends one
    row, with the creation time, a last alert time of 0 and the values
    given; and [get_all_tokens] then returns what it returned before
    followed by that token, with these values, when its received time is
    within the trailing 72 hours, and just what it returned before when it
    is not (or is no date SQLite can read). *)
Theorem add_token_then_get_all_tokens :
  forall (adapt : pyval -> res sqlval) (dt : Z -> sqlval -> option Z)
         (now : Z) (db : database) (t : table)
         (token ca received : string) (mcap : Q) (source : pyval)
         (vsrc : sqlval),
    assoc "monitored_tokens" db = Some t ->
    tbl_columns t = monitored_tokens_columns ->
    tbl_key t = ["ca"%string] ->
    bind adapt source = Ok vsrc ->
    sql_exists adapt db "monitored_tokens" [("ca"%string, PyStr ca)]
    = Ok false ->
    exists db',
      add_token_sql adapt now db (PyStr token) (PyStr ca) (PyNum (PFin mcap))
        (PyStr received) source = Ok (true, db')
      /\ rows_of db' "monitored_tokens"
         = tbl_rows t
           ++ [[VText ca; VText token; VNum (PFin mcap); VTime now;
                VNum (PFin 0); VText received; vsrc]]
      /\ forall now' old,
           get_all_tokens_sql dt now' db = Ok old ->
           get_all_tokens_sql dt now' db'
           = Ok (old
                 ++ if in_window dt now' (VText received)
                    then [[("ca", PyStr ca); ("token", PyStr token);
                           ("initial_mcap", PyNum (PFin mcap));
                           ("last_alert_time", PyNum (PFin 0));
                           ("received_time", PyStr received);
                           ("sourceType", py_of_sql vsrc)]%string]
                    else []).
Proof.
  intros adapt dt now db t token ca received mcap source vsrc
         Ht Hcols Hkey Hsrc Hex.
  pose proof (add_token_sql_stores adapt now db t token ca received mcap
                source vsrc Ht Hcols Hkey Hsrc Hex) as Hadd.
  eexists. split; [exact Hadd|].
  split; [unfold rows_of; now rewrite assoc_set_table, String.eqb_refl|].
  intros now' old Hold.
  assert (Hn : column_names t = map col_name monitored_tokens_columns)
    by (unfold column_names; now rewrite Hcols).
  unfold get_all_tokens_sql, find_table in *.
  rewrite assoc_set_table, String.eqb_refl. rewrite Ht in Hold.
  cbn [of_option rbind] in *.
  set (t' := {| tbl_columns := tbl_columns t; tbl_key := tbl_key t;
                tbl_rows := _ |}).
  change (has_column t') with (has_column t).
  destruct (negb (forallb (has_column t) token_columns)); [discriminate Hold|].
  injection Hold as <-. f_equal.
  change (token_dict t') with (token_dict t).
  change (field_value t') with (field_value t).
  cbn [t' tbl_rows]. rewrite filter_app, map_app. f_equal.
  cbn [filter].
  assert (Hr : field_value t
                 [VText ca; VText token; VNum (PFin mcap); VTime now;
                  VNum (PFin 0); VText received; vsrc] "received_time"
               = VText received)
    by (unfold field_value, field; rewrite Hn; reflexivity).
  rewrite Hr. destruct (in_window dt now' (VText received)); [|reflexivity].
  cbn [map]. f_equal.
  unfold token_dict, field_value, field. rewrite Hn. reflexivity.
Qed.

(** A witness: token C is stored in the database that has token A, at a
    time when both are inside the window. *)
Lemma add_token_then_get_all_tokens_witness :
  let dt := w_sql_datetime
              (sample_world (fun _ => 0%Q)
                 (fun _ => HttpRaises RequestException) no_adapter) in
  exists db',
    add_token_sql no_adapter 1714600000 db_one_token (PyStr "NEW") (PyStr "C")
      (PyNum (PFin 2000)) (PyStr "2024-05-01 12:00:00") (PyStr "channel")
    = Ok (true, db')
    /\ get_all_tokens_sql dt 1714600000 db_one_token = Ok [token_A]
    /\ get_all_tokens_sql dt 1714600000 db'
       = Ok [token_A;
             [("ca", PyStr "C"); ("token", PyStr "NEW");
              ("initial_mcap", PyNum (PFin 2000));
              ("last_alert_time", PyNum (PFin 0));
              ("received_time", PyStr "2024-05-01 12:00:00");
              ("sourceType", PyStr "channel")]%string]
    /\ get_all_tokens_sql dt (1714564800 + 72 * 3600) db' = Ok [].
Proof.
  intros dt.
  destruct (add_token_then_get_all_tokens no_adapter dt 1714600000
              db_one_token _ "NEW" "C" "2024-05-01 12:00:00" 2000
              (PyStr "channel") (VText "channel")
              eq_refl eq_refl eq_refl eq_refl eq_refl)
    as (db' & Hadd & _ & Hget).
  exists db'. split; [exact Hadd|].
  split; [reflexivity|].
  split.
  - rewrite (Hget 1714600000 [token_A] eq_refl). reflexivity.
  - rewrite (Hget (1714564800 + 72 * 3600) [] eq_refl). reflexivity.
Defined.

(** *** The ledger with its market-cap column *)

Lemma record_multiple_alert_sql_outcome adapt now db t (ca : string) n x vx :
  assoc "multiple_alerts" db = Some t ->
  tbl_columns t = tbl_columns multiple_alerts_with_mcap ->
  tbl_key t = ["ca"; "multiple"]%string ->
  bind adapt x = Ok vx ->
  exists present,
    check_multiple_alerted_sql adapt db (PyStr ca) (py_int n) = Ok present
    /\ record_multiple_alert_sql adapt now db (PyStr ca) (py_int n) x
       = if present then Raise IntegrityError
         else Ok (set_table db "multiple_alerts"
                    {| tbl_columns := tbl_columns t; tbl_key := tbl_key t;
                       tbl_rows := tbl_rows t
                                   ++ [[VText ca; VNum (PFin (inject_Z n));
                                        VTime now; vx]] |}).
Proof.
  intros Ht Hcols Hkey Hx.
  assert (Hn : column_names t
               = ["ca"; "multiple"; "alert_time"; "max_market_cap"]%string)
    by (unfold column_names; now rewrite Hcols).
  unfold check_multiple_alerted_sql, record_multiple_alert_sql, sql_exists,
    sql_insert, find_table.
  rewrite Ht. cbn [of_option rbind map fst snd].
  assert (H2 : forallb (has_column t) ["ca"; "multiple"]%string = true)
    by (unfold has_column; rewrite Hn; reflexivity).
  assert (H3 : forallb (has_column t)
                 ["ca"; "multiple"; "max_market_cap"]%string = true)
    by (unfold has_column; rewrite Hn; reflexivity).
  rewrite H2, H3. cbn [negb bind_all].
  change (bind adapt (PyStr ca)) with (Ok (VText ca)).
  change (bind adapt (py_int n)) with (Ok (VNum (PFin (inject_Z n)))).
  rewrite Hx. cbn [rbind combine].
  eexists. split; [reflexivity|].
  assert (Hrow : new_row now t
                   [("ca"%string, VText ca);
                    ("multiple"%string, VNum (PFin (inject_Z n)));
                    ("max_market_cap"%string, vx)]
                 = [VText ca; VNum (PFin (inject_Z n)); VTime now; vx])
    by (unfold new_row; rewrite Hcols; reflexivity).
  rewrite Hrow.
  assert (Hnn : violates_notnull t
                  [VText ca; VNum (PFin (inject_Z n)); VTime now; vx] = false)
    by (unfold violates_notnull; rewrite Hcols; reflexivity).
  rewrite Hnn.
  assert (Hk : violates_key t
                 [VText ca; VNum (PFin (inject_Z n)); VTime now; vx]
               = existsb
                   (fun r =>
                      forallb
                        (fun cv => sql_eqb (field_value t r (fst cv)) (snd cv))
                        [("ca"%string, VText ca);
                         ("multiple"%string, VNum (PFin (inject_Z n)))])
                   (tbl_rows t)).
  { assert (Hko : forall r, key_of t r
                            = [field_value t r "ca";
                               field_value t r "multiple"])
      by (intros r; unfold key_of; rewrite Hkey; reflexivity).
    assert (Hf1 : field_value t
                    [VText ca; VNum (PFin (inject_Z n)); VTime now; vx] "ca"
                  = VText ca)
      by (unfold field_value, field; rewrite Hn; reflexivity).
    assert (Hf2 : field_value t
                    [VText ca; VNum (PFin (inject_Z n)); VTime now; vx]
                    "multiple"
                  = VNum (PFin (inject_Z n)))
      by (unfold field_value, field; rewrite Hn; reflexivity).
    unfold violates_key. rewrite Hkey.
    apply existsb_pointwise. intros r.
    rewrite !Hko, Hf1, Hf2. cbn [keys_equal forallb fst snd].
    rewrite (sql_eqb_sym (VText ca)).
    now rewrite (sql_eqb_sym (VNum (PFin (inject_Z n)))). }
  rewrite Hk. now destruct (existsb _ _).
Qed.

(** X10. On a ledger that has the market-cap column and the primary key
    (ca, multiple), with no fault of the storage layer, the uniqueness
    constraint and [check_multiple_alerted] agree: [record_multiple_alert]
    answers True exactly when the check answered False.  It then appends
    one row carrying the address, the tier, the time and the market cap,
    after which the check answers True; when the check answered True it is
    refused with an IntegrityError, which is printed, and the database is
    unchanged. *)
Theorem record_multiple_alert_agrees_with_check :
  forall (w : World) (ca : string) (n : Z) (x : pyval) (vx : sqlval)
         (st : state) (t : table),
    assoc "multiple_alerts" (st_db st) = Some t ->
    tbl_columns t = tbl_columns multiple_alerts_with_mcap ->
    tbl_key t = ["ca"; "multiple"]%string ->
    bind (w_adapt w) x = Ok vx ->
    w_db_fault w (st_steps st) = None ->
    let r := record_multiple_alert w (PyStr ca) (py_int n) x st in
    exists present,
      check_multiple_alerted_sql (w_adapt w) (st_db st) (PyStr ca) (py_int n)
      = Ok present
      /\ fst r = Ok (negb present)
      /\ (present = true ->
          st_db (snd r) = st_db st
          /\ st_out (snd r) = st_out st ++ [LRecordAlertFailed IntegrityError])
      /\ (present = false ->
          rows_of (st_db (snd r)) "multiple_alerts"
          = tbl_rows t
            ++ [[VText ca; VNum (PFin (inject_Z n));
                 VTime (Qfloor (w_clock w (st_steps st))); vx]]
          /\ st_out (snd r) = st_out st
          /\ check_multiple_alerted_sql (w_adapt w) (st_db (snd r))
               (PyStr ca) (py_int n) = Ok true).
Proof.
  intros w ca n x vx st t Ht Hcols Hkey Hx Hf r.
  destruct (record_multiple_alert_sql_outcome (w_adapt w)
              (Qfloor (w_clock w (st_steps st))) (st_db st) t ca n x vx
              Ht Hcols Hkey Hx) as (present & Hchk & Hrec).
  exists present. split; [exact Hchk|].
  subst r. unfold record_multiple_alert, with_connection. munfold.
  cbn -[record_multiple_alert_sql check_multiple_alerted_sql Qfloor].
  rewrite Hf.
  cbn -[record_multiple_alert_sql check_multiple_alerted_sql Qfloor].
  rewrite Hrec. destruct present;
    cbn -[check_multiple_alerted_sql Qfloor].
  - split; [reflexivity|]. split; [auto | discriminate].
  - split; [reflexivity|]. split; [discriminate|]. intros _.
    split; [unfold rows_of; now rewrite assoc_set_table|].
    split; [reflexivity|].
    assert (Hn : column_names t
               = ["ca"; "multiple"; "alert_time"; "max_market_cap"]%string)
    by (unfold column_names; now rewrite Hcols).
    unfold check_multiple_alerted_sql.
    eapply sql_exists_after_insert; [exact Ht| |reflexivity|].
    + unfold has_column. rewrite Hn. reflexivity.
    + unfold field_value, field. rewrite Hn. cbn.
      rewrite String.eqb_refl. unfold Qeq_bool. cbn.
      now rewrite Z.eqb_refl.
Qed.

(** A witness: tier 5 of token A on the ledger with the column, where
    tier 10 of A is on record. *)
Lemma record_multiple_alert_agrees_with_check_witness :
  let w := sample_world (fun _ => 1714600000%Q)
             (fun _ => HttpRaises RequestException) no_adapter in
  let st0 := snd (record_multiple_alert w (PyStr "A") (py_int 10)
                    (PyNum (PFin 1000)) (initial_state db_one_token)) in
  let r := record_multiple_alert w (PyStr "A") (py_int 5)
             (PyNum (PFin 550)) st0 in
  let r' := record_multiple_alert w (PyStr "A") (py_int 5)
              (PyNum (PFin 560)) (snd r) in
  check_multiple_alerted_sql (w_adapt w) (st_db st0) (PyStr "A") (py_int 5)
  = Ok false
  /\ fst r = Ok true
  /\ rows_of (st_db (snd r)) "multiple_alerts"
     = [[VText "A"; VNum (PFin 10); VTime 1714600000; VNum (PFin 1000)];
        [VText "A"; VNum (PFin 5); VTime 1714600000; VNum (PFin 550)]]
  /\ fst r' = Ok false
  /\ st_db (snd r') = st_db (snd r).
Proof.
  intros w st0 r r'.
  destruct (record_multiple_alert_agrees_with_check w "A" 5
              (PyNum (PFin 550)) (VNum (PFin 550)) st0 _
              eq_refl eq_refl eq_refl eq_refl eq_refl)
    as (present & Hchk & Hr & _ & Hnew).
  assert (Hp : present = false).
  { assert (E : check_multiple_alerted_sql (w_adapt w) (st_db st0)
                  (PyStr "A") (py_int 5) = Ok false) by reflexivity.
    rewrite E in Hchk. now injection Hchk. }
  subst present. destruct (Hnew eq_refl) as (Hrows & _ & _).
  destruct (record_multiple_alert_agrees_with_check w "A" 5
              (PyNum (PFin 560)) (VNum (PFin 560)) (snd r) _
              eq_refl eq_refl eq_refl eq_refl eq_refl)
    as (present' & Hchk' & Hr' & Hold & _).
  assert (Hp' : present' = true).
  { assert (E : check_multiple_alerted_sql (w_adapt w) (st_db (snd r))
                  (PyStr "A") (py_int 5) = Ok true) by reflexivity.
    rewrite E in Hchk'. now injection Hchk'. }
  subst present'. destruct (Hold eq_refl) as (Hdb & _).
  split; [reflexivity|]. split; [exact Hr|].
  split; [fold r in Hrows; rewrite Hrows; reflexivity|].
  split; [exact Hr' | exact Hdb].
Defined.

(** *** The write methods *)

Lemma sql_insert_all_or_nothing w name cols
      (params : Z -> database -> res (list pyval)) st (fail : exn -> line) :
  forall r,
  r = try_
        (with_connection w (fun now db =>
           rbind (rbind (params now db)
                        (fun ps => sql_insert (w_adapt w) now db name cols ps))
                 (fun db' => Ok (tt, db'))) ;;
         ret true)
        (fun e => print (fail e) ;; ret false) st ->
  all_or_nothing name st r.
Proof.
  intros r ->. unfold with_connection. munfold. cbn.
  destruct (w_db_fault w (st_steps st)); cbn; [left; split; reflexivity|].
  destruct (params _ _) as [ps|e]; cbn; [|left; split; reflexivity].
  destruct (sql_insert _ _ _ _ _ _) as [db'|e] eqn:E; cbn;
    [|left; split; reflexivity].
  right. split; [reflexivity|].
  apply sql_insert_table in E as (t & vals & Ht & _ & _ & ->).
  eexists t, _. split; [exact Ht | reflexivity].
Qed.

(** X11. The four write methods of [TokenDB] never raise, and each call is
    all or nothing: it answers False and leaves the database exactly as
    it was, or it answers True and has appended exactly one row to its own
    table, every other table being untouched. *)
Theorem write_methods_all_or_nothing :
  forall (w : World) (st : state),
    (forall token ca initial_mcap received_time source_type,
        all_or_nothing "monitored_tokens" st
          (add_token w token ca initial_mcap received_time source_type st))
    /\ (forall ca multiple max_market_cap,
          all_or_nothing "multiple_alerts" st
            (record_multiple_alert w ca multiple max_market_cap st))
    /\ (forall ca dex_data,
          all_or_nothing "price_history" st (add_price_record w ca dex_data st))
    /\ (forall quote_data ca,
          all_or_nothing "purchase_records" st
            (add_purchase_record w quote_data ca st)).
Proof.
  intros w st. split; [|split; [|split]].
  - intros token ca mcap received source.
    unfold add_token, with_connection. munfold. cbn.
    destruct (w_db_fault w (st_steps st)); cbn; [left; split; reflexivity|].
    destruct (add_token_sql _ _ _ _ _ _ _ _) as [[b db']|e] eqn:E; cbn;
      [|left; split; reflexivity].
    apply add_token_sql_cases in E as [(-> & -> & _)|(-> & _ & E)]; cbn.
    + left. split; reflexivity.
    + right. split; [reflexivity|].
      apply sql_insert_table in E as (t & vals & Ht & _ & _ & ->).
      eexists t, _. split; [exact Ht | reflexivity].
  - intros ca m x.
    apply (sql_insert_all_or_nothing w "multiple_alerts"
             ["ca"; "multiple"; "max_market_cap"]%string
             (fun _ _ => Ok [ca; m; x]) st LRecordAlertFailed).
    reflexivity.
  - intros ca dex. unfold add_price_record. munfold.
    destruct (subscript dex "pairs") as [pairs|e]; cbn;
      [|left; split; reflexivity].
    destruct (subscript0 pairs) as [pair|e]; cbn;
      [|left; split; reflexivity].
    apply (sql_insert_all_or_nothing w "price_history"
             ["ca"; "price_usd"; "price_native"; "volume_24h"; "fdv";
              "market_cap"; "liquidity_usd"]%string
             (fun _ _ => price_params ca pair) st LPriceRecordFailed).
    reflexivity.
  - intros q ca. unfold add_purchase_record, with_connection. munfold. cbn.
    destruct (w_db_fault w (st_steps st)); cbn; [left; split; reflexivity|].
    destruct (w_purchase_params w q ca) as [ps|e]; cbn;
      [|left; split; reflexivity].
    destruct (add_purchase_record_sql _ _ _ _) as [db'|e] eqn:E; cbn;
      [|left; split; reflexivity].
    right. split; [reflexivity|].
    apply sql_insert_table in E as (t & vals & Ht & _ & _ & ->).
    eexists t, _. split; [exact Ht | reflexivity].
Qed.

(** ** The polling pass, its failures *)

(** X12. When the list of active tokens cannot be loaded, because the
    storage layer fails or the query is refused, the pass prints the
    failure twice (where it is caught and re-raised, and in the handler of
    the pass), requests no market data, leaves the database, the queue and
    the last dispatch time alone, and goes on to its sleep; it does not
    raise. *)
Theorem monitor_cycle_load_failure :
  forall (w : World) (st : state) (e : exn),
    w_db_fault w (st_steps st) = Some e
    \/ (w_db_fault w (st_steps st) = None
        /\ get_all_tokens_sql (w_sql_datetime w)
             (Qfloor (w_clock w (st_steps st))) (st_db st) = Raise e) ->
    monitor_cycle w st
    = (Ok tt,
       {| st_db := st_db st; st_jobs := st_jobs st;
          st_posted := st_posted st; st_requests := st_requests st;
          st_out := st_out st
                    ++ [LRoundStart; LTokenListFailed e; LMonitorError e]
                    ++ match w_sleep w (S (st_steps st)) with
                       | Some e' => [LSleepError e']
                       | None => []
                       end;
          st_steps := S (S (st_steps st));
          st_last_tweet_time := st_last_tweet_time st |}).
Proof.
  intros w st e H.
  unfold monitor_cycle, get_all_tokens, with_connection. munfold. msimpl.
  destruct H as [Hf|[Hf Hq]]; rewrite Hf; msimpl.
  - destruct (w_sleep w (S (st_steps st))); msimpl;
      rewrite <- ?app_assoc; reflexivity.
  - rewrite Hq. msimpl.
    destruct (w_sleep w (S (st_steps st))); msimpl;
      rewrite <- ?app_assoc; reflexivity.
Qed.

(** A witness: the database file has no table yet (the start-up hook has
    not run), and the sleep is interrupted. *)
Lemma monitor_cycle_load_failure_witness :
  let w0 := sample_world (fun _ => 1714600000%Q)
              (fun _ => HttpRaises RequestException) no_adapter in
  let w := {| w_clock := w_clock w0; w_db_fault := w_db_fault w0;
              w_adapt := w_adapt w0; w_sql_datetime := w_sql_datetime w0;
              w_http_get := w_http_get w0;
              w_fromtimestamp := w_fromtimestamp w0;
              w_format_tweet_text := w_format_tweet_text w0;
              w_add_job := w_add_job w0; w_post_tweet := w_post_tweet w0;
              w_okx_new := w_okx_new w0; w_get_quote := w_get_quote w0;
              w_purchase_params := w_purchase_params w0;
              w_sleep := fun _ => Some RuntimeError |} in
  monitor_cycle w (initial_state [])
  = (Ok tt,
     {| st_db := []; st_jobs := []; st_posted := []; st_requests := [];
        st_out := [LRoundStart; LTokenListFailed OperationalError;
                   LMonitorError OperationalError; LSleepError RuntimeError];
        st_steps := 2; st_last_tweet_time := 0 |}).
Proof.
  intros w0 w.
  rewrite (monitor_cycle_load_failure w (initial_state []) OperationalError);
    [reflexivity|].
  right. split; reflexivity.
Defined.

Lemma token_body_prefix w token name ca st :
  dict_get token "token" = Some name ->
  dict_get token "ca" = Some ca ->
  truthy (fetch_result
            (w_http_get w (st_steps st) (dexscreener_request ca))) = true ->
  token_body w token st
  = (let dex_data :=
       fetch_result (w_http_get w (st_steps st) (dexscreener_request ca)) in
     _ <- add_price_record w ca dex_data ;;
     pairs <- lift (subscript dex_data "pairs") ;;
     first_pair <- lift (subscript0 pairs) ;;
     current_mcap <- lift (subscript first_pair "fdv") ;;
     initial_mcap <- lift (subscript (PyDict token) "initial_mcap") ;;
     multiple <- lift (py_truediv current_mcap initial_mcap) ;;
     print (LCurrentMcap current_mcap multiple) ;;
     for_each MULTIPLES (tier_step w token dex_data current_mcap multiple))
      (after_fetch w name ca st).
Proof.
  intros Hname Hca Ht. unfold token_body, subscript at 1 2.
  rewrite Hname, Hca. cbn [of_option].
  unfold bind_m at 1. cbn [lift].
  unfold bind_m at 1. cbn [print].
  unfold bind_m at 1. cbn [lift].
  unfold bind_m at 1. rewrite fetch_dexscreener_data_effect.
  cbn [st_out st_db st_jobs st_posted st_requests st_steps
       st_last_tweet_time].
  rewrite Ht. reflexivity.
Qed.

Lemma try_ret_false_answers (m : M bool) (f : exn -> line) st :
  exists b,
    fst (try_ m (fun e => print (f e) ;; ret false) st) = Ok b.
Proof.
  unfold try_. destruct (m st) as [[b|e] st1]; cbn; eauto.
Qed.

Lemma add_price_record_answers w ca dex_data st :
  exists b, fst (add_price_record w ca dex_data st) = Ok b.
Proof. apply (try_ret_false_answers _ LPriceRecordFailed). Qed.

(** X13. The answer of [add_price_record] is not looked at.  For a token
    whose data is got, with a first pair that has a valuation and a
    baseline it can be divided by, the pass examines the tiers whether the
    price sample was stored or not: the step of the token ends in the
    state the tier loop reaches from the state [add_price_record] left. *)
Theorem evaluation_ignores_sample_outcome :
  forall (w : World) (token : dict) (name ca : pyval) (st : state)
         (pairs pair cur base : pyval) (multiple : pyfloat),
    dict_get token "token" = Some name ->
    dict_get token "ca" = Some ca ->
    let dex := fetch_result
                 (w_http_get w (st_steps st) (dexscreener_request ca)) in
    truthy dex = true ->
    subscript dex "pairs" = Ok pairs ->
    subscript0 pairs = Ok pair ->
    subscript pair "fdv" = Ok cur ->
    dict_get token "initial_mcap" = Some base ->
    py_truediv cur base = Ok multiple ->
    let sampled := add_price_record w ca dex (after_fetch w name ca st) in
    (exists stored, fst sampled = Ok stored)
    /\ snd (token_step w token st)
       = snd (for_each MULTIPLES (tier_step w token dex cur multiple)
                (snd (print (LCurrentMcap cur multiple) (snd sampled)))).
Proof.
  intros w token name ca st pairs pair cur base multiple
         Hname Hca dex Ht Hp Hp0 Hfdv Hbase Hdiv sampled.
  pose proof (add_price_record_answers w ca dex (after_fetch w name ca st))
    as Hpr.
  fold sampled in Hpr.
  split; [exact Hpr|].
  unfold token_step, try_.
  rewrite (token_body_prefix w token name ca st Hname Hca Ht).
  fold dex. cbv zeta. unfold bind_m at 1. fold sampled.
  destruct sampled as [[stored|e] s1];
    [|destruct Hpr as [b H]; discriminate H].
  cbn [snd]. unfold bind_m at 1. rewrite Hp. cbn [lift].
  unfold bind_m at 1. rewrite Hp0. cbn [lift].
  unfold bind_m at 1. rewrite Hfdv. cbn [lift].
  unfold bind_m at 1. unfold subscript at 1. rewrite Hbase. cbn [lift of_option].
  unfold bind_m at 1. rewrite Hdiv. cbn [lift].
  unfold bind_m at 1.
  destruct (print (LCurrentMcap cur multiple) s1) as [[[]|e] s2] eqn:Eprint;
    [|discriminate Eprint].
  cbn [snd].
  pose proof (for_each_tier_step_returns w token dex cur multiple MULTIPLES s2)
    as Hr.
  destruct (for_each MULTIPLES _ s2) as [r s3]. cbn in Hr. subst r.
  reflexivity.
Qed.

(** A witness: the storage layer fails when the price sample of token A is
    written; the sample is lost, and tier 5 is queued all the same. *)
Lemma evaluation_ignores_sample_outcome_witness :
  let w := with_db_fault
             (fun k => if (k =? 1)%nat then Some OperationalError else None)
             (sample_world (fun _ => 1714600000%Q)
                (http_for (Some 550%Q) None) no_adapter) in
  let st := initial_state db_one_token in
  let sampled := add_price_record w (PyStr "A") (snapshot 550)
                   (after_fetch w (PyStr "TOK") (PyStr "A") st) in
  let st' := snd (token_step w token_A st) in
  fst sampled = Ok false
  /\ rows_of (st_db st') "price_history" = []
  /\ st_jobs st' = [{| job_run_date := 1714601800; job_text := "alert" |}]
  /\ st_out st'
     = [LCheckToken (PyStr "TOK"); LPriceRecordFailed OperationalError;
        LCurrentMcap (PyNum (PFin 550)) (PFin (11 # 2));
        LTargetReached (PyStr "A") 5 1714600000;
        LQueued 1714600000 1714601800 "alert";
        LScheduled (PyStr "A") 5 1714600000].
Proof.
  intros w st sampled st'.
  destruct (evaluation_ignores_sample_outcome w token_A (PyStr "TOK")
              (PyStr "A") st
              (PyList [PyDict [("fdv"%string, PyNum (PFin 550));
                               ("priceUsd"%string, PyStr "0.01");
                               ("pairCreatedAt"%string,
                                PyNum (PFin 1714464000000))]])
              (PyDict [("fdv"%string, PyNum (PFin 550));
                       ("priceUsd"%string, PyStr "0.01");
                       ("pairCreatedAt"%string, PyNum (PFin 1714464000000))])
              (PyNum (PFin 550)) (PyNum (PFin 100)) (PFin (11 # 2))
              eq_refl eq_refl eq_refl eq_refl eq_refl eq_refl eq_refl eq_refl)
    as [_ H].
  fold st' in H.
  split; [reflexivity|].
  rewrite H. repeat split; vm_compute; reflexivity.
Defined.

(** X14. An evaluation that cannot be made is dropped after the price
    sample was taken.  For a token whose data is got, when the first pair
    has no valuation, or the stored baseline is missing, or the division
    raises, the exception is caught by the handler of the token: the step
    ends, without raising, in the state [add_price_record] left plus the
    line that reports the exception, and no tier is examined.  A baseline
    of zero (0 or 0.0) is such a case: the division raises
    ZeroDivisionError, at every pass. *)
Theorem evaluation_error_after_sample :
  forall (w : World) (token : dict) (name ca : pyval) (st : state)
         (pairs pair : pyval) (e : exn),
    dict_get token "token" = Some name ->
    dict_get token "ca" = Some ca ->
    let dex := fetch_result
                 (w_http_get w (st_steps st) (dexscreener_request ca)) in
    truthy dex = true ->
    subscript dex "pairs" = Ok pairs ->
    subscript0 pairs = Ok pair ->
    (subscript pair "fdv" = Raise e
     \/ exists cur,
          subscript pair "fdv" = Ok cur
          /\ (subscript (PyDict token) "initial_mcap" = Raise e
              \/ exists base,
                   dict_get token "initial_mcap" = Some base
                   /\ py_truediv cur base = Raise e)) ->
    token_step w token st
    = (Ok tt,
       snd (print (LTokenError e)
              (snd (add_price_record w ca dex (after_fetch w name ca st)))))
    /\ forall x cur z,
         py_number cur = Ok x -> Qis_zero z = true ->
         py_truediv cur (PyNum (PFin z)) = Raise ZeroDivisionError.
Proof.
  intros w token name ca st pairs pair e Hname Hca dex Ht Hp Hp0 Herr.
  split.
  - pose proof (add_price_record_answers w ca dex (after_fetch w name ca st))
      as Hpr.
    unfold token_step, try_.
    rewrite (token_body_prefix w token name ca st Hname Hca Ht).
    fold dex. cbv zeta. unfold bind_m at 1.
    destruct (add_price_record w ca dex (after_fetch w name ca st))
      as [[stored|e'] s1]; [|destruct Hpr as [b H]; discriminate H].
    cbn [snd]. unfold bind_m at 1. rewrite Hp. cbn [lift].
    unfold bind_m at 1. rewrite Hp0. cbn [lift].
    unfold bind_m at 1.
    destruct Herr as [Hfdv|(cur & Hfdv & Herr)]; rewrite Hfdv; cbn [lift].
    + unfold subscript. rewrite Hname. reflexivity.
    + unfold bind_m at 1.
      destruct Herr as [Hbase|(base & Hbase & Hdiv)].
      * rewrite Hbase. cbn [lift]. unfold subscript. rewrite Hname.
        reflexivity.
      * unfold subscript at 1. rewrite Hbase. cbn [lift of_option].
        unfold bind_m at 1. rewrite Hdiv. cbn [lift].
        unfold subscript. rewrite Hname. reflexivity.
  - intros x cur z Hx Hz. unfold py_truediv. rewrite Hx. cbn [rbind py_number].
    unfold fdiv. rewrite Hz. now destruct x.
Qed.

(** A witness: a token stored with a baseline of 0. *)
Lemma evaluation_error_after_sample_witness :
  let w := sample_world (fun _ => 1714600000%Q)
             (http_for (Some 550%Q) None) no_adapter in
  let token : dict :=
    [("ca", PyStr "A"); ("token", PyStr "TOK");
     ("initial_mcap", PyNum (PFin 0))]%string in
  let st := initial_state db_one_token in
  let st' := snd (token_step w token st) in
  fst (token_step w token st) = Ok tt
  /\ st_out st'
     = [LCheckToken (PyStr "TOK"); LTokenError ZeroDivisionError]
  /\ List.length (rows_of (st_db st') "price_history") = 1%nat
  /\ st_jobs st' = [].
Proof.
  intros w token st st'.
  assert (Hz : py_truediv (PyNum (PFin 550)) (PyNum (PFin 0))
               = Raise ZeroDivisionError) by reflexivity.
  destruct (evaluation_error_after_sample w token (PyStr "TOK") (PyStr "A")
              st
              (PyList [PyDict [("fdv"%string, PyNum (PFin 550));
                               ("priceUsd"%string, PyStr "0.01");
                               ("pairCreatedAt"%string,
                                PyNum (PFin 1714464000000))]])
              (PyDict [("fdv"%string, PyNum (PFin 550));
                       ("priceUsd"%string, PyStr "0.01");
                       ("pairCreatedAt"%string, PyNum (PFin 1714464000000))])
              ZeroDivisionError
              eq_refl eq_refl eq_refl eq_refl eq_refl
              (or_intror
                 (ex_intro _ (PyNum (PFin 550))
                    (conj eq_refl
                       (or_intror
                          (ex_intro _ (PyNum (PFin 0))
                             (conj eq_refl Hz)))))))
    as [H _].
  subst st'. rewrite H. repeat split; vm_compute; reflexivity.
Defined.

(** ** The scheduler's queue *)

Lemma queued_texts_app a b :
  queued_texts (a ++ b) = queued_texts a ++ queued_texts b.
Proof.
  induction a as [|l a IH]; cbn; [reflexivity|].
  destruct l; cbn; now rewrite IH.
Qed.

Lemma keeps_accounted_refl st : keeps_accounted st st.
Proof. intros H. exact H. Qed.

Lemma keeps_accounted_trans a b c :
  keeps_accounted a b -> keeps_accounted b c -> keeps_accounted a c.
Proof. unfold keeps_accounted. auto. Qed.

(** An action that only prints keeps the account. *)
Lemma quiet_keeps_accounted st st' new :
  st_posted st' = st_posted st ->
  st_jobs st' = st_jobs st ->
  st_out st' = st_out st ++ new ->
  keeps_accounted st st'.
Proof.
  intros Hp Hj Ho [Hn Hi]. unfold accounted.
  rewrite Hp, Hj, Ho, queued_texts_app, length_app.
  split; [lia|]. now apply incl_appl.
Qed.

Lemma print_accounted l : respects keeps_accounted (print l).
Proof. intros st. now apply (quiet_keeps_accounted _ _ [l]). Qed.

Lemma schedule_tweet_accounted w text delay :
  respects keeps_accounted (schedule_tweet w text delay).
Proof.
  intros st [Hn Hi]. unfold schedule_tweet. munfold. cbn.
  destruct (w_add_job w (S (st_steps st))); unfold accounted; cbn;
    rewrite queued_texts_app; cbn; rewrite ?length_app; cbn.
  - split; [lia | now apply incl_appl].
  - rewrite map_app, app_assoc. cbn. split; [lia|].
    apply incl_app; [now apply incl_appl|].
    apply incl_appr, incl_refl.
Qed.

Lemma remove_nth_length {A} n (l : list A) a :
  nth_error l n = Some a -> S (List.length (remove_nth n l)) = List.length l.
Proof.
  unfold remove_nth. revert l.
  induction n as [|n IH]; intros [|x l] H; try discriminate H.
  - reflexivity.
  - change (S (S (List.length (firstn n l ++ skipn (S n) l)))
            = S (List.length l)).
    f_equal. now apply IH.
Qed.

Lemma remove_nth_incl {A} n (l : list A) : incl (remove_nth n l) l.
Proof.
  unfold remove_nth. intros x Hx. apply in_app_or in Hx as [Hx|Hx].
  - rewrite <- (firstn_skipn n l). apply in_or_app. now left.
  - rewrite <- (firstn_skipn (S n) l). apply in_or_app. now right.
Qed.

Lemma run_job_accounted w n : respects keeps_accounted (run_job w n).
Proof.
  intros st [Hn Hi]. unfold run_job, send_tweet. munfold. cbn.
  destruct (nth_error (st_jobs st) n) as [j|] eqn:Ej; [|split; assumption].
  destruct (Qle_bool (job_run_date j) (w_clock w (st_steps st)));
    [|split; assumption].
  assert (Hlen := remove_nth_length n (st_jobs st) j Ej).
  assert (Hin : In (job_text j) (queued_texts (st_out st))).
  { apply Hi, in_or_app. right. apply in_map.
    eapply nth_error_In, Ej. }
  assert (Hinc : incl ((st_posted st ++ [job_text j])
                       ++ map job_text (remove_nth n (st_jobs st)))
                      (queued_texts (st_out st))).
  { apply incl_app; [apply incl_app|].
    - intros x Hx. apply Hi, in_or_app. now left.
    - intros x [<-|[]]. exact Hin.
    - intros x Hx. apply Hi, in_or_app. right.
      apply in_map_iff in Hx as (j' & <- & Hj').
      apply in_map. now apply (remove_nth_incl n). }
  cbn. destruct (w_post_tweet w (S (st_steps st)) (job_text j)) as [code|e];
    cbn; [destruct (code =? 201); cbn|]; unfold accounted; cbn;
    rewrite !queued_texts_app; cbn; rewrite ?app_nil_r, !length_app; cbn;
    (split; [lia | exact Hinc]).
Qed.

Ltac acc_prim :=
  idtac;
  match goal with
  | |- respects _ (schedule_tweet _ _ _) => apply schedule_tweet_accounted
  | |- respects _ (print _) => apply print_accounted
  | |- respects _ interact => intros ? ?; assumption
  | |- respects _ (add_request _) => intros ? ?; assumption
  | |- respects _ (put_db _) => intros ? ?; assumption
  | |- respects _ (put_last_tweet_time _) => intros ? ?; assumption
  end.

Ltac acc_tac :=
  respects_with keeps_accounted_refl keeps_accounted_trans acc_prim.

Lemma tier_step_accounted w token dex_data current_mcap multiple t :
  respects keeps_accounted
           (tier_step w token dex_data current_mcap multiple t).
Proof.
  unfold tier_step, tier_body, check_multiple_alerted, record_multiple_alert,
    with_connection.
  acc_tac.
Qed.

Lemma monitor_cycle_accounted w : respects keeps_accounted (monitor_cycle w).
Proof.
  unfold monitor_cycle, get_all_tokens, token_step, token_body,
    add_price_record, fetch_dexscreener_data, with_connection.
  acc_tac; apply tier_step_accounted.
Qed.

Lemma receive_token_accounted w data :
  respects keeps_accounted (receive_token w data).
Proof.
  unfold receive_token, add_token, check_tokens, add_purchase_record,
    fetch_dexscreener_data, with_connection. cbv zeta.
  acc_tac.
Qed.

Lemma perform_accounted w a : respects keeps_accounted (perform w a).
Proof.
  destruct a; cbn [perform].
  - unfold init_db, with_connection. acc_tac.
  - apply (respects_bind _ keeps_accounted_trans);
      [apply receive_token_accounted | intros ?; acc_tac].
  - apply monitor_cycle_accounted.
  - apply run_job_accounted.
Qed.

Lemma run_accounted w actions st :
  accounted st -> accounted (run w actions st).
Proof.
  revert st. induction actions as [|a actions IH]; intros st H;
    cbn [run fold_left]; [exact H|].
  apply IH. now apply (perform_accounted w a st).
Qed.

(** X15. Nothing is handed to the posting API that [schedule_tweet] did
    not queue.  In every run of a process, every text posted or waiting in
    the scheduler is the text of an alert that was queued, and the posts
    made and the jobs waiting are together no more than the alerts
    queued: a job is posted at most once. *)
Theorem scheduler_accounts_for_every_post :
  forall (w : World) (db : database) (actions : list action),
    let st := run w actions (initial_state db) in
    (List.length (st_posted st) + List.length (st_jobs st)
     <= List.length (queued_texts (st_out st)))%nat
    /\ (forall text, In text (st_posted st) ->
                     In text (queued_texts (st_out st)))
    /\ (forall j, In j (st_jobs st) ->
                  In (job_text j) (queued_texts (st_out st))).
Proof.
  intros w db actions st.
  assert (H : accounted st).
  { apply run_accounted. split; cbn; [lia | intros x []]. }
  destruct H as [Hn Hi]. split; [exact Hn|]. split.
  - intros text Ht. apply Hi, in_or_app. now left.
  - intros j Hj. apply Hi, in_or_app. right. now apply in_map.
Qed.

(** A witness: token A is scheduled at tier 5 in a polling pass, and the
    scheduler runs the job when its date has come. *)
Lemma scheduler_accounts_for_every_post_witness :
  let w := sample_world (fun k => inject_Z (1714600000 + 2000 * Z.of_nat k))
             (http_for (Some 550%Q) None) no_adapter in
  let st := run w [MonitorCycle; RunJob 0] (initial_state db_one_token) in
  st_posted st = ["alert"%string]
  /\ st_jobs st = []
  /\ queued_texts (st_out st) = ["alert"%string]
  /\ In "alert"%string (queued_texts (st_out st)).
Proof.
  intros w st.
  destruct (scheduler_accounts_for_every_post w db_one_token
              [MonitorCycle; RunJob 0]) as (_ & H & _).
  assert (Hp : st_posted st = ["alert"%string]) by (vm_compute; reflexivity).
  split; [exact Hp|].
  split; [vm_compute; reflexivity|].
  split; [vm_compute; reflexivity|].
  apply H. fold st. rewrite Hp. now left.
Defined.

(** ** Ingestion, its failures *)

Lemma add_purchase_record_all_or_nothing w quote_data ca st :
  all_or_nothing "purchase_records" st (add_purchase_record w quote_data ca st).
Proof.
  unfold add_purchase_record, with_connection. munfold. cbn.
  destruct (w_db_fault w (st_steps st)); cbn; [left; split; reflexivity|].
  destruct (w_purchase_params w quote_data ca) as [ps|e]; cbn;
    [|left; split; reflexivity].
  destruct (add_purchase_record_sql _ _ _ _) as [db'|e] eqn:E; cbn;
    [|left; split; reflexivity].
  right. split; [reflexivity|].
  apply sql_insert_table in E as (t & vals & Ht & _ & _ & ->).
  eexists t, _. split; [exact Ht | reflexivity].
Qed.

(** X16. [check_tokens] reports a purchase as recorded without looking at
    the answer of [add_purchase_record].  When the quote client is created
    and answers a quote whose code is "0", the quote is returned and the
    line of success is printed after whatever [add_purchase_record] did;
    when that answered False the database is what it was, and the success
    is printed all the same. *)
Theorem check_tokens_reports_recorded :
  forall (w : World) (ca : string) (st : state) (q : dict),
    w_okx_new w (st_steps st) = None ->
    w_get_quote w (S (st_steps st)) ca = Ok (PyDict q) ->
    dict_get q "code" = Some (PyStr "0") ->
    let recorded :=
      add_purchase_record w (PyDict q) ca (at_step (2 + st_steps st) st) in
    check_tokens w ca st
    = (Ok (PyDict q), snd (print (LQuoteRecorded ca) (snd recorded)))
    /\ (exists stored, fst recorded = Ok stored)
    /\ (fst recorded = Ok false ->
        st_db (snd (check_tokens w ca st)) = st_db st).
Proof.
  intros w ca st q Hnew Hq Hcode recorded.
  pose proof (add_purchase_record_all_or_nothing w (PyDict q) ca
                (at_step (2 + st_steps st) st)) as Hrec.
  fold recorded in Hrec.
  assert (E : check_tokens w ca st
              = (Ok (PyDict q), snd (print (LQuoteRecorded ca) (snd recorded)))).
  { unfold check_tokens. munfold. cbn -[add_purchase_record].
    rewrite Hnew. cbn -[add_purchase_record].
    rewrite Hq. cbn -[add_purchase_record].
    rewrite Hcode. cbn -[add_purchase_record].
    change {| st_db := st_db st; st_jobs := st_jobs st;
              st_posted := st_posted st; st_requests := st_requests st;
              st_out := st_out st; st_steps := S (S (st_steps st));
              st_last_tweet_time := st_last_tweet_time st |}
      with (at_step (2 + st_steps st) st).
    fold recorded.
    destruct recorded as [[b|e] s1]; [reflexivity|].
    destruct Hrec as [[H _]|[H _]]; discriminate H. }
  split; [exact E|]. split.
  - destruct Hrec as [[H _]|[H _]]; rewrite H; eauto.
  - intros Hfalse. rewrite E. cbn [snd print st_db].
    destruct Hrec as [[_ H]|[H _]]; [exact H|].
    rewrite H in Hfalse. discriminate Hfalse.
Qed.

(** A witness: a quote of code "0" whose fields cannot be read; nothing is
    stored and the purchase is reported as recorded. *)
Lemma check_tokens_reports_recorded_witness :
  let quote := [("code"%string, PyStr "0")] in
  let w := with_quotes (fun _ => None) (fun _ _ => Ok (PyDict quote))
             (fun _ _ => Raise KeyError)
             (sample_world (fun _ => 1714600000%Q)
                (fun _ => HttpRaises RequestException) no_adapter) in
  let r := check_tokens w "A" (initial_state fresh_db) in
  fst r = Ok (PyDict quote)
  /\ st_out (snd r) = [LPurchaseRecordFailed KeyError; LQuoteRecorded "A"]
  /\ st_db (snd r) = fresh_db.
Proof.
  intros quote w r.
  destruct (check_tokens_reports_recorded w "A" (initial_state fresh_db)
              quote eq_refl eq_refl eq_refl) as (E & _ & Hdb).
  fold r in E, Hdb. split; [now rewrite E|].
  split; [rewrite E; reflexivity|].
  apply Hdb. reflexivity.
Defined.

Lemma receive_token_prefix w data st :
  receive_token w data st
  = try_
      (let dex_raw_data :=
         fetch_result
           (w_http_get w (st_steps st)
              (dexscreener_request (PyStr (ca data)))) in
       if negb (truthy dex_raw_data) then ret (ReplyError FetchFailedMessage)
       else
         match parse_dexscreener_data (w_fromtimestamp w) dex_raw_data with
         | None => ret (ReplyError ParseFailedMessage)
         | Some dex_data =>
             let mcap := parse_market_cap (marketCap data) in
             (if fpos mcap
              then added <- add_token w (PyStr (token data)) (PyStr (ca data))
                              (PyNum mcap) (PyStr (date data))
                              (PyList (map PyStr (sourceType data))) ;;
                   if added : bool then print (LStored (token data))
                   else ret tt
              else ret tt) ;;
             quote_result <- check_tokens w (ca data) ;;
             ret (ReplySuccess (token data) mcap dex_data quote_result)
         end)
      (fun e => print (LReceiveError e) ;; ret (ReplyHTTPException 500 e))
      (after_receipt w data st).
Proof.
  unfold receive_token, try_.
  unfold bind_m at 1. cbn [print].
  unfold bind_m at 1. rewrite fetch_dexscreener_data_effect.
  reflexivity.
Qed.

(** X17. A submission for which DexScreener has no usable data is answered
    with an error and stores nothing, whatever its market cap: when the
    data cannot be got, and when it is got but cannot be parsed, the reply
    is the error, one request was made, and the database, the queue and
    the quote client are not touched. *)
Theorem receive_token_without_market_data :
  forall (w : World) (data : TokenData) (st : state),
    let dex := fetch_result
                 (w_http_get w (st_steps st)
                    (dexscreener_request (PyStr (ca data)))) in
    (truthy dex = false ->
     receive_token w data st
     = (Ok (ReplyError FetchFailedMessage), after_receipt w data st))
    /\ (truthy dex = true ->
        parse_dexscreener_data (w_fromtimestamp w) dex = None ->
        receive_token w data st
        = (Ok (ReplyError ParseFailedMessage), after_receipt w data st)).
Proof.
  intros w data st dex. split.
  - intros Ht. rewrite receive_token_prefix. fold dex. cbv zeta.
    rewrite Ht. reflexivity.
  - intros Ht Hp. rewrite receive_token_prefix. fold dex. cbv zeta.
    rewrite Ht, Hp. reflexivity.
Qed.

(** A witness: a market cap of 1.5M for an address DexScreener answers
    with an empty list of pairs. *)
Lemma receive_token_without_market_data_witness :
  let w := sample_world (fun _ => 1714600000%Q)
             (fun _ => HttpResponse 200
                         (Ok (PyDict [("pairs"%string, PyList [])])))
             list_adapter in
  receive_token w (sample_data "1.5M") (initial_state fresh_db)
  = (Ok (ReplyError ParseFailedMessage),
     {| st_db := fresh_db; st_jobs := []; st_posted := [];
        st_requests := [dexscreener_request (PyStr "A")];
        st_out := [LReceived "TOK"]; st_steps := 1;
        st_last_tweet_time := 0 |}).
Proof.
  intros w.
  destruct (receive_token_without_market_data w (sample_data "1.5M")
              (initial_state fresh_db)) as [_ H].
  rewrite (H eq_refl eq_refl). reflexivity.
Defined.

(** X18. The ingestion is not undone when it fails late.  With the market
    data got and parsed and a market cap above zero, when the quote client
    cannot be created the exception reaches the handler of the endpoint,
    which answers with an HTTP error 500; the database is then what
    [add_token] left, so a token that was stored stays stored. *)
Theorem receive_token_late_failure :
  forall (w : World) (data : TokenData) (st : state) (dex : parsed_dex)
         (e : exn),
    let raw := fetch_result
                 (w_http_get w (st_steps st)
                    (dexscreener_request (PyStr (ca data)))) in
    truthy raw = true ->
    parse_dexscreener_data (w_fromtimestamp w) raw = Some dex ->
    fpos (parse_market_cap (marketCap data)) = true ->
    w_okx_new w (2 + st_steps st) = Some e ->
    let added := add_token w (PyStr (token data)) (PyStr (ca data))
                   (PyNum (parse_market_cap (marketCap data)))
                   (PyStr (date data))
                   (PyList (map PyStr (sourceType data)))
                   (after_receipt w data st) in
    let r := receive_token w data st in
    fst r = Ok (ReplyHTTPException 500 e)
    /\ st_db (snd r) = st_db (snd added)
    /\ exists mid, st_out (snd r)
                   = st_out (snd added) ++ mid ++ [LReceiveError e].
Proof.
  intros w data st dex e raw Ht Hp Hpos Hnew added r.
  assert (Hsteps : st_steps (snd added) = (2 + st_steps st)%nat).
  { subst added. unfold add_token, with_connection. munfold. cbn.
    destruct (w_db_fault w (S (st_steps st))); cbn; [reflexivity|].
    destruct (add_token_sql _ _ _ _ _ _ _ _) as [[[] db']|e']; reflexivity. }
  assert (Hret : exists b, fst added = Ok b).
  { subst added. unfold add_token, try_.
    destruct (bind_m _ _ _) as [[b|e'] s]; cbn; eauto. }
  assert (Hc : forall s, st_steps s = (2 + st_steps st)%nat ->
               check_tokens w (ca data) s
               = (Raise e, at_step (S (st_steps s)) s)).
  { intros s Hs. unfold check_tokens. munfold. cbn. rewrite Hs, Hnew.
    reflexivity. }
  subst r. rewrite receive_token_prefix. fold raw. cbv zeta.
  rewrite Ht, Hp, Hpos. cbn [negb]. unfold try_, bind_m. fold added.
  destruct added as [[b|e'] s1]; [|destruct Hret as [b H]; discriminate H].
  cbn [snd] in *.
  destruct b.
  - cbn [print]. rewrite Hc; [|exact Hsteps].
    cbn. split; [reflexivity|]. split; [reflexivity|].
    exists [LStored (token data)]. now rewrite <- app_assoc.
  - cbn [ret]. rewrite Hc; [|exact Hsteps].
    cbn. split; [reflexivity|]. split; [reflexivity|].
    exists []. reflexivity.
Qed.

(** A witness: token A is submitted with the market cap "1e3K", a million;
    it is stored, the quote client cannot be created, the answer is an
    error 500 and A is in the table. *)
Lemma receive_token_late_failure_witness :
  let w := with_quotes (fun _ => Some RuntimeError)
             (fun _ _ => Raise RuntimeError) (fun _ _ => Raise KeyError)
             (sample_world (fun _ => 1714600000%Q)
                (fun _ => HttpResponse 200 (Ok (snapshot 100)))
                list_adapter) in
  let r := receive_token w (sample_data "1e3K") (initial_state fresh_db) in
  fst r = Ok (ReplyHTTPException 500 RuntimeError)
  /\ rows_of (st_db (snd r)) "monitored_tokens"
     = [[VText "A"; VText "TOK"; VNum (PFin 1000000); VTime 1714600000;
         VNum (PFin 0); VText "2024-05-01 12:00:00"; VText "[...]"]]
  /\ st_out (snd r)
     = [LReceived "TOK"; LTokenAdded (PyStr "TOK"); LStored "TOK";
        LReceiveError RuntimeError].
Proof.
  intros w r.
  destruct (receive_token_late_failure w (sample_data "1e3K")
              (initial_state fresh_db)
              {| price_usd := PFin (1 # 100);
                 created_time := "2024-04-30 08:00:00"; socials := [] |}
              RuntimeError eq_refl eq_refl eq_refl eq_refl)
    as (H1 & H2 & _).
  fold r in H1, H2. split; [exact H1|].
  split; [rewrite H2; vm_compute; reflexivity|].
  vm_compute. reflexivity.
Defined.

(** ** The snapshot parser *)

(** X19. Of the pairs DexScreener returns only the first is read: the
    parsed snapshot of an answer is that of the answer cut down to its
    first pair, whatever the other pairs and the other keys are. *)
Theorem parse_dexscreener_data_first_pair :
  forall (fromtimestamp : pyfloat -> res string) (d : dict)
         (p : pyval) (rest : list pyval),
    dict_get d "pairs" = Some (PyList (p :: rest)) ->
    parse_dexscreener_data fromtimestamp (PyDict d)
    = parse_dexscreener_data fromtimestamp
        (PyDict [("pairs"%string, PyList [p])]).
Proof.
  intros f d p rest H.
  unfold parse_dexscreener_data, parse_dexscreener_data_body.
  cbn [py_get subscript dict_get String.eqb Ascii.eqb Bool.eqb]. rewrite H.
  reflexivity.
Qed.

(** A witness: an answer with two pairs and another key. *)
Lemma parse_dexscreener_data_first_pair_witness :
  let f := fun _ : pyfloat => Ok "2024-04-30 08:00:00"%string in
  let p := PyDict [("priceUsd"%string, PyStr "0.25")] in
  let q := PyDict [("priceUsd"%string, PyStr "9")] in
  parse_dexscreener_data f
    (PyDict [("schemaVersion"%string, PyStr "1.0.0");
             ("pairs"%string, PyList [p; q])])
  = parse_dexscreener_data f (PyDict [("pairs"%string, PyList [p])])
  /\ parse_dexscreener_data f (PyDict [("pairs"%string, PyList [p])])
     = Some {| price_usd := PFin (1 # 4);
               created_time := "2024-04-30 08:00:00"; socials := [] |}.
Proof.
  intros f p q. split; [|reflexivity].
  apply (parse_dexscreener_data_first_pair f _ p [q]). reflexivity.
Defined.

(** X20. The parser never raises: what it cannot read it answers with None.
    That is the case of an answer that is no dict, of one without pairs or
    with pairs that are None or empty, of a first pair that is no dict, of
    a price that is no number and of a creation time that is no number. *)
Theorem parse_dexscreener_data_unavailable :
  forall fromtimestamp : pyfloat -> res string,
    (forall data, (forall d, data <> PyDict d) ->
                  parse_dexscreener_data fromtimestamp data = None)
    /\ (forall d, dict_get d "pairs" = None ->
                  parse_dexscreener_data fromtimestamp (PyDict d) = None)
    /\ (forall d pairs,
          dict_get d "pairs" = Some pairs -> truthy pairs = false ->
          parse_dexscreener_data fromtimestamp (PyDict d) = None)
    /\ (forall d p rest,
          dict_get d "pairs" = Some (PyList (p :: rest)) ->
          (forall x, p <> PyDict x) ->
          parse_dexscreener_data fromtimestamp (PyDict d) = None)
    /\ (forall d first rest price e,
          dict_get d "pairs" = Some (PyList (PyDict first :: rest)) ->
          dict_get first "priceUsd" = Some price ->
          py_float_of price = Raise e ->
          parse_dexscreener_data fromtimestamp (PyDict d) = None)
    /\ (forall d first rest created e,
          dict_get d "pairs" = Some (PyList (PyDict first :: rest)) ->
          dict_get first "pairCreatedAt" = Some created ->
          py_number created = Raise e ->
          parse_dexscreener_data fromtimestamp (PyDict d) = None).
Proof.
  intros f. unfold parse_dexscreener_data, parse_dexscreener_data_body.
  split; [|split; [|split; [|split; [|split]]]].
  - intros data H. destruct data; try reflexivity. now destruct (H d).
  - intros d H. cbn [py_get rbind]. rewrite H. reflexivity.
  - intros d pairs H Ht. cbn [py_get rbind]. rewrite H, Ht. reflexivity.
  - intros d p rest H Hp. cbn [py_get rbind subscript]. rewrite H.
    cbn [truthy negb of_option rbind subscript0 hd_error].
    destruct p; try reflexivity. now destruct (Hp d0).
  - intros d first rest price e H Hprice He.
    cbn [py_get rbind subscript]. rewrite H.
    cbn [truthy negb of_option rbind subscript0 hd_error py_get].
    rewrite Hprice. cbn [rbind]. rewrite He.
    repeat match goal with
           | |- context [rbind ?r _] =>
               lazymatch r with
               | context [rbind] => fail
               | _ => destruct r; cbn [rbind]; try reflexivity
               end
           end.
  - intros d first rest created e H Hc He.
    cbn [py_get rbind subscript]. rewrite H.
    cbn [truthy negb of_option rbind subscript0 hd_error py_get].
    rewrite Hc.
    assert (Hdiv : py_truediv created (PyNum (PFin 1000)) = Raise e)
      by (unfold py_truediv; now rewrite He).
    destruct (dict_get first "priceUsd"); cbn [rbind]; rewrite Hdiv;
      repeat match goal with
             | |- context [rbind ?r _] =>
                 lazymatch r with
                 | context [rbind] => fail
                 | _ => destruct r; cbn [rbind]; try reflexivity
                 end
             end.
Qed.

(** X21. The twitter link of a snapshot is the link of the first social
    entry whose type is twitter: the entries before it, of other types,
    are passed over and the entries after it are not read; an entry
    without a link gives the empty string, and when no entry is of type
    twitter there is no link. *)
Theorem find_twitter_first_match :
  forall pre : list pyval,
    Forall (fun s => exists x, s = PyDict x
                               /\ forall ty, dict_get x "type" = Some ty ->
                                             is_str ty "twitter" = false) pre ->
    find_twitter pre = Ok []
    /\ forall d post,
         dict_get d "type" = Some (PyStr "twitter") ->
         find_twitter (pre ++ PyDict d :: post)
         = Ok [("twitter"%string,
                match dict_get d "url" with
                | Some url => url
                | None => PyStr ""
                end)].
Proof.
  induction 1 as [|s pre (x & -> & Hx) _ [IH1 IH2]].
  - split; [reflexivity|].
    intros d post Hd. cbn [app find_twitter py_get rbind]. rewrite Hd.
    reflexivity.
  - assert (E : forall rest,
               find_twitter (PyDict x :: rest) = find_twitter rest).
    { intros rest. cbn [find_twitter py_get rbind].
      destruct (dict_get x "type") as [ty|] eqn:Ety.
      - now rewrite (Hx ty eq_refl).
      - reflexivity. }
    split.
    + now rewrite E.
    + intros d post Hd. rewrite <- app_comm_cons, E. now apply IH2.
Qed.

(** A witness: a telegram entry, then two twitter entries. *)
Lemma find_twitter_first_match_witness :
  let tg := PyDict [("type"%string, PyStr "telegram");
                    ("url"%string, PyStr "https://t.me/tok")] in
  let x1 := [("type"%string, PyStr "twitter");
             ("url"%string, PyStr "https://x.com/tok")] in
  let x2 := PyDict [("type"%string, PyStr "twitter");
                    ("url"%string, PyStr "https://x.com/other")] in
  find_twitter [tg; PyDict x1; x2]
  = Ok [("twitter"%string, PyStr "https://x.com/tok")]
  /\ find_twitter [tg] = Ok [].
Proof.
  intros tg x1 x2.
  assert (H : Forall (fun s => exists x,
                        s = PyDict x
                        /\ forall ty, dict_get x "type" = Some ty ->
                                      is_str ty "twitter" = false) [tg]).
  { constructor; [|constructor]. eexists. split; [reflexivity|].
    intros ty [= <-]. reflexivity. }
  destruct (find_twitter_first_match [tg] H) as [H1 H2].
  split; [|exact H1].
  exact (H2 x1 [x2] eq_refl).
Defined.

(** A witness: an answer whose list of pairs is empty, and one whose first
    pair quotes a price that is no number. *)
Lemma parse_dexscreener_data_unavailable_witness :
  let f := fun _ : pyfloat => Ok "2024-04-30 08:00:00"%string in
  parse_dexscreener_data f (PyDict [("pairs"%string, PyList [])]) = None
  /\ parse_dexscreener_data f
       (PyDict [("pairs"%string,
                 PyList [PyDict [("priceUsd"%string, PyStr "n/a")]])])
     = None.
Proof.
  intros f.
  destruct (parse_dexscreener_data_unavailable f)
    as (_ & _ & H3 & _ & H5 & _).
  split.
  - apply (H3 [("pairs"%string, PyList [])] (PyList [])); reflexivity.
  - apply (H5 [("pairs"%string,
                PyList [PyDict [("priceUsd"%string, PyStr "n/a")]])]
              [("priceUsd"%string, PyStr "n/a")] [] (PyStr "n/a") ValueError);
      reflexivity.
Defined.
